(** * Video compression script (compressor.py): model and properties

    A shallow embedding of the progress-tracking process supervisor of
    [compressor.py].  Python values are modelled as follows.

    - [str] is [string]; a character is a code point below 256.
    - [int] is [Z]; [float] is the primitive binary64 type [PrimFloat.float],
      so every float operation below is the IEEE operation Python performs.
    - An exception is a value of [exn]; a call that can raise returns a
      [result].
    - The operating system is a [world]: the file system, the outcome of
      every [subprocess.run], the child started by [subprocess.Popen], the
      interleaving of that child with the reading loop, and standard input.
    - Every interaction with the operating system is recorded as an [event].
*)

From Stdlib Require Import ZArith List String Ascii Bool Lia.
From Stdlib Require Import DecimalString.
From Stdlib Require Import Uint63 PrimFloat FloatOps.
Import ListNotations.

Local Open Scope string_scope.
Local Open Scope Z_scope.

(** ** Python strings *)

Module PyStr.

Definition ord (c : ascii) : Z := Z.of_N (N_of_ascii c).

(** [str.isspace] on one code point below 256. *)
Definition isspace (c : ascii) : bool :=
  let n := ord c in
  ((9 <=? n) && (n <=? 13)) || ((28 <=? n) && (n <=? 32))
  || (n =? 133) || (n =? 160).

(** The decimal digits below code point 256 are [0]..[9]. *)
Definition isdigit (c : ascii) : bool :=
  let n := ord c in (48 <=? n) && (n <=? 57).

Definition digit_val (c : ascii) : Z := ord c - 48.

Fixpoint lstrip (s : string) : string :=
  match s with
  | String c r => if isspace c then lstrip r else s
  | EmptyString => EmptyString
  end.

Fixpoint rstrip (s : string) : string :=
  match s with
  | String c r =>
      match rstrip r with
      | EmptyString => if isspace c then EmptyString else String c EmptyString
      | r' => String c r'
      end
  | EmptyString => EmptyString
  end.

(** [s.strip()] *)
Definition strip (s : string) : string := rstrip (lstrip s).

Definition lower_char (c : ascii) : ascii :=
  let n := ord c in
  if ((65 <=? n) && (n <=? 90))
     || ((192 <=? n) && (n <=? 222) && negb (n =? 215))
  then ascii_of_N (Z.to_N (n + 32)) else c.

(** [s.lower()] *)
Fixpoint lower (s : string) : string :=
  match s with
  | String c r => String (lower_char c) (lower r)
  | EmptyString => EmptyString
  end.

(** [s.split(sep)] for a separator of one character. *)
Fixpoint split (sep : ascii) (s : string) : list string :=
  match s with
  | EmptyString => [EmptyString]
  | String c r =>
      if Ascii.eqb c sep then EmptyString :: split sep r
      else match split sep r with
           | h :: t => String c h :: t
           | [] => [String c EmptyString]
           end
  end.

(** [s.startswith(p)] *)
Definition startswith (p s : string) : bool := String.prefix p s.

(** [sub in s] *)
Fixpoint contains (sub s : string) : bool :=
  String.prefix sub s
  || match s with
     | String _ r => contains sub r
     | EmptyString => false
     end.

(** [x in xs] for a list of strings. *)
Definition mem (x : string) (xs : list string) : bool :=
  existsb (String.eqb x) xs.

Fixpoint rfind_from (c : ascii) (s : string) (i acc : Z) : Z :=
  match s with
  | EmptyString => acc
  | String d r => rfind_from c r (i + 1) (if Ascii.eqb d c then i else acc)
  end.

(** [s.rfind(c)]: the last index of [c], or -1. *)
Definition rfind (c : ascii) (s : string) : Z := rfind_from c s 0 (-1).

(** [s[:i]] and [s[i:]] for [0 <= i]. *)
Definition take (i : Z) (s : string) : string :=
  String.substring 0 (Z.to_nat i) s.
Definition drop (i : Z) (s : string) : string :=
  String.substring (Z.to_nat i) (String.length s - Z.to_nat i) s.

(** [str(n)] for an [int]. *)
Definition of_int (n : Z) : string := NilZero.string_of_int (Z.to_int n).

End PyStr.

(** ** Exceptions and results *)

(** The exceptions the script can meet.  [ValueError_int] and
    [ValueError_float] are the [ValueError] of [int()] and [float()] with
    the rejected literal, [ValueError_unpack] the one of a failed tuple
    unpacking, [ValueError_raise] the bare [raise ValueError] of
    [interactive_mode].  [SystemExit] is raised by [sys.exit] and is not an
    [Exception]. *)
Inductive exn : Type :=
| FileNotFoundError (msg : string)
| OSError (msg : string)
| ValueError_int (literal : string)
| ValueError_float (literal : string)
| ValueError_unpack
| ValueError_raise
| OverflowError
| ZeroDivisionError
| EOFError
| Exception_ (msg : string)
| SystemExit (code : Z).

(** [isinstance(e, Exception)] *)
Definition is_Exception (e : exn) : bool :=
  match e with SystemExit _ => false | _ => true end.

(** [isinstance(e, ValueError)] *)
Definition is_ValueError (e : exn) : bool :=
  match e with
  | ValueError_int _ | ValueError_float _ | ValueError_unpack
  | ValueError_raise => true
  | _ => false
  end.

(** [isinstance(e, FileNotFoundError)] *)
Definition is_FileNotFoundError (e : exn) : bool :=
  match e with FileNotFoundError _ => true | _ => false end.

Inductive result (A : Type) : Type :=
| Ok (a : A)
| Raise (e : exn).
Arguments Ok {A} a.
Arguments Raise {A} e.

(** ** Python numbers *)

Module PyNum.
Import PyStr.

(** The value of the binary64 number nearest to [n / d] (ties to even),
    for [0 <= n] and [0 < d]; infinity when the quotient is beyond the
    largest finite double. *)
Definition round_ratio (n d : Z) : float :=
  if n =? 0 then PrimFloat.zero
  else
    let scaled (e : Z) : Z * Z :=
      if 0 <=? e then (n, d * 2 ^ e) else (n * 2 ^ (- e), d) in
    let e1 := Z.log2 n - Z.log2 d - 53 in
    let q1 := fst (scaled e1) / snd (scaled e1) in
    let e := Z.max (if 2 ^ 53 <=? q1 then e1 + 1 else e1) (-1074) in
    let a := fst (scaled e) in
    let b := snd (scaled e) in
    let q := a / b in
    let r := a mod b in
    let q' :=
      if (b <? 2 * r) || ((b =? 2 * r) && Z.odd q) then q + 1 else q in
    FloatOps.Z.ldexp (PrimFloat.of_uint63 (Uint63.of_Z q')) e.

(** The double nearest to the integer [z], of either sign. *)
Definition float_of_Z (z : Z) : float :=
  if z <? 0 then PrimFloat.opp (round_ratio (- z) 1) else round_ratio z 1.

(** The conversion of an [int] operand of a mixed [int]/[float]
    operation: [OverflowError] when the integer rounds beyond the finite
    doubles, that is from [2^1024 - 2^970] on, half an ulp above the
    largest of them. *)
Definition int_to_float (z : Z) : result float :=
  if 2 ^ 1024 - 2 ^ 970 <=? Z.abs z then Raise OverflowError
  else Ok (float_of_Z z).

(** [i + x] for an [int] [i] and a [float] [x]. *)
Definition add_int_float (i : Z) (x : float) : result float :=
  match int_to_float i with
  | Ok f => Ok (PrimFloat.add f x)
  | Raise e => Raise e
  end.

(** [bool(x)] for a [float]: false for both zeros, true otherwise
    (also for a NaN). *)
Definition truthy (x : float) : bool := negb (PrimFloat.eqb x PrimFloat.zero).

(** [x / y] for two floats: [ZeroDivisionError] for a zero divisor. *)
Definition truediv (x y : float) : result float :=
  if PrimFloat.eqb y PrimFloat.zero then Raise ZeroDivisionError
  else Ok (PrimFloat.div x y).

(** [x * i] for a [float] [x] and an [int] [i]. *)
Definition mul_float_int (x : float) (i : Z) : result float :=
  match int_to_float i with
  | Ok f => Ok (PrimFloat.mul x f)
  | Raise e => Raise e
  end.

(** *** Decimal digits *)

(** The longest prefix of digits, and the rest. *)
Fixpoint span_digits (s : string) : string * string :=
  match s with
  | String c r =>
      if isdigit c then (String c (fst (span_digits r)), snd (span_digits r))
      else (EmptyString, s)
  | EmptyString => (EmptyString, EmptyString)
  end.

(** Horner evaluation of a string of digits. *)
Fixpoint digits_acc (s : string) (acc : Z) : Z :=
  match s with
  | String c r => digits_acc r (acc * 10 + digit_val c)
  | EmptyString => acc
  end.

(** Digits with single underscores between them, as [int()] reads them. *)
Fixpoint digits_us (s : string) (prev_digit : bool) (acc : Z) : option Z :=
  match s with
  | EmptyString => if prev_digit then Some acc else None
  | String c r =>
      if isdigit c then digits_us r true (acc * 10 + digit_val c)
      else if Ascii.eqb c "_" && prev_digit then digits_us r false acc
      else None
  end.

(** An optional sign at the head of a literal. *)
Definition split_sign (t : string) : bool * string :=
  match t with
  | String c r =>
      if Ascii.eqb c "-" then (true, r)
      else if Ascii.eqb c "+" then (false, r)
      else (false, t)
  | EmptyString => (false, EmptyString)
  end.

(** [int(s)] in base ten. *)
Definition int (s : string) : result Z :=
  let neg := fst (split_sign (strip s)) in
  match digits_us (snd (split_sign (strip s))) false 0 with
  | Some n => Ok (if neg then - n else n)
  | None => Raise (ValueError_int s)
  end.

(** The underscores of a [float()] literal: each one must stand between
    two digits, and all of them are dropped. *)
Fixpoint remove_underscores (prev : ascii) (s : string) : option string :=
  match s with
  | EmptyString => if Ascii.eqb prev "_" then None else Some EmptyString
  | String c r =>
      if Ascii.eqb c "_" then
        if isdigit prev then remove_underscores c r else None
      else if Ascii.eqb prev "_" && negb (isdigit c) then None
      else option_map (String c) (remove_underscores c r)
  end.

Definition is_e (c : ascii) : bool := Ascii.eqb c "e" || Ascii.eqb c "E".

(** The exponent part after [e] or [E]: an optional sign and digits to
    the end of the literal. *)
Definition parse_exponent (s : string) : option Z :=
  let neg := fst (split_sign s) in
  match span_digits (snd (split_sign s)) with
  | (EmptyString, _) => None
  | (ds, EmptyString) =>
      Some (if neg then - digits_acc ds 0 else digits_acc ds 0)
  | _ => None
  end.

(** An unsigned decimal literal [digits [. digits] [e exponent]] as a
    pair [(m, e)] standing for [m * 10 ^ e]. *)
Definition parse_decimal (s : string) : option (Z * Z) :=
  let ip := fst (span_digits s) in
  let r1 := snd (span_digits s) in
  let '(fp, r2) :=
    match r1 with
    | String c r => if Ascii.eqb c "." then span_digits r
                    else (EmptyString, r1)
    | EmptyString => (EmptyString, r1)
    end in
  if String.eqb (ip ++ fp) EmptyString then None
  else
    let m := digits_acc (ip ++ fp) 0 in
    let k := Z.of_nat (String.length fp) in
    match r2 with
    | EmptyString => Some (m, - k)
    | String c r3 =>
        if is_e c then
          match parse_exponent r3 with
          | Some x => Some (m, x - k)
          | None => None
          end
        else None
    end.

(** The double nearest to [m * 10 ^ e], for [0 <= m]. *)
Definition decimal_to_float (m e : Z) : float :=
  if 0 <=? e then round_ratio (m * 10 ^ e) 1 else round_ratio m (10 ^ (- e)).

(** [float(s)] *)
Definition float (s : string) : result PrimFloat.float :=
  match remove_underscores " " (strip s) with
  | None => Raise (ValueError_float s)
  | Some t =>
      let neg := fst (split_sign t) in
      let body := snd (split_sign t) in
      let signed (x : PrimFloat.float) := if neg then PrimFloat.opp x else x in
      let name := lower body in
      if String.eqb name "inf" || String.eqb name "infinity"
      then Ok (signed PrimFloat.infinity)
      else if String.eqb name "nan" then Ok PrimFloat.nan
      else
        match parse_decimal body with
        | Some (m, e) => Ok (signed (decimal_to_float m e))
        | None => Raise (ValueError_float s)
        end
  end.

End PyNum.

(** ** The time parser *)

(** [time_str_to_seconds]: [h, m, s = time_str.split(':')], then
    [int(h) * 3600 + int(m) * 60 + float(s)]. *)
Definition time_str_to_seconds (time_str : string) : result float :=
  match PyStr.split ":" time_str with
  | [h; m; s] =>
      match PyNum.int h with
      | Raise e => Raise e
      | Ok hv =>
          match PyNum.int m with
          | Raise e => Raise e
          | Ok mv =>
              match PyNum.float s with
              | Raise e => Raise e
              | Ok sv => PyNum.add_int_float (hv * 3600 + mv * 60) sv
              end
          end
      end
  | _ => Raise ValueError_unpack
  end.

(** ** The progress pattern *)

(** The compiled pattern [time=(\d+:\d+:\d+\.\d+)].  Each [\d+] is greedy
    and is followed by a character that is no digit, so the longest run of
    digits is the only candidate and no backtracking takes place. *)
Module Pattern.
Import PyStr PyNum.

(** [\d+] at the head of [s]: the digits and what follows them. *)
Definition digits1 (s : string) : option (string * string) :=
  match span_digits s with
  | (EmptyString, _) => None
  | (ds, r) => Some (ds, r)
  end.

(** One literal character at the head of [s]. *)
Definition lit (c : ascii) (s : string) : option string :=
  match s with
  | String d r => if Ascii.eqb d c then Some r else None
  | EmptyString => None
  end.

(** A literal prefix at the head of [s]. *)
Fixpoint lits (p s : string) : option string :=
  match p with
  | EmptyString => Some s
  | String c p' =>
      match lit c s with
      | Some r => lits p' r
      | None => None
      end
  end.

(** The pattern anchored at the head of [s]; the result is group 1. *)
Definition match_at (s : string) : option string :=
  match lits "time=" s with
  | None => None
  | Some s0 =>
      match digits1 s0 with
      | None => None
      | Some (h, s1) =>
          match lit ":" s1 with
          | None => None
          | Some s2 =>
              match digits1 s2 with
              | None => None
              | Some (m, s3) =>
                  match lit ":" s3 with
                  | None => None
                  | Some s4 =>
                      match digits1 s4 with
                      | None => None
                      | Some (sec, s5) =>
                          match lit "." s5 with
                          | None => None
                          | Some s6 =>
                              match digits1 s6 with
                              | None => None
                              | Some (frac, _) =>
                                  Some (h ++ ":" ++ m ++ ":" ++ sec
                                          ++ "." ++ frac)
                              end
                          end
                      end
                  end
              end
          end
      end
  end.

(** [pattern.search(line)]: group 1 of the leftmost match. *)
Fixpoint search (line : string) : option string :=
  match match_at line with
  | Some g => Some g
  | None =>
      match line with
      | String _ r => search r
      | EmptyString => None
      end
  end.

End Pattern.

(** ** The operating system *)

(** What [subprocess.run] does for a command: it raises, or the command
    runs to its end. *)
Inductive run_result : Type :=
| RunCompleted (returncode : Z) (stdout : string)
| RunRaised (e : exn).

(** What [subprocess.Popen] does for a command: it raises, or a child is
    started that writes [lines] to its standard error, one line per write,
    closes it and exits with [returncode]. *)
Inductive popen_result : Type :=
| PopenStarted (lines : list string) (returncode : Z)
| PopenRaised (e : exn).

Record world : Type := mkWorld {
  isfile : string -> bool;
  run : list string -> run_result;
  popen : list string -> popen_result;
  argv0 : string
}.

(** The child as its parent can observe it.  [Running]: standard error is
    open.  [Closed]: standard error is at end of file and the child has not
    been seen to exit yet.  [Exited]: the exit status is available. *)
Inductive phase : Type := Running | Closed | Exited.

Record child : Type := mkChild {
  to_write : list string;
  pipe : list string;
  stage : phase;
  returncode : Z
}.

Definition nonempty (s : string) : bool := negb (String.eqb s EmptyString).

(** One step of the child: the next write (a write of no character leaves
    the pipe as it is), then the close, then the exit. *)
Definition child_step (c : child) : child :=
  match to_write c with
  | l :: r =>
      mkChild r (pipe c ++ (if nonempty l then [l] else [])) (stage c)
              (returncode c)
  | [] =>
      match stage c with
      | Running => mkChild [] (pipe c) Closed (returncode c)
      | _ => mkChild [] (pipe c) Exited (returncode c)
      end
  end.

Fixpoint child_steps (n : nat) (c : child) : child :=
  match n with
  | O => c
  | S n' => child_steps n' (child_step c)
  end.

(** The child after all its steps. *)
Definition child_finish (c : child) : child :=
  mkChild [] (pipe c ++ filter nonempty (to_write c)) Exited (returncode c).

(** A blocked [readline] returns when the child has written a line or has
    closed its standard error. *)
Fixpoint child_await (ws : list string) (rc : Z) : string * child :=
  match ws with
  | l :: r => if nonempty l then (l, mkChild r [] Running rc)
              else child_await r rc
  | [] => (EmptyString, mkChild [] [] Closed rc)
  end.

(** ** Events and the state of a run *)

(** The argument of [print_message] and its status.  The messages made of
    text only are kept as text; the others keep the value they format. *)
Inductive message : Type :=
| Text (s : string)
| Progress (percent : float)
| DurationWarning (e : exn)
| ErrorOccurred (e : exn).

Inductive event : Type :=
| Spawn (argv : list string)
| Printed (status : string) (m : message)
| PrintedLine (s : string)
| Prompted (prompt : string)
| ReadLine (line : string)
| Polled (status : option Z)
| Waited (code : Z).

(** [trace]: the events so far, the oldest first.  [sched]: how many steps
    the child takes before each of the coming observations of its parent;
    once the list is used up the child has run to its end.  [stdin]: the
    lines still to be typed.  [proc]: the child of [Popen]. *)
Record state : Type := mkState {
  trace : list event;
  sched : list nat;
  stdin : list string;
  proc : child
}.

(** The outcome of a computation: a value, an exception, or a loop that is
    still running when its fuel is used up. *)
Inductive outcome (A : Type) : Type :=
| Done (r : result A)
| OutOfFuel.
Arguments Done {A} r.
Arguments OutOfFuel {A}.

Definition M (A : Type) : Type := state -> outcome A * state.

Definition ret {A} (a : A) : M A := fun st => (Done (Ok a), st).
Definition raise {A} (e : exn) : M A := fun st => (Done (Raise e), st).
Definition diverge {A} : M A := fun st => (OutOfFuel, st).

Definition bind {A B} (c : M A) (k : A -> M B) : M B :=
  fun st =>
    match c st with
    | (Done (Ok a), st') => k a st'
    | (Done (Raise e), st') => (Done (Raise e), st')
    | (OutOfFuel, st') => (OutOfFuel, st')
    end.

Notation "x <- c ;; k" := (bind c (fun x => k))
  (at level 61, c at next level, right associativity).
Notation "c ;;; k" := (bind c (fun _ => k))
  (at level 61, right associativity).

(** [try: c  except E as e: h e], where [catches] decides [isinstance(e, E)]. *)
Definition try_except {A} (c : M A) (catches : exn -> bool) (h : exn -> M A)
  : M A :=
  fun st =>
    match c st with
    | (Done (Raise e), st') =>
        if catches e then h e st' else (Done (Raise e), st')
    | r => r
    end.

Definition lift {A} (r : result A) : M A := fun st => (Done r, st).

Definition emit (e : event) : M unit :=
  fun st =>
    (Done (Ok tt), mkState (trace st ++ [e]) (sched st) (stdin st) (proc st)).

Definition get_proc : M child := fun st => (Done (Ok (proc st)), st).

Definition set_proc (c : child) : M unit :=
  fun st => (Done (Ok tt), mkState (trace st) (sched st) (stdin st) c).

(** The child moves on before an observation of its parent. *)
Definition tick : M unit :=
  fun st =>
    match sched st with
    | n :: rest =>
        (Done (Ok tt),
         mkState (trace st) rest (stdin st) (child_steps n (proc st)))
    | [] =>
        (Done (Ok tt),
         mkState (trace st) [] (stdin st) (child_finish (proc st)))
    end.

(** ** Paths *)

Module PyPath.
Import PyStr.

(** The loop of [genericpath._splitext] that skips the leading dots of
    the file name: [true] when a character other than a dot is found
    before [dotIndex]. *)
Fixpoint skip_dots (fuel : nat) (p : string) (filenameIndex dotIndex : Z)
  : bool :=
  match fuel with
  | O => false
  | S fuel' =>
      if filenameIndex <? dotIndex then
        match String.get (Z.to_nat filenameIndex) p with
        | Some "."%char => skip_dots fuel' p (filenameIndex + 1) dotIndex
        | _ => true
        end
      else false
  end.

(** [os.path.splitext(p)] (POSIX). *)
Definition splitext (p : string) : string * string :=
  let sepIndex := rfind "/" p in
  let dotIndex := rfind "." p in
  if sepIndex <? dotIndex then
    if skip_dots (Z.to_nat (dotIndex - sepIndex)) p (sepIndex + 1) dotIndex
    then (take dotIndex p, drop dotIndex p)
    else (p, EmptyString)
  else (p, EmptyString).

(** [os.path.basename(p)] (POSIX). *)
Definition basename (p : string) : string := drop (rfind "/" p + 1) p.

End PyPath.

(** ** The script *)

(** The result of [parse_arguments]. *)
Record Namespace : Type := mkNamespace {
  args_input_file : option string;
  args_output : option string;
  args_crf : Z;
  args_preset : string;
  args_interactive : bool
}.

(** The namespace of a command line that gives the input file, when there
    is one, and no option: every option has the default of its
    [add_argument]. *)
Definition default_args (input_file : option string) : Namespace :=
  mkNamespace input_file None 28 "medium" false.

(** [bool(s)] for an optional string: [None] and the empty string are
    false. *)
Definition str_truthy (s : option string) : bool :=
  match s with
  | Some t => nonempty t
  | None => false
  end.

Definition PRESETS : list string :=
  ["ultrafast"; "superfast"; "veryfast"; "faster"; "fast"; "medium"; "slow";
   "slower"; "veryslow"].

Definition dquote : string := String (ascii_of_nat 34) EmptyString.

Section Script.

Variable w : world.

(** [print_message(message, status)] *)
Definition print_message (m : message) (status : string) : M unit :=
  emit (Printed status m).

(** [subprocess.run(argv, ...)] *)
Definition subprocess_run (argv : list string) : M (Z * string) :=
  emit (Spawn argv) ;;;
  match run w argv with
  | RunCompleted rc out => ret (rc, out)
  | RunRaised e => raise e
  end.

(** [subprocess.Popen(argv, ...)] *)
Definition Popen (argv : list string) : M unit :=
  emit (Spawn argv) ;;;
  match popen w argv with
  | PopenStarted lines rc => set_proc (mkChild lines [] Running rc)
  | PopenRaised e => raise e
  end.

(** What [readline] returns for the child as it stands: a buffered line
    if there is one; the empty string at end of file; otherwise the call
    blocks. *)
Definition take_line : M string :=
  c <- get_proc ;;
  match pipe c with
  | l :: r =>
      set_proc (mkChild (to_write c) r (stage c) (returncode c)) ;;;
      emit (ReadLine l) ;;;
      ret l
  | [] =>
      match stage c with
      | Running =>
          set_proc (snd (child_await (to_write c) (returncode c))) ;;;
          emit (ReadLine (fst (child_await (to_write c) (returncode c)))) ;;;
          ret (fst (child_await (to_write c) (returncode c)))
      | _ => emit (ReadLine EmptyString) ;;; ret EmptyString
      end
  end.

(** [process.stderr.readline()] *)
Definition readline : M string := tick ;;; take_line.

(** [process.poll()] *)
Definition poll : M (option Z) :=
  tick ;;;
  c <- get_proc ;;
  let r := match stage c with
           | Exited => Some (returncode c)
           | _ => None
           end in
  emit (Polled r) ;;;
  ret r.

(** [process.wait()], then [process.returncode]. *)
Definition wait : M Z :=
  c <- get_proc ;;
  set_proc (child_finish c) ;;;
  emit (Waited (returncode c)) ;;;
  ret (returncode c).

(** [check_ffmpeg] *)
Definition check_ffmpeg : M bool :=
  try_except
    (subprocess_run ["ffmpeg"; "-version"] ;;; ret true)
    is_FileNotFoundError
    (fun _ => ret false).

(** [get_video_duration] *)
Definition get_video_duration (input_file : string) : M (option float) :=
  try_except
    (r <- subprocess_run
            ["ffprobe"; "-v"; "error"; "-show_entries"; "format=duration";
             "-of"; "default=noprint_wrappers=1:nokey=1"; input_file] ;;
     duration <- lift (PyNum.float (snd r)) ;;
     ret (Some duration))
    is_Exception
    (fun e => print_message (DurationWarning e) "warning" ;;; ret None).

(** [(current_time / total_duration) * 100] *)
Definition percentage (current_time total_duration : float) : result float :=
  match PyNum.truediv current_time total_duration with
  | Ok q => PyNum.mul_float_int q 100
  | Raise e => Raise e
  end.

(** [if total_duration:] *)
Definition duration_truthy (total_duration : option float) : bool :=
  match total_duration with
  | Some d => PyNum.truthy d
  | None => false
  end.

(** The body of the reading loop for a line that is not empty, up to the
    second [process.poll()]. *)
Definition scan_line (total_duration : option float) (line : string)
  : M unit :=
  if PyStr.contains "time=" line then
    match Pattern.search line with
    | Some current_time_str =>
        current_time <- lift (time_str_to_seconds current_time_str) ;;
        match total_duration with
        | Some d =>
            if PyNum.truthy d then
              progress <- lift (percentage current_time d) ;;
              print_message (Progress progress) "info"
            else ret tt
        | None => ret tt
        end
    | None => ret tt
    end
  else ret tt.

(** The [while True:] loop of [compress_video]. *)
Fixpoint monitor (fuel : nat) (total_duration : option float) : M unit :=
  match fuel with
  | O => diverge
  | S fuel' =>
      line <- readline ;;
      if negb (nonempty line) then
        status <- poll ;;
        match status with
        | Some _ => ret tt
        | None => monitor fuel' total_duration
        end
      else
        scan_line total_duration line ;;;
        status <- poll ;;
        match status with
        | Some _ => ret tt
        | None => monitor fuel' total_duration
        end
  end.

(** The loop with the fuel its schedule calls for. *)
Definition monitor_loop (total_duration : option float) : M unit :=
  fun st => monitor (S (List.length (sched st))) total_duration st.

Definition ffmpeg_command (input_file output_file : string) (crf : Z)
  (preset : string) : list string :=
  ["ffmpeg"; "-i"; input_file; "-vcodec"; "libx265";
   "-crf"; PyStr.of_int crf; "-preset"; preset; "-y"; output_file].

(** The body of the [try] of [compress_video]: the child is started,
    its standard error is read to the end of the loop, and its exit code
    decides. *)
Definition run_encoder (command : list string) (duration : option float)
  : M unit :=
  Popen command ;;;
  let total_duration := duration in
  monitor_loop total_duration ;;;
  return_code <- wait ;;
  if negb (return_code =? 0) then
    raise (Exception_ "FFmpeg encountered an error.")
  else ret tt.

(** [compress_video] *)
Definition compress_video (input_file output_file : string) (crf : Z)
  (preset : string) : M unit :=
  if negb (isfile w input_file) then
    raise (FileNotFoundError
             ("Input file '" ++ input_file ++ "' does not exist."))
  else
    duration <- get_video_duration input_file ;;
    let command := ffmpeg_command input_file output_file crf preset in
    print_message
      (Text ("Compressing '" ++ input_file ++ "' to '" ++ output_file
               ++ "'..."))
      "info" ;;;
    try_except (run_encoder command duration) is_Exception
               (fun e => raise e) ;;;
    print_message (Text "Compression completed successfully.") "success".

(** [sys.exit(code)] *)
Definition sys_exit {A} (code : Z) : M A := raise (SystemExit code).

(** [input(prompt)] *)
Definition input (prompt : string) : M string :=
  emit (Prompted prompt) ;;;
  fun st =>
    match stdin st with
    | l :: r => (Done (Ok l), mkState (trace st) (sched st) r (proc st))
    | [] => (Done (Raise EOFError), st)
    end.

(** The [while not os.path.isfile(input_file):] loop. *)
Fixpoint ask_input_file (fuel : nat) (input_file : string) : M string :=
  if isfile w input_file then ret input_file
  else
    match fuel with
    | O => diverge
    | S fuel' =>
        print_message
          (Text "File not found. Please enter a valid file path.")
          "error" ;;;
        l <- input "Please enter the path to your input video file: " ;;
        ask_input_file fuel' (PyStr.strip l)
    end.

(** The default output path [f"{base_name}-cmp{ext}"]. *)
Definition default_output (input_file : string) : string :=
  let '(base_name, ext) := PyPath.splitext input_file in
  base_name ++ "-cmp" ++ ext.

(** The [try]/[except ValueError] of the CRF answer. *)
Definition read_crf (crf_input : string) : M Z :=
  try_except
    (crf <- lift (PyNum.int crf_input) ;;
     if negb ((0 <=? crf) && (crf <=? 51)) then raise ValueError_raise
     else ret crf)
    is_ValueError
    (fun _ =>
       print_message (Text "Invalid CRF value. Using default (28).")
                     "warning" ;;;
       ret 28).

(** [interactive_mode] *)
Definition interactive_mode : M unit :=
  print_message (Text "Running in interactive mode.") "info" ;;;
  l <- input "Please enter the path to your input video file: " ;;
  input_file <-
    (fun st => ask_input_file (S (List.length (stdin st))) (PyStr.strip l) st) ;;
  a <- input "Do you want to use the default output location? (Y/n): " ;;
  let use_default_output := PyStr.lower (PyStr.strip a) in
  output_file <-
    (if PyStr.mem use_default_output [EmptyString; "y"; "yes"] then
       ret (default_output input_file)
     else
       o <- input "Please enter the desired output file path: " ;;
       ret (PyStr.strip o)) ;;
  a <- input "Do you want to change the output format? (Y/n): " ;;
  let change_format := PyStr.lower (PyStr.strip a) in
  output_file <-
    (if PyStr.mem change_format ["y"; "yes"] then
       e <- input
              "Enter the new output format extension (e.g., .mp4, .avi): " ;;
       let new_ext := PyStr.strip e in
       let new_ext :=
         if negb (PyStr.startswith "." new_ext) then "." ++ new_ext
         else new_ext in
       ret (fst (PyPath.splitext output_file) ++ new_ext)
     else ret output_file) ;;
  a <- input "Do you want to adjust the compression quality? (Y/n): " ;;
  let adjust_quality := PyStr.lower (PyStr.strip a) in
  crf <-
    (if PyStr.mem adjust_quality ["y"; "yes"] then
       c <- input
              "Enter the desired CRF value (0-51, lower is better quality) [default:28]: " ;;
       read_crf (PyStr.strip c)
     else ret 28) ;;
  a <- input "Do you want to adjust the compression speed? (Y/n): " ;;
  let adjust_speed := PyStr.lower (PyStr.strip a) in
  preset <-
    (if PyStr.mem adjust_speed ["y"; "yes"] then
       emit (PrintedLine
               "Available presets: ultrafast, superfast, veryfast, faster, fast, medium, slow, slower, veryslow") ;;;
       p <- input "Enter the desired preset [default:fast]: " ;;
       let preset_input := PyStr.strip p in
       if PyStr.mem preset_input PRESETS then ret preset_input
       else
         print_message (Text "Invalid preset. Using default (fast).")
                       "warning" ;;;
         ret "fast"
     else ret "fast") ;;
  let equivalent_command :=
    "python3 " ++ PyPath.basename (argv0 w) ++ " " ++ dquote ++ input_file
      ++ dquote ++ " -o " ++ dquote ++ output_file ++ dquote ++ " --crf "
      ++ PyStr.of_int crf ++ " --preset " ++ preset in
  print_message (Text ("Equivalent console command: " ++ equivalent_command))
                "info" ;;;
  try_except
    (compress_video input_file output_file crf preset)
    is_Exception
    (fun e => print_message (ErrorOccurred e) "error" ;;; sys_exit 1).

(** [main], from the parsed arguments on. *)
Definition main (args : Namespace) : M unit :=
  available <- check_ffmpeg ;;
  if negb available then
    print_message (Text "FFmpeg is not installed or not found in PATH.")
                  "error" ;;;
    sys_exit 1
  else if args_interactive args || negb (str_truthy (args_input_file args))
  then interactive_mode
  else
    let input_file :=
      match args_input_file args with
      | Some p => p
      | None => EmptyString
      end in
    let output_file :=
      if negb (str_truthy (args_output args)) then default_output input_file
      else match args_output args with
           | Some o => o
           | None => EmptyString
           end in
    try_except
      (compress_video input_file output_file (args_crf args)
                      (args_preset args))
      is_Exception
      (fun e => print_message (ErrorOccurred e) "error" ;;; sys_exit 1).

End Script.

(** The state a run starts in. *)
Definition initial (schedule : list nat) (typed : list string) : state :=
  mkState [] schedule typed (mkChild [] [] Running 0).

(** The exit status of the interpreter after [main]: 0 when it returns, the
    code of [sys.exit], 1 for any other exception. *)
Definition exit_status (o : outcome unit) : option Z :=
  match o with
  | Done (Ok _) => Some 0
  | Done (Raise (SystemExit c)) => Some c
  | Done (Raise _) => Some 1
  | OutOfFuel => None
  end.

(** ** Vocabulary of the properties *)

(** Every character of [s] satisfies [p]. *)
Fixpoint all_chars (p : ascii -> bool) (s : string) : bool :=
  match s with
  | String c r => p c && all_chars p r
  | EmptyString => true
  end.

(** [s] is a numeral: one decimal digit or more. *)
Definition numeral (s : string) : bool :=
  nonempty s && all_chars PyStr.isdigit s.

(** The number a string of digits denotes: each digit weighs ten to the
    power of the number of digits after it. *)
Fixpoint denote (s : string) : Z :=
  match s with
  | String c r =>
      PyStr.digit_val c * 10 ^ Z.of_nat (String.length r) + denote r
  | EmptyString => 0
  end.

(** The commands of the [Spawn] events of a trace, in order. *)
Fixpoint spawns (tr : list event) : list (list string) :=
  match tr with
  | Spawn argv :: r => argv :: spawns r
  | _ :: r => spawns r
  | [] => []
  end.

(** The percentages of the progress messages of a trace, in order. *)
Fixpoint percentages (tr : list event) : list float :=
  match tr with
  | Printed _ (Progress p) :: r => p :: percentages r
  | _ :: r => percentages r
  | [] => []
  end.

(** The lines the loop has read from the child, in order, without the
    empty reads. *)
Fixpoint lines_read (tr : list event) : list string :=
  match tr with
  | ReadLine l :: r => if nonempty l then l :: lines_read r else lines_read r
  | _ :: r => lines_read r
  | [] => []
  end.

(** The prompts of a trace, in order. *)
Fixpoint prompts (tr : list event) : list string :=
  match tr with
  | Prompted p :: r => p :: prompts r
  | _ :: r => prompts r
  | [] => []
  end.

(** The exit codes [process.wait()] has returned. *)
Fixpoint waits (tr : list event) : list Z :=
  match tr with
  | Waited c :: r => c :: waits r
  | _ :: r => waits r
  | [] => []
  end.

(** The command of the duration probe. *)
Definition ffprobe_command (input_file : string) : list string :=
  ["ffprobe"; "-v"; "error"; "-show_entries"; "format=duration";
   "-of"; "default=noprint_wrappers=1:nokey=1"; input_file].

(** The events the reading loop can produce for a given total duration:
    reads, polls, and progress messages when the duration is truthy. *)
Definition monitor_event (total_duration : option float) (e : event) : bool :=
  match e with
  | ReadLine _ | Polled _ => true
  | Printed _ (Progress _) => duration_truthy total_duration
  | _ => false
  end.

(** The exceptions of [time_str_to_seconds]. *)
Definition parse_error (e : exn) : bool :=
  match e with
  | ValueError_int _ | ValueError_float _ | ValueError_unpack
  | OverflowError => true
  | _ => false
  end.

(** What the child has written or will write and its parent has not read
    yet: the lines in the pipe, then the lines to come. *)
Definition pending (c : child) : list string :=
  (pipe c ++ filter nonempty (to_write c))%list.

(** A child writes nothing once its standard error is closed, and no line
    of the pipe is empty. *)
Definition child_wf (c : child) : Prop :=
  (stage c = Running \/ to_write c = [])
  /\ forallb nonempty (pipe c) = true.

(** The percentages one line of the stream calls for: the one of the
    leftmost timestamp, when there is one, it parses, and the total
    duration is truthy. *)
Definition progress_of_line (total_duration : option float) (line : string)
  : list float :=
  match Pattern.search line with
  | Some ts =>
      match time_str_to_seconds ts, total_duration with
      | Ok t, Some d =>
          if PyNum.truthy d
          then [PrimFloat.mul (PrimFloat.div t d) 100%float]
          else []
      | _, _ => []
      end
  | None => []
  end.

(** The exception one line of the stream makes the time parser raise, if
    any. *)
Definition scan_result (line : string) : result unit :=
  match Pattern.search line with
  | Some ts =>
      match time_str_to_seconds ts with
      | Ok _ => Ok tt
      | Raise e => Raise e
      end
  | None => Ok tt
  end.

Definition progress_event (p : float) : event := Printed "info" (Progress p).

(** What the duration probe comes to in a world: its result, and what it
    prints after it has spawned its command. *)
Definition probe_outcome (w : world) (input_file : string)
  : result (option float) * list event :=
  match run w (ffprobe_command input_file) with
  | RunCompleted _ out =>
      match PyNum.float out with
      | Ok d => (Ok (Some d), [])
      | Raise e => (Ok None, [Printed "warning" (DurationWarning e)])
      end
  | RunRaised e =>
      if is_Exception e
      then (Ok None, [Printed "warning" (DurationWarning e)])
      else (Raise e, [])
  end.

(** The events of [compress_video] up to the start of the encoder. *)
Definition prelude (w : world) (input_file output_file : string) (crf : Z)
  (preset : string) : list event :=
  (Spawn (ffprobe_command input_file) :: snd (probe_outcome w input_file))
    ++ [Printed "info"
          (Text ("Compressing '" ++ input_file ++ "' to '" ++ output_file
                   ++ "'..."));
        Spawn (ffmpeg_command input_file output_file crf preset)].

Definition encode_failure : exn := Exception_ "FFmpeg encountered an error.".

Definition completed : event :=
  Printed "success" (Text "Compression completed successfully.").

(** *** Worlds for the examples *)

Definition newline : string := String (ascii_of_nat 10) EmptyString.

(** A world with one video, [movie.mp4]: the encoder and the prober are
    installed, the prober prints [probe_stdout], and the encoder writes
    [lines] and exits with [rc]. *)
Definition example_world (probe_stdout : string) (lines : list string)
  (rc : Z) : world :=
  mkWorld
    (fun p => String.eqb p "movie.mp4")
    (fun argv =>
       if String.eqb (hd EmptyString argv) "ffprobe"
       then RunCompleted 0 probe_stdout
       else RunCompleted 0 "ffmpeg version 6.0")
    (fun _ => PopenStarted lines rc)
    "compressor.py".

(** Two progress lines of the encoder, at one minute and at two and a half
    minutes. *)
Definition progress_lines : list string :=
  ["frame= 1500 fps= 25 q=28.0 size= 256kB time=00:01:00.00 bitrate=34.9kbits/s";
   "frame= 3750 fps= 25 q=28.0 size= 640kB time=00:02:30.00 bitrate=34.9kbits/s"].

(** A video of two minutes whose encoding succeeds. *)
Definition movie_world : world :=
  example_world ("120.000000" ++ newline) progress_lines 0.

(** The same video when the prober reports a duration of zero. *)
Definition zero_duration_world : world :=
  example_world ("0.000000" ++ newline) progress_lines 0.

(** The same video when the prober cannot tell the duration. *)
Definition unknown_duration_world : world :=
  example_world ("N/A" ++ newline) progress_lines 0.

(** A world without the encoder on the search path. *)
Definition no_ffmpeg_world : world :=
  mkWorld
    (fun p => String.eqb p "movie.mp4")
    (fun _ => RunRaised
                (FileNotFoundError "[Errno 2] No such file or directory: 'ffmpeg'"))
    (fun _ => PopenRaised
                (FileNotFoundError "[Errno 2] No such file or directory: 'ffmpeg'"))
    "compressor.py".

(** The command of the preflight check. *)
Definition ffmpeg_check_command : list string := ["ffmpeg"; "-version"].

(** *** Vocabulary of the run-wide properties *)

(** [c] always ends, with a value or an exception; it extends the trace
    with events that satisfy [P], and a value it returns satisfies [Q]. *)
Definition runs {A} (c : M A) (P : event -> Prop) (Q : A -> Prop) : Prop :=
  forall st,
  exists r st' evs,
    c st = (Done r, st')
    /\ trace st' = (trace st ++ evs)%list
    /\ Forall P evs
    /\ (forall a, r = Ok a -> Q a).

(** The keys of the tables [ICONS] and [COLORS] of [print_message]. *)
Definition STATUSES : list string := ["info"; "success"; "warning"; "error"].

(** What [compress_video] and interactive mode may do in a world, for
    encoder settings that satisfy [ok]: spawn the prober or the encoder on
    an existing input file, print with a status of the tables, prompt,
    read, poll and wait. *)
Definition event_ok (w : world) (ok : Z -> string -> Prop) (e : event) : Prop :=
  match e with
  | Spawn argv =>
      exists input_file,
        isfile w input_file = true
        /\ (argv = ffprobe_command input_file
            \/ exists output_file crf preset,
                 ok crf preset
                 /\ argv = ffmpeg_command input_file output_file crf preset)
  | Printed status _ => In status STATUSES
  | _ => True
  end.

(** What [main] may do: the preflight check besides. *)
Definition main_event_ok (w : world) (e : event) : Prop :=
  e = Spawn ffmpeg_check_command \/ event_ok w (fun _ _ => True) e.

(** The encoder settings interactive mode accepts. *)
Definition interactive_settings (crf : Z) (preset : string) : Prop :=
  0 <= crf <= 51 /\ In preset PRESETS.

(** The number of occurrences of a character. *)
Fixpoint count_char (c : ascii) (s : string) : nat :=
  match s with
  | String d r => (if Ascii.eqb d c then 1 else 0) + count_char c r
  | EmptyString => 0
  end.

(** * Properties *)

(** ** Characters and strings *)

Section Strings.
Import PyStr PyNum.

Lemma isdigit_neq (c d : ascii) :
  isdigit c = true -> isdigit d = false -> Ascii.eqb c d = false.
Proof.
  intros Hc Hd. destruct (Ascii.eqb_spec c d) as [->|]; congruence.
Qed.

Lemma isdigit_not_space (c : ascii) : isdigit c = true -> isspace c = false.
Proof.
  unfold isdigit, isspace. intros H.
  apply andb_true_iff in H. destruct H as [H1 H2].
  apply Z.leb_le in H1. apply Z.leb_le in H2.
  repeat rewrite orb_false_iff. repeat split.
  - apply andb_false_iff. right. apply Z.leb_gt. lia.
  - apply andb_false_iff. right. apply Z.leb_gt. lia.
  - apply Z.eqb_neq. lia.
  - apply Z.eqb_neq. lia.
Qed.

Lemma all_chars_app (p : ascii -> bool) (s t : string) :
  all_chars p (s ++ t) = all_chars p s && all_chars p t.
Proof.
  induction s as [|c s IH]; simpl.
  - reflexivity.
  - rewrite IH. now rewrite andb_assoc.
Qed.

Lemma all_chars_impl (p q : ascii -> bool) (s : string) :
  (forall c, p c = true -> q c = true) ->
  all_chars p s = true -> all_chars q s = true.
Proof.
  intros Hpq. induction s as [|c s IH]; simpl; [easy|].
  intros H. apply andb_true_iff in H. destruct H as [H1 H2].
  rewrite (Hpq _ H1). now apply IH.
Qed.

Lemma length_app (s t : string) :
  String.length (s ++ t) = (String.length s + String.length t)%nat.
Proof. induction s as [|c s IH]; simpl; [reflexivity|now rewrite IH]. Qed.

(** *** [split] *)

Lemma split_no_sep (sep : ascii) (s : string) :
  all_chars (fun c => negb (Ascii.eqb c sep)) s = true ->
  split sep s = [s].
Proof.
  induction s as [|c s IH]; simpl; [reflexivity|].
  intros H. apply andb_true_iff in H. destruct H as [H1 H2].
  apply negb_true_iff in H1. rewrite H1, (IH H2). reflexivity.
Qed.

Lemma split_app_sep (sep : ascii) (s r : string) :
  all_chars (fun c => negb (Ascii.eqb c sep)) s = true ->
  split sep (s ++ String sep r) = s :: split sep r.
Proof.
  induction s as [|c s IH]; simpl.
  - intros _. now rewrite Ascii.eqb_refl.
  - intros H. apply andb_true_iff in H. destruct H as [H1 H2].
    apply negb_true_iff in H1. rewrite H1, (IH H2). reflexivity.
Qed.

(** *** [strip] *)

Lemma rstrip_no_space (s : string) :
  all_chars (fun c => negb (isspace c)) s = true -> rstrip s = s.
Proof.
  induction s as [|c s IH]; simpl; [reflexivity|].
  intros H. apply andb_true_iff in H. destruct H as [H1 H2].
  apply negb_true_iff in H1. rewrite (IH H2), H1.
  now destruct s.
Qed.

Lemma strip_no_space (s : string) :
  all_chars (fun c => negb (isspace c)) s = true -> strip s = s.
Proof.
  intros H. unfold strip.
  assert (Hl : lstrip s = s).
  { destruct s as [|c s]; simpl in *; [reflexivity|].
    apply andb_true_iff in H. destruct H as [H1 _].
    apply negb_true_iff in H1. now rewrite H1. }
  rewrite Hl. now apply rstrip_no_space.
Qed.

(** *** Digits *)

Lemma digits_acc_denote (s : string) (acc : Z) :
  digits_acc s acc = acc * 10 ^ Z.of_nat (String.length s) + denote s.
Proof.
  revert acc. induction s as [|c s IH]; intros acc; simpl denote;
    simpl digits_acc.
  - simpl. lia.
  - rewrite IH. cbn [String.length]. rewrite Nat2Z.inj_succ, Z.pow_succ_r by lia.
    ring.
Qed.

Lemma digits_us_numeral (s : string) (b : bool) (acc : Z) :
  all_chars isdigit s = true -> nonempty s = true ->
  digits_us s b acc = Some (digits_acc s acc).
Proof.
  revert b acc. induction s as [|c s IH]; intros b acc Hd Hn;
    [discriminate|].
  simpl in Hd. apply andb_true_iff in Hd. destruct Hd as [Hc Hs].
  simpl. rewrite Hc. destruct s as [|d s'].
  - reflexivity.
  - now apply IH.
Qed.

Lemma span_digits_app (s r : string) :
  all_chars isdigit s = true ->
  match r with String c _ => isdigit c = false | EmptyString => True end ->
  span_digits (s ++ r) = (s, r).
Proof.
  intros Hs Hr. induction s as [|c s IH]; simpl.
  - destruct r as [|c r]; [reflexivity|]. simpl. now rewrite Hr.
  - simpl in Hs. apply andb_true_iff in Hs. destruct Hs as [Hc Hs].
    rewrite Hc, (IH Hs). reflexivity.
Qed.

Lemma span_digits_all (s : string) :
  all_chars isdigit s = true -> span_digits s = (s, EmptyString).
Proof.
  intros Hs. generalize (span_digits_app s EmptyString Hs I).
  assert (E : s ++ EmptyString = s).
  { clear Hs. induction s as [|c s IH]; simpl; [easy|now rewrite IH]. }
  now rewrite E.
Qed.

Lemma remove_underscores_none (s : string) (prev : ascii) :
  all_chars (fun c => negb (Ascii.eqb c "_")) s = true ->
  Ascii.eqb prev "_" = false ->
  remove_underscores prev s = Some s.
Proof.
  revert prev. induction s as [|c s IH]; intros prev Hs Hp; simpl.
  - now rewrite Hp.
  - simpl in Hs. apply andb_true_iff in Hs. destruct Hs as [Hc Hs].
    apply negb_true_iff in Hc. rewrite Hc, Hp. simpl.
    now rewrite (IH c Hs Hc).
Qed.

Lemma split_sign_digit (c : ascii) (s : string) :
  isdigit c = true -> split_sign (String c s) = (false, String c s).
Proof.
  intros Hc. unfold split_sign.
  rewrite (isdigit_neq c "-" Hc eq_refl), (isdigit_neq c "+" Hc eq_refl).
  reflexivity.
Qed.

Lemma lower_char_digit (c : ascii) : isdigit c = true -> lower_char c = c.
Proof.
  unfold isdigit, lower_char. intros H.
  apply andb_true_iff in H. destruct H as [H1 H2].
  apply Z.leb_le in H1. apply Z.leb_le in H2.
  replace (65 <=? ord c) with false by (symmetry; apply Z.leb_gt; lia).
  replace (192 <=? ord c) with false by (symmetry; apply Z.leb_gt; lia).
  reflexivity.
Qed.

(** [int] reads a numeral as the number it denotes. *)
Lemma int_numeral (s : string) :
  numeral s = true -> int s = Ok (denote s).
Proof.
  unfold numeral. intros H. apply andb_true_iff in H. destruct H as [Hn Hd].
  unfold int.
  rewrite strip_no_space
    by (eapply all_chars_impl; [|exact Hd]; intros c Hc; simpl;
        now rewrite isdigit_not_space).
  destruct s as [|c s]; [discriminate|].
  pose proof Hd as Hd'. simpl in Hd'. apply andb_true_iff in Hd'.
  destruct Hd' as [Hc _].
  rewrite (split_sign_digit c s Hc). cbn [fst snd].
  rewrite (digits_us_numeral _ _ _ Hd Hn), digits_acc_denote.
  f_equal.
Qed.

(** [float] reads [s.f], for two numerals [s] and [f], as the double
    nearest to the decimal number it denotes. *)
Lemma float_decimal (s f : string) :
  numeral s = true -> numeral f = true ->
  float (s ++ "." ++ f)
  = Ok (round_ratio (denote (s ++ f)) (10 ^ Z.of_nat (String.length f))).
Proof.
  unfold numeral. intros Hs Hf.
  apply andb_true_iff in Hs. destruct Hs as [Hsn Hsd].
  apply andb_true_iff in Hf. destruct Hf as [Hfn Hfd].
  assert (Hall : forall p : ascii -> bool,
             (forall c, isdigit c = true -> p c = true) ->
             p "."%char = true ->
             all_chars p (s ++ "." ++ f) = true).
  { intros p Hp Hdot. rewrite all_chars_app. simpl. rewrite Hdot.
    rewrite (all_chars_impl _ _ _ Hp Hsd), (all_chars_impl _ _ _ Hp Hfd).
    reflexivity. }
  unfold float.
  rewrite strip_no_space
    by (apply Hall; [intros c Hc; now rewrite isdigit_not_space|reflexivity]).
  rewrite remove_underscores_none;
    [|apply Hall;
      [intros c Hc; now rewrite (isdigit_neq c "_" Hc eq_refl)|reflexivity]
     |reflexivity].
  destruct s as [|c s]; [discriminate|].
  pose proof Hsd as Hsd'. simpl in Hsd'. apply andb_true_iff in Hsd'.
  destruct Hsd' as [Hc Hsd'].
  change ((String c s ++ "." ++ f)) with (String c (s ++ "." ++ f)).
  rewrite (split_sign_digit c _ Hc). cbn [fst snd].
  cbn [lower]. rewrite (lower_char_digit c Hc).
  assert (Hname : forall t u, String.eqb (String c t) (String "i" u) = false
                              /\ String.eqb (String c t) (String "n" u) = false).
  { intros t u. simpl.
    now rewrite (isdigit_neq c "i" Hc eq_refl), (isdigit_neq c "n" Hc eq_refl). }
  rewrite (proj1 (Hname _ _)), (proj1 (Hname _ _)), (proj2 (Hname _ _)).
  cbn [orb].
  unfold parse_decimal.
  change (String c (s ++ "." ++ f)) with (String c s ++ String "." f).
  rewrite (span_digits_app (String c s) (String "." f) Hsd eq_refl).
  cbn [fst snd]. rewrite Ascii.eqb_refl.
  rewrite (span_digits_all f Hfd).
  assert (Hne : String.eqb (String c s ++ f) EmptyString = false)
    by reflexivity.
  rewrite Hne. rewrite digits_acc_denote. cbn [Z.mul].
  unfold decimal_to_float.
  destruct f as [|d f]; [discriminate|].
  replace (0 <=? - Z.of_nat (String.length (String d f))) with false
    by (symmetry; apply Z.leb_gt; cbn [String.length]; lia).
  rewrite Z.opp_involutive. f_equal. 
Qed.

End Strings.

(** ** The time parser *)

Section TimeParser.
Import PyStr PyNum.



Lemma numeral_no_colon (s : string) :
  numeral s = true ->
  all_chars (fun c => negb (Ascii.eqb c ":")) s = true.
Proof.
  unfold numeral. intros H. apply andb_true_iff in H. destruct H as [_ H].
  eapply all_chars_impl; [|exact H].
  intros c Hc. simpl. now rewrite (isdigit_neq c ":" Hc eq_refl).
Qed.

Lemma split_timestamp (h m s : string) :
  numeral h = true -> numeral m = true ->
  all_chars (fun c => negb (Ascii.eqb c ":")) s = true ->
  split ":" (h ++ ":" ++ m ++ ":" ++ s) = [h; m; s].
Proof.
  intros Hh Hm Hs.
  change (h ++ ":" ++ m ++ ":" ++ s) with (h ++ String ":" (m ++ String ":" s)).
  rewrite (split_app_sep ":" h _ (numeral_no_colon h Hh)).
  rewrite (split_app_sep ":" m _ (numeral_no_colon m Hm)).
  now rewrite (split_no_sep ":" s Hs).
Qed.

(** The sum [time_str_to_seconds] computes for three numerals and a
    fraction. *)
Lemma time_str_to_seconds_numerals (h m s f : string) :
  numeral h = true -> numeral m = true ->
  numeral s = true -> numeral f = true ->
  time_str_to_seconds (h ++ ":" ++ m ++ ":" ++ s ++ "." ++ f)
  = add_int_float (denote h * 3600 + denote m * 60)
      (round_ratio (denote (s ++ f)) (10 ^ Z.of_nat (String.length f))).
Proof.
  intros Hh Hm Hs Hf. unfold time_str_to_seconds.
  rewrite split_timestamp; trivial.
  - rewrite (int_numeral h Hh), (int_numeral m Hm), (float_decimal s f Hs Hf).
    reflexivity.
  - unfold numeral in Hs, Hf.
    apply andb_true_iff in Hs. destruct Hs as [_ Hs].
    apply andb_true_iff in Hf. destruct Hf as [_ Hf].
    rewrite all_chars_app. simpl.
    rewrite (all_chars_impl isdigit _ s), (all_chars_impl isdigit _ f);
      trivial; intros c Hc; simpl;
      now rewrite (isdigit_neq c ":" Hc eq_refl).
Qed.



End TimeParser.

(** ** Traces *)

Section Traces.

Lemma spawns_app (a b : list event) : spawns (a ++ b) = (spawns a ++ spawns b)%list.
Proof.
  induction a as [|e a IH]; simpl; [reflexivity|].
  destruct e; simpl; now rewrite IH.
Qed.

Lemma percentages_app (a b : list event) :
  percentages (a ++ b) = (percentages a ++ percentages b)%list.
Proof.
  induction a as [|e a IH]; simpl; [reflexivity|].
  destruct e as [| st m | | | | |]; simpl; try now rewrite IH.
  destruct m; simpl; now rewrite IH.
Qed.

Lemma waits_app (a b : list event) : waits (a ++ b) = (waits a ++ waits b)%list.
Proof.
  induction a as [|e a IH]; simpl; [reflexivity|].
  destruct e; simpl; now rewrite IH.
Qed.

Lemma prompts_app (a b : list event) :
  prompts (a ++ b) = (prompts a ++ prompts b)%list.
Proof.
  induction a as [|e a IH]; simpl; [reflexivity|].
  destruct e; simpl; now rewrite IH.
Qed.

Lemma lines_read_app (a b : list event) :
  lines_read (a ++ b) = (lines_read a ++ lines_read b)%list.
Proof.
  induction a as [|e a IH]; simpl; [reflexivity|].
  destruct e; simpl; try now rewrite IH.
  destruct (nonempty line); simpl; now rewrite IH.
Qed.

End Traces.

(** ** The child and its observations *)

Section Child.

Lemma child_step_returncode (c : child) :
  returncode (child_step c) = returncode c.
Proof.
  unfold child_step. destruct (to_write c); [destruct (stage c)|]; reflexivity.
Qed.

Lemma child_steps_returncode (n : nat) (c : child) :
  returncode (child_steps n c) = returncode c.
Proof.
  revert c. induction n as [|n IH]; intros c; simpl; [reflexivity|].
  now rewrite IH, child_step_returncode.
Qed.

Lemma child_await_returncode (ws : list string) (rc : Z) :
  returncode (snd (child_await ws rc)) = rc.
Proof.
  induction ws as [|l ws IH]; simpl; [reflexivity|].
  destruct (nonempty l); [reflexivity|exact IH].
Qed.

(** A blocked read that returns nothing has seen the end of the stream. *)
Lemma child_await_empty (ws : list string) (rc : Z) :
  nonempty (fst (child_await ws rc)) = false ->
  stage (snd (child_await ws rc)) = Closed.
Proof.
  induction ws as [|l ws IH]; simpl; [reflexivity|].
  destruct (nonempty l) eqn:E; simpl; [congruence|exact IH].
Qed.

End Child.

(** ** The steps of the script *)

Section Steps.

(** [raise e] in a handler leaves a computation as it is. *)
Lemma try_except_reraise {A} (c : M A) (p : exn -> bool) (st : state) :
  try_except c p (fun e => raise e) st = c st.
Proof.
  unfold try_except, raise.
  destruct (c st) as [[[a|e]|] st']; try reflexivity.
  now destruct (p e).
Qed.

Lemma bind_ok {A B} (c : M A) (k : A -> M B) (st st' : state) (a : A) :
  c st = (Done (Ok a), st') -> bind c k st = k a st'.
Proof. unfold bind. now intros ->. Qed.

Lemma bind_raise {A B} (c : M A) (k : A -> M B) (st st' : state) (e : exn) :
  c st = (Done (Raise e), st') -> bind c k st = (Done (Raise e), st').
Proof. unfold bind. now intros ->. Qed.

End Steps.

(** ** The stream *)

Section Stream.

Lemma child_step_pending (c : child) : pending (child_step c) = pending c.
Proof.
  unfold pending, child_step. destruct (to_write c) as [|l r].
  - now destruct (stage c).
  - cbn. destruct (nonempty l); cbn; rewrite <- app_assoc; reflexivity.
Qed.

Lemma child_steps_pending (n : nat) (c : child) :
  pending (child_steps n c) = pending c.
Proof.
  revert c. induction n as [|n IH]; intros c; simpl; [reflexivity|].
  now rewrite IH, child_step_pending.
Qed.

Lemma child_finish_pending (c : child) : pending (child_finish c) = pending c.
Proof. unfold pending, child_finish. cbn. now rewrite app_nil_r. Qed.

Lemma filter_nonempty_all (ws : list string) :
  forallb nonempty (filter nonempty ws) = true.
Proof.
  induction ws as [|l ws IH]; cbn; [reflexivity|].
  destruct (nonempty l) eqn:E; cbn; [now rewrite E|exact IH].
Qed.

Lemma child_step_wf (c : child) : child_wf c -> child_wf (child_step c).
Proof.
  unfold child_wf, child_step. intros [H Hp].
  destruct (to_write c) as [|l r] eqn:Ew; cbn.
  - destruct (stage c); cbn; (split; [now right|exact Hp]).
  - destruct H as [H|H]; [|discriminate]. split; [now left|].
    rewrite forallb_app, Hp. destruct (nonempty l) eqn:E; cbn; [now rewrite E|reflexivity].
Qed.

Lemma child_steps_wf (n : nat) (c : child) :
  child_wf c -> child_wf (child_steps n c).
Proof.
  revert c. induction n as [|n IH]; intros c H; simpl; [exact H|].
  apply IH, child_step_wf, H.
Qed.

Lemma child_finish_wf (c : child) : child_wf c -> child_wf (child_finish c).
Proof.
  unfold child_wf, child_finish. intros [_ Hp]. cbn. split; [now right|].
  now rewrite forallb_app, Hp, filter_nonempty_all.
Qed.

Lemma child_await_pending (ws : list string) (rc : Z) :
  (if nonempty (fst (child_await ws rc))
   then filter nonempty ws
        = fst (child_await ws rc) :: pending (snd (child_await ws rc))
   else filter nonempty ws = [] /\ pending (snd (child_await ws rc)) = [])
  /\ child_wf (snd (child_await ws rc)).
Proof.
  induction ws as [|l ws IH]; cbn.
  - split; [split; reflexivity|]. split; [now right|reflexivity].
  - destruct (nonempty l) eqn:E; cbn.
    + rewrite E. split; [reflexivity|]. split; [now left|reflexivity].
    + exact IH.
Qed.

Lemma take_line_stream (st : state) :
  child_wf (proc st) ->
  exists l c',
    take_line st
    = (Done (Ok l),
       mkState (trace st ++ [ReadLine l]) (sched st) (stdin st) c')
    /\ returncode c' = returncode (proc st)
    /\ child_wf c'
    /\ (if nonempty l then pending (proc st) = l :: pending c'
        else pending (proc st) = [] /\ pending c' = []).
Proof.
  intros [Hst Hpipe].
  destruct st as [tr sc si pr]. unfold take_line, bind, get_proc.
  cbn [sched trace stdin proc] in *.
  destruct pr as [ws pp sg rc]. cbn [pipe to_write stage returncode] in *.
  destruct pp as [|l r].
  - destruct sg.
    + destruct (child_await_pending ws rc) as [Hp Hw].
      eexists _, _. split; [reflexivity|].
      split; [apply child_await_returncode|]. split; [exact Hw|].
      unfold pending at 1. cbn. exact Hp.
    + destruct Hst as [Hst|Hst]; [discriminate|]. subst ws.
      eexists _, _. split; [reflexivity|]. cbn.
      repeat split; trivial. now right.
    + destruct Hst as [Hst|Hst]; [discriminate|]. subst ws.
      eexists _, _. split; [reflexivity|]. cbn.
      repeat split; trivial. now right.
  - cbn in Hpipe. apply andb_true_iff in Hpipe. destruct Hpipe as [Hl Hr].
    eexists _, _. split; [reflexivity|]. cbn.
    split; [reflexivity|]. split; [split; assumption|].
    rewrite Hl. reflexivity.
Qed.

Lemma tick_run (st : state) :
  exists c',
    tick st = (Done (Ok tt), mkState (trace st) (tl (sched st)) (stdin st) c')
    /\ returncode c' = returncode (proc st)
    /\ pending c' = pending (proc st)
    /\ (child_wf (proc st) -> child_wf c')
    /\ (sched st = [] -> stage c' = Exited).
Proof.
  destruct st as [tr sc si pr]. unfold tick. cbn [sched trace stdin proc].
  destruct sc as [|n sc]; cbn [tl]; eexists; (split; [reflexivity|]).
  - split; [reflexivity|]. split; [apply child_finish_pending|].
    split; [apply child_finish_wf|reflexivity].
  - split; [apply child_steps_returncode|].
    split; [apply child_steps_pending|].
    split; [apply child_steps_wf|discriminate].
Qed.

(** One read takes the first line of the stream that is still pending;
    an empty read happens only when nothing is pending. *)
Lemma readline_stream (st : state) :
  child_wf (proc st) ->
  exists l c',
    readline st
    = (Done (Ok l),
       mkState (trace st ++ [ReadLine l]) (tl (sched st)) (stdin st) c')
    /\ returncode c' = returncode (proc st)
    /\ child_wf c'
    /\ (if nonempty l then pending (proc st) = l :: pending c'
        else pending (proc st) = [] /\ pending c' = []).
Proof.
  intros Hwf. unfold readline.
  destruct (tick_run st) as (c0 & Ht & Hrc & Hp & Hw & _).
  rewrite (bind_ok _ _ _ _ _ Ht).
  destruct (take_line_stream
              (mkState (trace st) (tl (sched st)) (stdin st) c0) (Hw Hwf))
    as (l & c' & Hr & Hrc' & Hw' & Hp').
  exists l, c'. cbn [trace sched stdin proc] in *. rewrite Hr.
  split; [reflexivity|]. split; [congruence|]. split; [exact Hw'|].
  rewrite <- Hp. exact Hp'.
Qed.

(** The poll sees the exit exactly when the child has exited; it leaves
    the stream as it is. *)
Lemma poll_stream (st : state) :
  exists r c',
    poll st
    = (Done (Ok r),
       mkState (trace st ++ [Polled r]) (tl (sched st)) (stdin st) c')
    /\ returncode c' = returncode (proc st)
    /\ pending c' = pending (proc st)
    /\ (child_wf (proc st) -> child_wf c')
    /\ (sched st = [] -> r = Some (returncode (proc st)))
    /\ (r = None -> stage c' <> Exited)
    /\ (forall x, r = Some x -> x = returncode (proc st) /\ stage c' = Exited).
Proof.
  unfold poll.
  destruct (tick_run st) as (c0 & Ht & Hrc & Hp & Hw & Hnil).
  rewrite (bind_ok _ _ _ _ _ Ht). unfold bind, get_proc, emit, ret.
  cbn [proc trace sched stdin].
  exists (match stage c0 with Exited => Some (returncode c0) | _ => None end), c0.
  split; [reflexivity|]. split; [exact Hrc|]. split; [exact Hp|].
  split; [exact Hw|]. split; [|split].
  - intros E. rewrite (Hnil E). congruence.
  - destruct (stage c0); congruence.
  - intros x. destruct (stage c0); try discriminate.
    intros [= <-]. split; [exact Hrc|reflexivity].
Qed.

End Stream.

(** ** The reading loop *)

Section Monitor.

Lemma time_str_to_seconds_raises (s : string) (e : exn) :
  time_str_to_seconds s = Raise e -> parse_error e = true.
Proof.
  unfold time_str_to_seconds.
  destruct (PyStr.split ":" s) as [|h [|m [|x [|y l]]]];
    try (intros [= <-]; reflexivity).
  unfold PyNum.int.
  destruct (PyNum.digits_us _ _ _); [|intros [= <-]; reflexivity].
  destruct (PyNum.digits_us _ _ _); [|intros [= <-]; reflexivity].
  destruct (PyNum.float x) as [v|e'] eqn:Ef.
  - unfold PyNum.add_int_float, PyNum.int_to_float.
    destruct (_ <=? _); [intros [= <-]; reflexivity|discriminate].
  - intros [= <-]. unfold PyNum.float in Ef.
    destruct (PyNum.remove_underscores _ _); [|injection Ef as <-; reflexivity].
    destruct (_ || _)%bool; [discriminate|].
    destruct (String.eqb _ _); [discriminate|].
    destruct (PyNum.parse_decimal _) as [[a b]|]; [discriminate|].
    injection Ef as <-. reflexivity.
Qed.

(** With a truthy duration the percentage is the quotient times one
    hundred, whatever its size. *)
Lemma percentage_truthy (t d : float) :
  PyNum.truthy d = true ->
  percentage t d = Ok (PrimFloat.mul (PrimFloat.div t d) 100%float).
Proof.
  unfold PyNum.truthy, percentage, PyNum.truediv. intros H.
  apply negb_true_iff in H. rewrite H. reflexivity.
Qed.

Lemma lits_prefix (p s r : string) :
  Pattern.lits p s = Some r -> String.prefix p s = true.
Proof.
  revert s. induction p as [|c p IH]; intros s; simpl.
  - now destruct s.
  - destruct s as [|d s]; simpl; [discriminate|].
    destruct (Ascii.eqb_spec d c) as [->|Hn]; [|discriminate].
    intros H. destruct (ascii_dec c c) as [_|Hc]; [|now elim Hc].
    now apply IH.
Qed.

(** A line in which the pattern is found contains [time=]. *)
Lemma search_contains (line g : string) :
  Pattern.search line = Some g -> PyStr.contains "time=" line = true.
Proof.
  induction line as [|c line IH].
  - cbn. discriminate.
  - cbn [Pattern.search PyStr.contains].
    destruct (Pattern.match_at (String c line)) as [g'|] eqn:Em.
    + intros _. unfold Pattern.match_at in Em.
      destruct (Pattern.lits "time=" (String c line)) as [r|] eqn:El;
        [|discriminate].
      now rewrite (lits_prefix _ _ _ El).
    + intros H. rewrite (IH H). apply orb_true_r.
Qed.

(** The scan of one line: its percentages are printed, and the exception
    of the time parser, if any, is raised. *)
Lemma scan_line_run (d : option float) (line : string) (st : state) :
  scan_line d line st
  = (Done (scan_result line),
     mkState (trace st ++ map progress_event (progress_of_line d line))
             (sched st) (stdin st) (proc st)).
Proof.
  assert (Hnil : forall r : result unit,
             (Done r, st)
             = (Done r, mkState (trace st ++ map progress_event [])
                                (sched st) (stdin st) (proc st))).
  { intros r. cbn. rewrite app_nil_r. now destruct st. }
  unfold scan_line, scan_result, progress_of_line.
  destruct (Pattern.search line) as [ts|] eqn:Es.
  - rewrite (search_contains _ _ Es). unfold bind, lift.
    destruct (time_str_to_seconds ts) as [t|e]; [|apply Hnil].
    destruct d as [d|]; [|apply Hnil].
    destruct (PyNum.truthy d) eqn:Ed; [|apply Hnil].
    rewrite (percentage_truthy t d Ed). reflexivity.
  - destruct (PyStr.contains "time=" line); apply Hnil.
Qed.

Lemma progress_of_line_events (d : option float) (line : string) :
  forallb (monitor_event d) (map progress_event (progress_of_line d line))
  = true.
Proof.
  unfold progress_of_line.
  destruct (Pattern.search line); [|reflexivity].
  destruct (time_str_to_seconds _); [|reflexivity].
  destruct d as [d|]; [|reflexivity].
  destruct (PyNum.truthy d) eqn:E; [|reflexivity].
  cbn. now rewrite E.
Qed.

Lemma percentages_progress (ps : list float) :
  percentages (map progress_event ps) = ps.
Proof. induction ps as [|p ps IH]; cbn; [reflexivity|now rewrite IH]. Qed.

Lemma lines_read_progress (ps : list float) :
  lines_read (map progress_event ps) = [].
Proof. induction ps as [|p ps IH]; cbn; [reflexivity|exact IH]. Qed.

(** The loop ends for every schedule.  It reads the pending lines in
    order, from the first one on, and scans each line it reads; when it
    ends without an exception the child has been seen to exit. *)
Lemma monitor_run (fuel : nat) (d : option float) (st : state) :
  child_wf (proc st) ->
  (List.length (sched st) < fuel)%nat ->
  exists r st' evs,
    monitor fuel d st = (Done r, st')
    /\ trace st' = (trace st ++ evs)%list
    /\ stdin st' = stdin st
    /\ returncode (proc st') = returncode (proc st)
    /\ child_wf (proc st')
    /\ (lines_read evs ++ pending (proc st'))%list = pending (proc st)
    /\ percentages evs = flat_map (progress_of_line d) (lines_read evs)
    /\ forallb (monitor_event d) evs = true
    /\ (r = Ok tt -> stage (proc st') = Exited)
    /\ (forall e, r = Raise e ->
        parse_error e = true
        /\ exists l, In l (lines_read evs) /\ scan_result l = Raise e).
Proof.
  revert st. induction fuel as [|fuel IH]; intros st Hwf Hlt; [lia|].
  cbn [monitor].
  destruct (readline_stream st Hwf) as (l & c1 & Hr & Hc1 & Hw1 & Hp1).
  rewrite (bind_ok _ _ _ _ _ Hr).
  set (st1 := mkState (trace st ++ [ReadLine l]) (tl (sched st)) (stdin st) c1) in *.
  (* the poll and the end of an iteration, from the state after the scan *)
  assert (Hend : forall evs2,
             forallb (monitor_event d) evs2 = true ->
             (lines_read evs2 ++ pending c1)%list = pending (proc st) ->
             percentages evs2 = flat_map (progress_of_line d) (lines_read evs2) ->
             exists r st' evs,
               (status <- poll ;;
                match status with
                | Some _ => ret tt
                | None => monitor fuel d
                end) (mkState (trace st ++ evs2) (tl (sched st)) (stdin st) c1)
               = (Done r, st')
               /\ trace st' = (trace st ++ evs)%list
               /\ stdin st' = stdin st
               /\ returncode (proc st') = returncode (proc st)
               /\ child_wf (proc st')
               /\ (lines_read evs ++ pending (proc st'))%list = pending (proc st)
               /\ percentages evs = flat_map (progress_of_line d) (lines_read evs)
               /\ forallb (monitor_event d) evs = true
               /\ (r = Ok tt -> stage (proc st') = Exited)
               /\ (forall e, r = Raise e ->
        parse_error e = true
        /\ exists l, In l (lines_read evs) /\ scan_result l = Raise e)).
  { intros evs2 He2 Hl2 Hq2.
    set (st2 := mkState (trace st ++ evs2) (tl (sched st)) (stdin st) c1).
    destruct (poll_stream st2) as (r & c2 & Hp & Hc2 & Hpe2 & Hw2 & Hnil & Hnone & Hsome).
    rewrite (bind_ok _ _ _ _ _ Hp). cbn [proc sched trace stdin st2] in *.
    destruct r as [x|].
    - destruct (Hsome x eq_refl) as [_ Hex].
      eexists (Ok tt), _, (evs2 ++ [Polled (Some x)])%list.
      split; [reflexivity|]. cbn [trace stdin proc].
      split; [now rewrite app_assoc|]. split; [reflexivity|].
      split; [congruence|]. split; [now apply Hw2|].
      split; [rewrite lines_read_app; cbn; rewrite app_nil_r; congruence|].
      split; [rewrite percentages_app, lines_read_app; cbn;
              now rewrite !app_nil_r|].
      split; [now rewrite forallb_app, He2|].
      split; [intros _; exact Hex|discriminate].
    - assert (Hne : tl (sched st) <> [])
        by (intros E; specialize (Hnil E); discriminate).
      set (st3 := mkState ((trace st ++ evs2) ++ [Polled None])
                          (tl (tl (sched st))) (stdin st) c2).
      destruct (IH st3) as (r & st' & evs & Hm & Ht & Hi & Hrc & Hw' & Hl' & Hq' & He & Hx & Hex).
      { now apply Hw2. }
      { cbn. destruct (sched st) as [|a [|b l']]; cbn in *; try congruence. lia. }
      exists r, st', (evs2 ++ [Polled None] ++ evs)%list.
      split; [exact Hm|]. cbn [trace stdin proc st3] in *.
      split; [rewrite Ht; now rewrite <- !app_assoc|]. split; [exact Hi|].
      split; [congruence|]. split; [exact Hw'|].
      split; [rewrite !lines_read_app; cbn [lines_read app];
              rewrite <- app_assoc, Hl', Hpe2; exact Hl2|].
      split; [rewrite !percentages_app, !lines_read_app; cbn [lines_read percentages app];
              rewrite flat_map_app; congruence|].
      split; [now rewrite !forallb_app, He2, He|].
      split; [assumption|].
      intros e Hre. destruct (Hex e Hre) as (Hpe & l' & Hin & Hsr).
      split; [exact Hpe|]. exists l'. split; [|exact Hsr].
      rewrite !lines_read_app. apply in_or_app. right.
      apply in_or_app. now right. }
  destruct (nonempty l) eqn:El; cbn [negb].
  - pose proof (scan_line_run d l st1) as Hs.
    destruct (scan_result l) as [[]|e] eqn:Esr.
    + rewrite (bind_ok _ _ _ _ _ Hs).
      cbn [trace sched stdin proc st1]. rewrite <- app_assoc.
      apply Hend.
      * cbn. apply progress_of_line_events.
      * rewrite lines_read_app. cbn. rewrite El, lines_read_progress. cbn.
        now rewrite Hp1.
      * rewrite percentages_app, lines_read_app. cbn. rewrite El.
        rewrite percentages_progress, lines_read_progress. cbn.
        now rewrite app_nil_r.
    + rewrite (bind_raise _ _ _ _ _ Hs).
      eexists _, _, ([ReadLine l] ++ map progress_event (progress_of_line d l))%list.
      split; [reflexivity|]. cbn [trace sched stdin proc st1].
      split; [now rewrite <- app_assoc|]. split; [reflexivity|].
      split; [exact Hc1|]. split; [exact Hw1|].
      split; [rewrite lines_read_app; cbn; rewrite El, lines_read_progress;
              cbn; now rewrite Hp1|].
      split; [rewrite percentages_app, lines_read_app; cbn; rewrite El;
              rewrite percentages_progress, lines_read_progress; cbn;
              now rewrite app_nil_r|].
      split; [cbn; apply progress_of_line_events|].
      split; [discriminate|].
      intros e' [= <-]. split.
      * unfold scan_result in Esr.
        destruct (Pattern.search l); [|discriminate].
        destruct (time_str_to_seconds s) eqn:Et; [discriminate|].
        injection Esr as <-. eapply time_str_to_seconds_raises; eauto.
      * exists l. split; [|exact Esr].
        rewrite lines_read_app. cbn. rewrite El. now left.
  - unfold st1. apply Hend.
    + reflexivity.
    + cbn. rewrite El. cbn. destruct Hp1 as [-> ->]. reflexivity.
    + cbn. rewrite El. reflexivity.
Qed.

Lemma monitor_loop_run (d : option float) (st : state) :
  child_wf (proc st) ->
  exists r st' evs,
    monitor_loop d st = (Done r, st')
    /\ trace st' = (trace st ++ evs)%list
    /\ stdin st' = stdin st
    /\ returncode (proc st') = returncode (proc st)
    /\ child_wf (proc st')
    /\ (lines_read evs ++ pending (proc st'))%list = pending (proc st)
    /\ percentages evs = flat_map (progress_of_line d) (lines_read evs)
    /\ forallb (monitor_event d) evs = true
    /\ (r = Ok tt -> stage (proc st') = Exited)
    /\ (forall e, r = Raise e ->
        parse_error e = true
        /\ exists l, In l (lines_read evs) /\ scan_result l = Raise e).
Proof. intros H. unfold monitor_loop. apply monitor_run; [exact H|lia]. Qed.

End Monitor.

(** ** The supervisor *)

Section Supervisor.

Variable w : world.

Lemma float_raises (s : string) (e : exn) :
  PyNum.float s = Raise e -> is_Exception e = true.
Proof.
  unfold PyNum.float.
  destruct (PyNum.remove_underscores _ _); [|intros [= <-]; reflexivity].
  destruct (_ || _)%bool; [discriminate|].
  destruct (String.eqb _ _); [discriminate|].
  destruct (PyNum.parse_decimal _) as [[a b]|]; [discriminate|].
  intros [= <-]. reflexivity.
Qed.

Lemma get_video_duration_run (input_file : string) (st : state) :
  get_video_duration w input_file st
  = (Done (fst (probe_outcome w input_file)),
     mkState (trace st ++ Spawn (ffprobe_command input_file)
                :: snd (probe_outcome w input_file))
             (sched st) (stdin st) (proc st)).
Proof.
  unfold get_video_duration, probe_outcome, try_except, subprocess_run, bind,
    emit, lift, ret, raise, print_message.
  fold (ffprobe_command input_file).
  cbn [trace sched stdin proc].
  destruct (run w (ffprobe_command input_file)) as [rc out|e].
  - cbn [snd]. destruct (PyNum.float out) as [d|e] eqn:Ef.
    + reflexivity.
    + rewrite (float_raises _ _ Ef). cbn. now rewrite <- app_assoc.
  - destruct (is_Exception e); cbn; [now rewrite <- app_assoc|reflexivity].
Qed.

Lemma parse_error_is_Exception (e : exn) :
  parse_error e = true -> is_Exception e = true.
Proof. now destruct e. Qed.

(** The runs of the encoder, case by case. *)
Lemma run_encoder_cases (cmd : list string) (d : option float) (st : state) :
  exists r st' evs,
    run_encoder w cmd d st = (Done r, st')
    /\ trace st' = (trace st ++ Spawn cmd :: evs)%list
    /\ stdin st' = stdin st
    /\ ((exists e, popen w cmd = PopenRaised e /\ r = Raise e /\ evs = [])
        \/ (exists lines rc mevs,
               popen w cmd = PopenStarted lines rc
               /\ forallb (monitor_event d) mevs = true
               /\ percentages mevs
                  = flat_map (progress_of_line d) (lines_read mevs)
               /\ (exists rest,
                      filter nonempty lines = (lines_read mevs ++ rest)%list)
               /\ ((exists e l, r = Raise e /\ parse_error e = true
                              /\ In l (lines_read mevs)
                              /\ scan_result l = Raise e
                              /\ evs = mevs)
                   \/ (rc = 0 /\ r = Ok tt
                       /\ stage (proc st') = Exited
                       /\ evs = (mevs ++ [Waited 0])%list)
                   \/ (rc <> 0 /\ r = Raise encode_failure
                       /\ stage (proc st') = Exited
                       /\ evs = (mevs ++ [Waited rc])%list)))).
Proof.
  unfold run_encoder, Popen.
  unfold bind at 2. unfold bind at 1. unfold emit at 1.
  cbn [trace sched stdin proc].
  destruct (popen w cmd) as [lines rc|e].
  2:{ unfold raise. eexists _, _, []. split; [reflexivity|].
      cbn [trace stdin]. split; [reflexivity|]. split; [reflexivity|].
      left. exists e. repeat split. }
  unfold set_proc at 1. cbn [trace sched stdin proc].
  set (st1 := mkState _ _ _ _).
  destruct (monitor_loop_run d st1)
    as (r & st2 & mevs & Hm & Ht & Hi & Hrc & Hw & Hl & Hq & He & Hx & Hex).
  { unfold st1, child_wf. cbn. split; [now left|reflexivity]. }
  cbn [trace sched stdin proc st1 returncode] in *.
  assert (Hrest : exists rest,
             filter nonempty lines = (lines_read mevs ++ rest)%list).
  { exists (pending (proc st2)). now rewrite Hl. }
  destruct r as [[]|e].
  - rewrite (bind_ok _ _ _ _ _ Hm).
    unfold wait, bind, get_proc, set_proc, emit, ret, raise.
    cbn [trace sched stdin proc]. rewrite Hrc.
    destruct (rc =? 0) eqn:E0; cbn [negb].
    + apply Z.eqb_eq in E0.
      eexists _, _, (mevs ++ [Waited 0])%list. split; [reflexivity|].
      cbn [trace stdin proc]. rewrite Ht, E0.
      split; [now rewrite <- !app_assoc|]. split; [exact Hi|].
      right. exists lines, 0, mevs. split; [reflexivity|].
      split; [exact He|]. split; [exact Hq|]. split; [exact Hrest|].
      right; left. split; [reflexivity|]. split; [reflexivity|].
      split; reflexivity.
    + apply Z.eqb_neq in E0.
      eexists _, _, (mevs ++ [Waited rc])%list. split; [reflexivity|].
      cbn [trace stdin proc]. rewrite Ht.
      split; [now rewrite <- !app_assoc|]. split; [exact Hi|].
      right. exists lines, rc, mevs. split; [reflexivity|].
      split; [exact He|]. split; [exact Hq|]. split; [exact Hrest|].
      right; right. split; [exact E0|]. split; [reflexivity|].
      split; reflexivity.
  - rewrite (bind_raise _ _ _ _ _ Hm).
    eexists _, _, mevs. split; [reflexivity|].
    split; [rewrite Ht; now rewrite <- app_assoc|]. split; [exact Hi|].
    right. exists lines, rc, mevs. split; [reflexivity|].
    split; [exact He|]. split; [exact Hq|]. split; [exact Hrest|].
    destruct (Hex e eq_refl) as (Hpe & l & Hin & Hsr).
    left. exists e, l. repeat split; assumption.
Qed.

(** The runs of [compress_video], case by case. *)
Lemma compress_video_cases (input_file output_file : string) (crf : Z)
  (preset : string) (st : state) :
  let pre := prelude w input_file output_file crf preset in
  let cmd := ffmpeg_command input_file output_file crf preset in
  exists r st' evs,
    compress_video w input_file output_file crf preset st = (Done r, st')
    /\ trace st' = (trace st ++ evs)%list
    /\ stdin st' = stdin st
    /\ ((isfile w input_file = false
         /\ r = Raise (FileNotFoundError
                         ("Input file '" ++ input_file ++ "' does not exist."))
         /\ st' = st /\ evs = [])
        \/ (isfile w input_file = true
            /\ exists e, fst (probe_outcome w input_file) = Raise e
               /\ r = Raise e
               /\ evs = Spawn (ffprobe_command input_file)
                          :: snd (probe_outcome w input_file))
        \/ (isfile w input_file = true
            /\ exists d e, fst (probe_outcome w input_file) = Ok d
               /\ popen w cmd = PopenRaised e
               /\ r = Raise e /\ evs = pre)
        \/ (isfile w input_file = true
            /\ exists d lines rc mevs,
               fst (probe_outcome w input_file) = Ok d
               /\ popen w cmd = PopenStarted lines rc
               /\ forallb (monitor_event d) mevs = true
               /\ percentages mevs
                  = flat_map (progress_of_line d) (lines_read mevs)
               /\ (exists rest,
                      filter nonempty lines = (lines_read mevs ++ rest)%list)
               /\ ((exists e l, r = Raise e /\ parse_error e = true
                              /\ In l (lines_read mevs)
                              /\ scan_result l = Raise e
                              /\ evs = (pre ++ mevs)%list)
                   \/ (rc = 0 /\ r = Ok tt
                       /\ stage (proc st') = Exited
                       /\ evs = (pre ++ mevs ++ [Waited 0; completed])%list)
                   \/ (rc <> 0 /\ r = Raise encode_failure
                       /\ stage (proc st') = Exited
                       /\ evs = (pre ++ mevs ++ [Waited rc])%list)))).
Proof.
  intros pre cmd. unfold compress_video.
  destruct (isfile w input_file) eqn:Hf; cbn [negb].
  2:{ eexists _, st, []. split; [reflexivity|].
      split; [now rewrite app_nil_r|]. split; [reflexivity|].
      left. repeat split. }
  pose proof (get_video_duration_run input_file st) as Hg.
  destruct (fst (probe_outcome w input_file)) as [d|e] eqn:Hd.
  2:{ rewrite (bind_raise _ _ _ _ _ Hg).
      eexists _, _, _. split; [reflexivity|]. cbn [trace stdin].
      split; [reflexivity|]. split; [reflexivity|].
      right; left. split; [reflexivity|]. exists e. repeat split. }
  rewrite (bind_ok _ _ _ _ _ Hg).
  unfold print_message at 1. unfold bind at 1, emit at 1.
  cbn [trace sched stdin proc]. fold cmd.
  set (st2 := mkState _ _ _ _).
  unfold bind at 1. rewrite try_except_reraise.
  destruct (run_encoder_cases cmd d st2)
    as (r & st3 & evs & Hrun & Ht & Hi & Hcases).
  rewrite Hrun.
  assert (Hpre : forall l : list event,
             (trace st2 ++ Spawn cmd :: l)%list = (trace st ++ pre ++ l)%list).
  { intros l. unfold st2, pre, prelude. cbn [trace]. fold cmd.
    rewrite <- !app_assoc. reflexivity. }
  rewrite Hpre in Ht. cbn [stdin st2] in Hi.
  destruct Hcases as [(e & Hpo & -> & ->)
                     |(lines & rc & mevs & Hpo & He & Hq & Hrest & Hout)].
  - eexists _, _, _. split; [reflexivity|]. split; [exact Ht|].
    split; [exact Hi|]. right; right; left. split; [reflexivity|].
    exists d, e. rewrite app_nil_r. repeat split. exact Hpo.
  - destruct Hout as [(e & l & -> & Hpe & Hin & Hsr & ->)
                     |[(-> & -> & Hst & ->)|(Hrc & -> & Hst & ->)]].
    + eexists _, _, _. split; [reflexivity|]. split; [exact Ht|].
      split; [exact Hi|]. right; right; right. split; [reflexivity|].
      exists d, lines, rc, mevs. split; [reflexivity|]. split; [exact Hpo|].
      split; [exact He|]. split; [exact Hq|]. split; [exact Hrest|].
      left. exists e, l. repeat split; assumption.
    + unfold print_message, emit. cbn [trace sched stdin proc].
      eexists _, _, (pre ++ mevs ++ [Waited 0; completed])%list.
      split; [reflexivity|]. cbn [trace stdin proc].
      split; [rewrite Ht; rewrite <- !app_assoc; reflexivity|].
      split; [exact Hi|]. right; right; right. split; [reflexivity|].
      exists d, lines, 0, mevs. split; [reflexivity|]. split; [exact Hpo|].
      split; [exact He|]. split; [exact Hq|]. split; [exact Hrest|].
      right; left. repeat split. exact Hst.
    + eexists _, _, _. split; [reflexivity|]. split; [exact Ht|].
      split; [exact Hi|]. right; right; right. split; [reflexivity|].
      exists d, lines, rc, mevs. split; [reflexivity|]. split; [exact Hpo|].
      split; [exact He|]. split; [exact Hq|]. split; [exact Hrest|].
      right; right. repeat split; assumption.
Qed.

End Supervisor.

(** ** Missing input *)

Section MissingInput.

(** C4: a request whose input path names no existing file fails with
    [FileNotFoundError] and leaves the state of the run as it was: no
    child is spawned, neither the prober nor the encoder. *)
Theorem compress_video_missing_input (w : world)
  (input_file output_file : string) (crf : Z) (preset : string)
  (st : state) :
  isfile w input_file = false ->
  compress_video w input_file output_file crf preset st
  = (Done (Raise (FileNotFoundError
                    ("Input file '" ++ input_file ++ "' does not exist."))),
     st)
  /\ spawns (trace (snd (compress_video w input_file output_file crf preset st)))
     = spawns (trace st).
Proof.
  intros H. unfold compress_video. rewrite H. cbn. split; reflexivity.
Qed.

Lemma compress_video_missing_input_example :
  isfile movie_world "absent.mp4" = false
  /\ compress_video movie_world "absent.mp4" "absent-cmp.mp4" 28 "medium"
       (initial [] [])
     = (Done (Raise (FileNotFoundError
                       "Input file 'absent.mp4' does not exist.")),
        initial [] []).
Proof.
  split; [reflexivity|].
  exact (proj1 (compress_video_missing_input movie_world "absent.mp4"
                  "absent-cmp.mp4" 28 "medium" (initial [] []) eq_refl)).
Defined.

End MissingInput.

(** ** The preflight check *)

Section Preflight.

Lemma check_ffmpeg_run (w : world) (st : state) :
  check_ffmpeg w st
  = (Done (match run w ffmpeg_check_command with
           | RunCompleted _ _ => Ok true
           | RunRaised e => if is_FileNotFoundError e then Ok false
                            else Raise e
           end),
     mkState (trace st ++ [Spawn ffmpeg_check_command]) (sched st)
             (stdin st) (proc st)).
Proof.
  unfold check_ffmpeg, try_except, subprocess_run, bind, emit, ret, raise.
  fold ffmpeg_check_command. cbn [trace sched stdin proc].
  destruct (run w ffmpeg_check_command) as [rc out|e]; [reflexivity|].
  now destruct (is_FileNotFoundError e).
Qed.

(** [main] when the encoder is not found. *)
Lemma main_ffmpeg_missing (w : world) (args : Namespace) (st : state)
  (e : exn) :
  run w ffmpeg_check_command = RunRaised e ->
  is_FileNotFoundError e = true ->
  main w args st
  = (Done (Raise (SystemExit 1)),
     mkState
       (trace st
          ++ [Spawn ffmpeg_check_command;
              Printed "error"
                (Text "FFmpeg is not installed or not found in PATH.")])
       (sched st) (stdin st) (proc st)).
Proof.
  intros Hr He. pose proof (check_ffmpeg_run w st) as Hc.
  rewrite Hr, He in Hc.
  unfold main. rewrite (bind_ok _ _ _ _ _ Hc). cbn [negb].
  unfold print_message, sys_exit, bind, emit, raise.
  cbn [trace sched stdin proc]. now rewrite <- app_assoc.
Qed.

(** [main] when the preflight check raises another exception. *)
Lemma main_check_raises (w : world) (args : Namespace) (st : state)
  (e : exn) :
  run w ffmpeg_check_command = RunRaised e ->
  is_FileNotFoundError e = false ->
  main w args st
  = (Done (Raise e),
     mkState (trace st ++ [Spawn ffmpeg_check_command]) (sched st)
             (stdin st) (proc st)).
Proof.
  intros Hr He. pose proof (check_ffmpeg_run w st) as Hc.
  rewrite Hr, He in Hc.
  unfold main. now rewrite (bind_raise _ _ _ _ _ Hc).
Qed.

(** C10: [check_ffmpeg] reports the encoder as available whenever
    [ffmpeg -version] could be run, whatever its exit status; it reports
    it as missing only for a [FileNotFoundError], and then [main] prints
    the error and exits with status 1 after that one spawn; any other
    exception of the spawn is neither, it propagates. *)
Theorem check_ffmpeg_preflight (w : world) (args : Namespace) (st : state) :
  match run w ffmpeg_check_command with
  | RunCompleted returncode _ =>
      fst (check_ffmpeg w st) = Done (Ok true)
  | RunRaised e =>
      if is_FileNotFoundError e then
        fst (check_ffmpeg w st) = Done (Ok false)
        /\ main w args st
           = (Done (Raise (SystemExit 1)),
              mkState
                (trace st
                   ++ [Spawn ffmpeg_check_command;
                       Printed "error"
                         (Text "FFmpeg is not installed or not found in PATH.")])
                (sched st) (stdin st) (proc st))
        /\ exit_status (fst (main w args st)) = Some 1
      else fst (check_ffmpeg w st) = Done (Raise e)
  end.
Proof.
  pose proof (check_ffmpeg_run w st) as Hc.
  destruct (run w ffmpeg_check_command) as [rc out|e] eqn:Hr.
  - now rewrite Hc.
  - destruct (is_FileNotFoundError e) eqn:He.
    + rewrite Hc, (main_ffmpeg_missing w args st e Hr He). repeat split.
    + now rewrite Hc.
Qed.

(** An encoder that is on the search path and fails its version call
    passes the check. *)
Lemma check_ffmpeg_failing_version :
  fst (check_ffmpeg
         (mkWorld (fun _ => true) (fun _ => RunCompleted 1 EmptyString)
                  (fun _ => PopenStarted [] 1) "compressor.py")
         (initial [] []))
  = Done (Ok true).
Proof. reflexivity. Qed.

End Preflight.

(** ** Percentages *)

Section Percentages.

(** C2: for a known total duration [D] and a line whose leftmost
    timestamp parses to [t], the scan of the line prints the percentage
    [(t / D) * 100] when [D] is truthy, that is when it is not zero, and
    prints nothing when [D] is zero; the percentage is printed as it is
    computed, with no clamping: 150 seconds of a total of 120 are printed
    as 125. *)
Theorem scan_line_percentage (D t : float) (line ts : string) (st : state) :
  Pattern.search line = Some ts ->
  time_str_to_seconds ts = Ok t ->
  scan_line (Some D) line st
  = (Done (Ok tt),
     mkState
       (trace st
          ++ (if PyNum.truthy D
              then [Printed "info"
                      (Progress (PrimFloat.mul (PrimFloat.div t D) 100%float))]
              else []))
       (sched st) (stdin st) (proc st))
  /\ PrimFloat.mul (PrimFloat.div 150%float 120%float) 100%float = 125%float.
Proof.
  intros Hs Ht. split; [|reflexivity].
  rewrite scan_line_run. unfold scan_result, progress_of_line.
  rewrite Hs, Ht. now destruct (PyNum.truthy D).
Qed.

Lemma scan_line_percentage_example :
  (Pattern.search "frame=3750 time=00:02:30.00 bitrate=34.9kbits/s"
   = Some "00:02:30.00"
   /\ time_str_to_seconds "00:02:30.00" = Ok 150%float)
  /\ scan_line (Some 120%float)
       "frame=3750 time=00:02:30.00 bitrate=34.9kbits/s" (initial [] [])
     = (Done (Ok tt),
        mkState [Printed "info" (Progress 125%float)] [] []
                (mkChild [] [] Running 0)).
Proof.
  split; [repeat split|].
  exact (proj1 (scan_line_percentage 120%float 150%float
                  "frame=3750 time=00:02:30.00 bitrate=34.9kbits/s"
                  "00:02:30.00" (initial [] []) eq_refl eq_refl)).
Defined.

(** A total duration of zero is known, it is not [None], and yet no
    percentage is printed for a line with a timestamp. *)
Lemma scan_line_zero_duration :
  Pattern.search "frame=1500 time=00:01:00.00 bitrate=34.9kbits/s"
  = Some "00:01:00.00"
  /\ time_str_to_seconds "00:01:00.00" = Ok 60%float
  /\ percentages
       (trace (snd (scan_line (Some 0%float)
                      "frame=1500 time=00:01:00.00 bitrate=34.9kbits/s"
                      (initial [] []))))
     = []
  /\ percentages
       (trace (snd (scan_line (Some 0%float)
                      "frame=1500 time=00:01:00.00 bitrate=34.9kbits/s"
                      (initial [] []))))
     <> [PrimFloat.mul (PrimFloat.div 60%float 0%float) 100%float].
Proof. repeat split. discriminate. Qed.

End Percentages.

(** ** Outcomes of the encoder *)

Section Outcomes.

Variable w : world.

Lemma monitor_events_quiet (d : option float) (evs : list event) :
  forallb (monitor_event d) evs = true ->
  spawns evs = [] /\ waits evs = [] /\ prompts evs = [].
Proof.
  induction evs as [|e evs IH]; cbn; [easy|].
  intros H. apply andb_true_iff in H. destruct H as [He Hevs].
  destruct e; cbn in *; try discriminate; now apply IH.
Qed.

Lemma monitor_events_falsy (d : option float) (evs : list event) :
  duration_truthy d = false ->
  forallb (monitor_event d) evs = true ->
  percentages evs = [].
Proof.
  intros Hd. induction evs as [|e evs IH]; cbn; [easy|].
  intros H. apply andb_true_iff in H. destruct H as [He Hevs].
  destruct e as [| s m | | | | |]; cbn in *; try discriminate; try now apply IH.
  destruct m; cbn in *; try discriminate. congruence.
Qed.

Lemma probe_outcome_events (input_file : string) :
  snd (probe_outcome w input_file) = []
  \/ exists e, snd (probe_outcome w input_file)
               = [Printed "warning" (DurationWarning e)].
Proof.
  unfold probe_outcome.
  destruct (run w (ffprobe_command input_file)) as [rc out|e].
  - destruct (PyNum.float out) as [d|e]; [now left|right; now exists e].
  - destruct (is_Exception e); [right; now exists e|now left].
Qed.

Lemma prelude_quiet (input_file output_file : string) (crf : Z)
  (preset : string) :
  waits (prelude w input_file output_file crf preset) = []
  /\ percentages (prelude w input_file output_file crf preset) = []
  /\ spawns (prelude w input_file output_file crf preset)
     = [ffprobe_command input_file;
        ffmpeg_command input_file output_file crf preset].
Proof.
  unfold prelude.
  destruct (probe_outcome_events input_file) as [->|[e ->]]; now cbn.
Qed.

Lemma probe_events_quiet (input_file : string) :
  waits (snd (probe_outcome w input_file)) = []
  /\ percentages (snd (probe_outcome w input_file)) = []
  /\ spawns (snd (probe_outcome w input_file)) = [].
Proof.
  destruct (probe_outcome_events input_file) as [->|[e ->]]; now cbn.
Qed.

(** C5: [compress_video] returns normally if and only if [process.wait()]
    has returned the exit code 0; an observed exit code other than 0
    yields the one exception [Exception("FFmpeg encountered an error.")];
    the code observed is the exit code of the encoder, which has exited
    by then; a normal return comes after the wait, which is the last
    event before the message of success; and when the encoder is started
    and no line of its stream makes the time parser raise, its exit code
    is observed. *)
Theorem compress_video_outcome (input_file output_file : string) (crf : Z)
  (preset : string) (st : state) :
  let cmd := ffmpeg_command input_file output_file crf preset in
  exists r st' evs,
    compress_video w input_file output_file crf preset st = (Done r, st')
    /\ trace st' = (trace st ++ evs)%list
    /\ (r = Ok tt <-> In 0 (waits evs))
    /\ (forall c, In c (waits evs) -> c <> 0 -> r = Raise encode_failure)
    /\ (forall c, In c (waits evs) ->
          (exists lines, popen w cmd = PopenStarted lines c)
          /\ stage (proc st') = Exited)
    /\ (r = Ok tt ->
          exists evs0, evs = (evs0 ++ [Waited 0; completed])%list
                       /\ waits evs0 = [])
    /\ (forall d lines rc,
          isfile w input_file = true ->
          fst (probe_outcome w input_file) = Ok d ->
          popen w cmd = PopenStarted lines rc ->
          (forall l, In l lines -> scan_result l = Ok tt) ->
          waits evs = [rc]).
Proof.
  intros cmd.
  destruct (compress_video_cases w input_file output_file crf preset st)
    as (r & st' & evs & Hrun & Ht & _ & Hcases).
  fold cmd in Hcases.
  exists r, st', evs. split; [exact Hrun|]. split; [exact Ht|].
  destruct (prelude_quiet input_file output_file crf preset) as (Hpw & _ & _).
  destruct (probe_events_quiet input_file) as (Hqw & _ & _).
  destruct Hcases as [(Hf & -> & _ & ->)
                     |[(Hf & e & Hd & -> & ->)
                      |[(Hf & d & e & Hd & Hpo & -> & ->)
                       |(Hf & d & lines & rc & mevs & Hd & Hpo & He & _
                         & [rest Hrest] & Hout)]]].
  - cbn. repeat split; try easy. congruence.
  - cbn. rewrite Hqw. repeat split; try easy. congruence.
  - rewrite Hpw. repeat split; try easy. congruence.
  - destruct (monitor_events_quiet d mevs He) as (_ & Hmw & _).
    destruct Hout as [(e & l & -> & Hpe & Hin & Hsr & ->)
                     |[(-> & -> & Hst & ->)|(Hrc & -> & Hst & ->)]].
    + rewrite waits_app, Hpw, Hmw. cbn [waits app In].
      split; [split; [discriminate|easy]|]. split; [easy|]. split; [easy|].
      split; [discriminate|].
      intros d' lines' rc' _ _ Hpo' Hall. exfalso.
      rewrite Hpo in Hpo'. injection Hpo' as <- <-.
      assert (Hl : In l lines).
      { assert (Hl' : In l (filter nonempty lines))
          by (rewrite Hrest; apply in_or_app; now left).
        now apply filter_In in Hl'. }
      rewrite (Hall l Hl) in Hsr. discriminate.
    + rewrite !waits_app, Hpw, Hmw. cbn [waits app In].
      split; [split; [intros _; left; reflexivity|intros _; reflexivity]|].
      split; [intros c [<-|[]] Hc; now elim Hc|].
      split; [intros c [<-|[]]; split; [now exists lines|exact Hst]|].
      split.
      * intros _. exists (prelude w input_file output_file crf preset ++ mevs)%list.
        split; [now rewrite <- app_assoc|]. now rewrite waits_app, Hpw, Hmw.
      * intros d' lines' rc' _ _ Hpo' _. rewrite Hpo in Hpo'.
        now injection Hpo' as <- <-.
    + rewrite !waits_app, Hpw, Hmw. cbn [waits app In].
      split; [split; [discriminate|intros [E|[]]; now elim Hrc]|].
      split; [intros c [<-|[]] _; reflexivity|].
      split; [intros c [<-|[]]; split; [now exists lines|exact Hst]|].
      split; [discriminate|].
      intros d' lines' rc' _ _ Hpo' _. rewrite Hpo in Hpo'.
      now injection Hpo' as <- <-.
Qed.

End Outcomes.

(** ** Unknown and zero durations *)

Section Durations.

Variable w : world.

Lemma get_video_duration_outcome (input_file : string) (st : state)
  (d : option float) :
  fst (get_video_duration w input_file st) = Done (Ok d) ->
  fst (probe_outcome w input_file) = Ok d.
Proof. rewrite get_video_duration_run. cbn. congruence. Qed.

(** With a total duration that is not truthy a run prints no percentage,
    starts the encoder all the same, and returns normally if and only if
    the exit code 0 is observed. *)
Lemma compress_video_falsy_duration (input_file output_file : string)
  (crf : Z) (preset : string) (st : state) (d : option float) :
  isfile w input_file = true ->
  fst (probe_outcome w input_file) = Ok d ->
  duration_truthy d = false ->
  let cmd := ffmpeg_command input_file output_file crf preset in
  exists r st' evs,
    compress_video w input_file output_file crf preset st = (Done r, st')
    /\ trace st' = (trace st ++ evs)%list
    /\ percentages evs = []
    /\ In cmd (spawns evs)
    /\ (forall lines,
          popen w cmd = PopenStarted lines 0 ->
          (forall l, In l lines -> scan_result l = Ok tt) ->
          r = Ok tt).
Proof.
  intros Hf Hd Hfalsy cmd.
  destruct (compress_video_cases w input_file output_file crf preset st)
    as (r & st' & evs & Hrun & Ht & _ & Hcases).
  fold cmd in Hcases.
  exists r, st', evs. split; [exact Hrun|]. split; [exact Ht|].
  destruct (prelude_quiet w input_file output_file crf preset)
    as (_ & Hpp & Hps).
  fold cmd in Hps.
  destruct Hcases as [(Hf' & _)
                     |[(_ & e & Hd' & _)
                      |[(_ & d' & e & Hd' & Hpo & -> & ->)
                       |(_ & d' & lines & rc & mevs & Hd' & Hpo & He & _
                         & [rest Hrest] & Hout)]]];
    try congruence.
  - rewrite Hpp, Hps. split; [reflexivity|]. split; [cbn; tauto|].
    intros lines Hpo'. congruence.
  - assert (d' = d) by congruence. subst d'.
    pose proof (monitor_events_falsy d mevs Hfalsy He) as Hmp.
    assert (Hsp : forall tl : list event,
               In cmd (spawns (prelude w input_file output_file crf preset
                                 ++ tl))).
    { intros tl. rewrite spawns_app, Hps. cbn. tauto. }
    destruct Hout as [(e & l & -> & Hpe & Hin & Hsr & ->)
                     |[(-> & -> & Hst & ->)|(Hrc & -> & Hst & ->)]].
    + rewrite percentages_app, Hpp, Hmp. split; [reflexivity|].
      split; [apply Hsp|].
      intros lines' Hpo' Hall. exfalso.
      rewrite Hpo in Hpo'. injection Hpo' as <- _.
      assert (Hl : In l lines).
      { assert (Hl' : In l (filter nonempty lines))
          by (rewrite Hrest; apply in_or_app; now left).
        now apply filter_In in Hl'. }
      rewrite (Hall l Hl) in Hsr. discriminate.
    + rewrite !percentages_app, Hpp, Hmp. split; [reflexivity|].
      split; [apply Hsp|]. reflexivity.
    + rewrite !percentages_app, Hpp, Hmp. split; [reflexivity|].
      split; [apply Hsp|].
      intros lines' Hpo' _. rewrite Hpo in Hpo'. injection Hpo' as _ E.
      now elim Hrc.
Qed.

(** C6: when the duration probe fails, that is [get_video_duration]
    returns [None], the run prints no percentage whatever the stream of
    the encoder holds, and the encoding goes on: the encoder is started
    with its command, and the run returns normally when the encoder exits
    with code 0 and no line makes the time parser raise. *)
Theorem compress_video_unknown_duration (input_file output_file : string)
  (crf : Z) (preset : string) (st : state) :
  isfile w input_file = true ->
  fst (get_video_duration w input_file st) = Done (Ok None) ->
  let cmd := ffmpeg_command input_file output_file crf preset in
  exists r st' evs,
    compress_video w input_file output_file crf preset st = (Done r, st')
    /\ trace st' = (trace st ++ evs)%list
    /\ percentages evs = []
    /\ In cmd (spawns evs)
    /\ (forall lines,
          popen w cmd = PopenStarted lines 0 ->
          (forall l, In l lines -> scan_result l = Ok tt) ->
          r = Ok tt).
Proof.
  intros Hf Hg.
  apply (compress_video_falsy_duration _ _ _ _ _ None Hf); [|reflexivity].
  now apply (get_video_duration_outcome _ st).
Qed.

Lemma scan_result_no_zero_division (line : string) :
  scan_result line <> Raise ZeroDivisionError.
Proof.
  unfold scan_result. destruct (Pattern.search line) as [ts|]; [|discriminate].
  destruct (time_str_to_seconds ts) as [t|e] eqn:E; [discriminate|].
  intros [= ->]. apply time_str_to_seconds_raises in E. discriminate.
Qed.

(** C9: when the duration probe returns a duration equal to zero, the run
    prints no percentage whatever the stream of the encoder holds; and
    for every total duration, known or not, zero or not, the scan of a
    line never raises [ZeroDivisionError]: the division is made with a
    truthy divisor only. *)
Theorem compress_video_zero_duration (input_file output_file : string)
  (crf : Z) (preset : string) (st : state) (d : float) :
  isfile w input_file = true ->
  fst (get_video_duration w input_file st) = Done (Ok (Some d)) ->
  PrimFloat.eqb d 0%float = true ->
  (exists r st' evs,
      compress_video w input_file output_file crf preset st = (Done r, st')
      /\ trace st' = (trace st ++ evs)%list
      /\ percentages evs = [])
  /\ (forall total_duration line st0,
        fst (scan_line total_duration line st0)
        <> Done (Raise ZeroDivisionError))
  /\ (forall t D, PyNum.truthy D = false ->
        percentage t D = Raise ZeroDivisionError).
Proof.
  intros Hf Hg Hz. split; [|split].
  - destruct (compress_video_falsy_duration input_file output_file crf preset
                st (Some d) Hf)
      as (r & st' & evs & Hrun & Ht & Hp & _).
    + now apply (get_video_duration_outcome _ st).
    + cbn. unfold PyNum.truthy. change PrimFloat.zero with 0%float.
      now rewrite Hz.
    + now exists r, st', evs.
  - intros td line st0. rewrite scan_line_run. cbn.
    intros [= E]. now apply (scan_result_no_zero_division line).
  - intros t D HD. unfold percentage, PyNum.truediv, PyNum.truthy in *.
    apply negb_false_iff in HD. now rewrite HD.
Qed.

End Durations.

Section DurationExamples.

Lemma compress_video_unknown_duration_example :
  (isfile unknown_duration_world "movie.mp4" = true
   /\ fst (get_video_duration unknown_duration_world "movie.mp4"
             (initial [] []))
      = Done (Ok None))
  /\ exists r st' evs,
       compress_video unknown_duration_world "movie.mp4" "movie-cmp.mp4"
         28 "medium" (initial [] [])
       = (Done r, st')
       /\ trace st' = (trace (initial [] []) ++ evs)%list
       /\ percentages evs = []
       /\ In (ffmpeg_command "movie.mp4" "movie-cmp.mp4" 28 "medium")
             (spawns evs)
       /\ (forall lines,
             popen unknown_duration_world
               (ffmpeg_command "movie.mp4" "movie-cmp.mp4" 28 "medium")
             = PopenStarted lines 0 ->
             (forall l, In l lines -> scan_result l = Ok tt) ->
             r = Ok tt).
Proof.
  split; [split; reflexivity|].
  exact (compress_video_unknown_duration unknown_duration_world "movie.mp4"
           "movie-cmp.mp4" 28 "medium" (initial [] []) eq_refl eq_refl).
Defined.

Lemma compress_video_zero_duration_example :
  (isfile zero_duration_world "movie.mp4" = true
   /\ fst (get_video_duration zero_duration_world "movie.mp4"
             (initial [] []))
      = Done (Ok (Some 0%float))
   /\ PrimFloat.eqb 0%float 0%float = true)
  /\ exists r st' evs,
       compress_video zero_duration_world "movie.mp4" "movie-cmp.mp4"
         28 "medium" (initial [] [])
       = (Done r, st')
       /\ trace st' = (trace (initial [] []) ++ evs)%list
       /\ percentages evs = [].
Proof.
  split; [repeat split|].
  exact (proj1 (compress_video_zero_duration zero_duration_world "movie.mp4"
                  "movie-cmp.mp4" 28 "medium" (initial [] []) 0%float
                  eq_refl eq_refl eq_refl)).
Defined.

End DurationExamples.

(** ** The command line of the encoder *)

Section CommandLine.

Variable w : world.

(** The non-interactive path of [main] once the preflight check has
    passed. *)
Lemma main_noninteractive (args : Namespace) (input_file : string)
  (st : state) :
  fst (check_ffmpeg w st) = Done (Ok true) ->
  args_interactive args = false ->
  args_input_file args = Some input_file ->
  nonempty input_file = true ->
  let output_file :=
    if negb (str_truthy (args_output args)) then default_output input_file
    else match args_output args with
         | Some o => o
         | None => EmptyString
         end in
  main w args st
  = try_except
      (compress_video w input_file output_file (args_crf args)
                      (args_preset args))
      is_Exception
      (fun e => print_message (ErrorOccurred e) "error" ;;; sys_exit 1)
      (mkState (trace st ++ [Spawn ffmpeg_check_command]) (sched st)
               (stdin st) (proc st)).
Proof.
  intros Hc Hi Hin Hne output_file.
  pose proof (check_ffmpeg_run w st) as Hrun.
  rewrite Hrun in Hc. cbn [fst] in Hc. injection Hc as Hc.
  rewrite Hc in Hrun.
  unfold main. rewrite (bind_ok _ _ _ _ _ Hrun). cbn [negb].
  rewrite Hi, Hin. cbn [str_truthy orb]. rewrite Hne. cbn [negb].
  reflexivity.
Qed.

(** C7: for a request with an input file and no option, the commands
    spawned by [main] are, in this order, the preflight check, the
    duration probe and the encoder, and the encoder is called as
    [ffmpeg -i <input> -vcodec libx265 -crf 28 -preset medium -y <output>]
    where [<output>] is the stem of the input, [-cmp], and the extension
    of the input.  No other command is spawned in any run of such a
    request; the three are spawned when the check passes, the input file
    exists and the probe returns. *)
Theorem main_default_command (input_file : string) (st : state) :
  nonempty input_file = true ->
  let output_file :=
    (fst (PyPath.splitext input_file) ++ "-cmp"
       ++ snd (PyPath.splitext input_file))%string in
  let encoder :=
    ["ffmpeg"; "-i"; input_file; "-vcodec"; "libx265"; "-crf"; "28";
     "-preset"; "medium"; "-y"; output_file] in
  exists o st' evs,
    main w (default_args (Some input_file)) st = (o, st')
    /\ trace st' = (trace st ++ evs)%list
    /\ (exists k,
          spawns evs
          = firstn k [ffmpeg_check_command; ffprobe_command input_file;
                      encoder])
    /\ (fst (check_ffmpeg w st) = Done (Ok true) ->
        isfile w input_file = true ->
        (forall e, fst (probe_outcome w input_file) <> Raise e) ->
        spawns evs
        = [ffmpeg_check_command; ffprobe_command input_file; encoder]).
Proof.
  intros Hne output_file encoder.
  assert (Hout : default_output input_file = output_file).
  { unfold default_output, output_file.
    now destruct (PyPath.splitext input_file). }
  assert (Henc : ffmpeg_command input_file output_file 28 "medium" = encoder)
    by reflexivity.
  pose proof (check_ffmpeg_run w st) as Hrun.
  destruct (run w ffmpeg_check_command) as [rc out|e] eqn:Hck.
  2:{ (* the check does not pass *)
      destruct (is_FileNotFoundError e) eqn:Hfnf.
      - rewrite (main_ffmpeg_missing w _ st e Hck Hfnf).
        eexists _, _, _. split; [reflexivity|]. cbn [trace].
        split; [reflexivity|]. split; [now exists 1%nat|].
        rewrite Hrun. discriminate.
      - rewrite (main_check_raises w _ st e Hck Hfnf).
        eexists _, _, _. split; [reflexivity|]. cbn [trace].
        split; [reflexivity|]. split; [now exists 1%nat|].
        rewrite Hrun. cbn. congruence. }
  rewrite (main_noninteractive (default_args (Some input_file)) input_file st);
    [|now rewrite Hrun|reflexivity|reflexivity|exact Hne].
  cbn [default_args args_output args_crf args_preset str_truthy negb].
  rewrite Hout.
  set (st1 := mkState _ _ _ _).
  destruct (compress_video_cases w input_file output_file 28 "medium" st1)
    as (r & st2 & evs & Hcv & Ht & _ & Hcases).
  rewrite Henc in Hcases.
  destruct (prelude_quiet w input_file output_file 28 "medium")
    as (_ & _ & Hps).
  rewrite Henc in Hps.
  destruct (probe_events_quiet w input_file) as (_ & _ & Hqs).
  (* the spawns of [compress_video] *)
  assert (Hsp : (spawns evs = [] /\ isfile w input_file = false)
                \/ (spawns evs = [ffprobe_command input_file]
                    /\ exists e, fst (probe_outcome w input_file) = Raise e)
                \/ spawns evs = [ffprobe_command input_file; encoder]).
  { destruct Hcases as [(Hf & _ & _ & ->)
                       |[(_ & e & Hd & _ & ->)
                        |[(_ & d & e & _ & _ & _ & ->)
                         |(_ & d & lines & rc' & mevs & _ & _ & He & _ & _
                           & Hout')]]].
    - left. now split.
    - right; left. cbn. rewrite Hqs. split; [reflexivity|now exists e].
    - right; right. exact Hps.
    - right; right. destruct (monitor_events_quiet d mevs He) as (Hms & _).
      destruct Hout' as [(e & l & _ & _ & _ & _ & ->)
                        |[(_ & _ & _ & ->)|(_ & _ & _ & ->)]];
        rewrite ?spawns_app, Hps, Hms; reflexivity. }
  (* the handler adds no spawn *)
  assert (Hmain : exists o st' extra,
             try_except
               (compress_video w input_file output_file 28 "medium")
               is_Exception
               (fun e => print_message (ErrorOccurred e) "error" ;;; sys_exit 1)
               st1 = (o, st')
             /\ trace st' = (trace st2 ++ extra)%list
             /\ spawns extra = []).
  { unfold try_except. rewrite Hcv. destruct r as [[]|e].
    - eexists _, _, []. split; [reflexivity|]. now rewrite app_nil_r.
    - destruct (is_Exception e).
      + unfold print_message, sys_exit, bind, emit, raise.
        cbn [trace sched stdin proc].
        eexists _, _, _. split; [reflexivity|]. cbn [trace]. now split.
      + eexists _, _, []. split; [reflexivity|]. now rewrite app_nil_r. }
  destruct Hmain as (o & st' & extra & Hm & Ht' & Hex).
  exists o, st', ([Spawn ffmpeg_check_command] ++ evs ++ extra)%list.
  split; [exact Hm|].
  split; [rewrite Ht', Ht; unfold st1; cbn [trace];
          now rewrite <- !app_assoc|].
  rewrite !spawns_app, Hex, app_nil_r. cbn [spawns app].
  split.
  - destruct Hsp as [[-> _]|[[-> _]| ->]];
      [now exists 1%nat|now exists 2%nat|now exists 3%nat].
  - intros _ Hf Hp. destruct Hsp as [[_ Hf']|[[_ [e He]]| ->]];
      [congruence|now elim (Hp e)|reflexivity].
Qed.

(** The request of the specification: [movie.mp4] is encoded to
    [movie-cmp.mp4]. *)
Lemma default_output_example :
  default_output "movie.mp4" = "movie-cmp.mp4"
  /\ default_output "/videos/holiday.2019.mkv" = "/videos/holiday.2019-cmp.mkv"
  /\ default_output "clip" = "clip-cmp".
Proof. repeat split. Qed.

End CommandLine.

Section CommandLineExample.

Lemma main_default_command_example :
  nonempty "movie.mp4" = true
  /\ spawns (trace (snd (main movie_world (default_args (Some "movie.mp4"))
                           (initial [] []))))
     = [["ffmpeg"; "-version"];
        ["ffprobe"; "-v"; "error"; "-show_entries"; "format=duration";
         "-of"; "default=noprint_wrappers=1:nokey=1"; "movie.mp4"];
        ["ffmpeg"; "-i"; "movie.mp4"; "-vcodec"; "libx265"; "-crf"; "28";
         "-preset"; "medium"; "-y"; "movie-cmp.mp4"]].
Proof.
  split; [reflexivity|].
  destruct (main_default_command movie_world "movie.mp4" (initial [] [])
              eq_refl)
    as (o & st' & evs & Hm & Ht & _ & Hs).
  rewrite Hm. cbn [snd]. rewrite Ht. cbn [initial trace app].
  apply Hs; [reflexivity|reflexivity|].
  intros e. vm_compute. discriminate.
Defined.

End CommandLineExample.

(** ** The end of the stream *)

Section EndOfStream.

(** C3: the loop does not read the stream to its end when the encoder
    exits early.  In [movie_world] the encoder writes two progress lines;
    when it has exited before the first read, the loop reads and scans
    the first line, polls, sees the exit and stops: the second line stays
    in the pipe and its percentage is never printed.  When the encoder is
    still running at each poll, both lines are read. *)
Theorem monitor_leaves_buffered_lines :
  let early :=
    compress_video movie_world "movie.mp4" "movie-cmp.mp4" 28 "medium"
      (initial [] []) in
  let late :=
    compress_video movie_world "movie.mp4" "movie-cmp.mp4" 28 "medium"
      (initial [1; 0; 1; 0; 1; 1]%nat []) in
  fst early = Done (Ok tt)
  /\ lines_read (trace (snd early)) = firstn 1 progress_lines
  /\ percentages (trace (snd early)) = [50%float]
  /\ pending (proc (snd early)) = skipn 1 progress_lines
  /\ stage (proc (snd early)) = Exited
  /\ fst late = Done (Ok tt)
  /\ lines_read (trace (snd late)) = progress_lines
  /\ percentages (trace (snd late)) = [50%float; 125%float]
  /\ pending (proc (snd late)) = [].
Proof. vm_compute. repeat split. Qed.

(** An empty read while the child is alive is not the end of the stream:
    the loop polls and reads again. *)
Lemma monitor_empty_read_alive (fuel : nat) (d : option float) (st : state)
  (st1 st2 : state) :
  readline st = (Done (Ok EmptyString), st1) ->
  poll st1 = (Done (Ok None), st2) ->
  monitor (S fuel) d st = monitor fuel d st2.
Proof.
  intros Hr Hp. cbn [monitor].
  rewrite (bind_ok _ _ _ _ _ Hr). cbn [nonempty String.eqb negb].
  now rewrite (bind_ok _ _ _ _ _ Hp).
Qed.

(** An empty read when the child has exited ends the loop. *)
Lemma monitor_empty_read_exited (fuel : nat) (d : option float) (st : state)
  (st1 st2 : state) (code : Z) :
  readline st = (Done (Ok EmptyString), st1) ->
  poll st1 = (Done (Ok (Some code)), st2) ->
  monitor (S fuel) d st = (Done (Ok tt), st2).
Proof.
  intros Hr Hp. cbn [monitor].
  rewrite (bind_ok _ _ _ _ _ Hr). cbn [nonempty String.eqb negb].
  now rewrite (bind_ok _ _ _ _ _ Hp).
Qed.

End EndOfStream.

(** ** Interactive mode *)

Section Interactive.

Lemma int_raises (s : string) (e : exn) :
  PyNum.int s = Raise e -> is_ValueError e = true.
Proof.
  unfold PyNum.int. destruct (PyNum.digits_us _ _ _); [discriminate|].
  intros [= <-]. reflexivity.
Qed.

(** A CRF answer that is no integer, or an integer outside 0..51, is
    replaced with 28 after a warning. *)
Lemma read_crf_fallback (crf_input : string) (st : state) :
  (forall n, PyNum.int crf_input = Ok n -> n < 0 \/ 51 < n) ->
  read_crf crf_input st
  = (Done (Ok 28),
     mkState
       (trace st
          ++ [Printed "warning"
                (Text "Invalid CRF value. Using default (28).")])
       (sched st) (stdin st) (proc st)).
Proof.
  intros H. unfold read_crf, try_except, bind, lift, print_message, emit,
    ret, raise.
  destruct (PyNum.int crf_input) as [n|e] eqn:E.
  - destruct (H n eq_refl) as [Hn|Hn].
    + replace (0 <=? n) with false by (symmetry; apply Z.leb_gt; lia).
      reflexivity.
    + replace (n <=? 51) with false by (symmetry; apply Z.leb_gt; lia).
      rewrite andb_false_r. reflexivity.
  - rewrite (int_raises _ _ E). reflexivity.
Qed.

(** A CRF answer between 0 and 51 is kept. *)
Lemma read_crf_valid (crf_input : string) (n : Z) (st : state) :
  PyNum.int crf_input = Ok n -> 0 <= n <= 51 ->
  read_crf crf_input st = (Done (Ok n), st).
Proof.
  intros E [H0 H1]. unfold read_crf, try_except, bind, lift, ret.
  rewrite E.
  replace (0 <=? n) with true by (symmetry; apply Z.leb_le; lia).
  replace (n <=? 51) with true by (symmetry; apply Z.leb_le; lia).
  reflexivity.
Qed.

(** C8: an empty answer to the question about the quality is not taken
    as a yes.  With the answers [movie.mp4], and then four times the
    return key, the CRF is never asked for and the encoder runs with CRF
    28; the answer [y] leads to the CRF question, where [18] is kept and
    [99] and [high] are replaced with 28 after a warning. *)
Theorem interactive_empty_quality_answer :
  let session (answers : list string) :=
    snd (main movie_world (default_args None)
           (initial [1; 0; 1; 0; 1; 1]%nat answers)) in
  let crf_question :=
    "Enter the desired CRF value (0-51, lower is better quality) [default:28]: " in
  let warning :=
    Printed "warning" (Text "Invalid CRF value. Using default (28).") in
  let encoder (crf : Z) :=
    ffmpeg_command "movie.mp4" "movie-cmp.mp4" crf "fast" in
  (prompts (trace (session ["movie.mp4"; ""; ""; ""; ""]))
   = ["Please enter the path to your input video file: ";
      "Do you want to use the default output location? (Y/n): ";
      "Do you want to change the output format? (Y/n): ";
      "Do you want to adjust the compression quality? (Y/n): ";
      "Do you want to adjust the compression speed? (Y/n): "]
   /\ existsb (String.eqb crf_question)
        (prompts (trace (session ["movie.mp4"; ""; ""; ""; ""]))) = false
   /\ last (spawns (trace (session ["movie.mp4"; ""; ""; ""; ""]))) []
      = encoder 28)
  /\ (existsb (String.eqb crf_question)
        (prompts (trace (session ["movie.mp4"; ""; ""; "y"; "18"; ""]))) = true
      /\ last (spawns (trace (session ["movie.mp4"; ""; ""; "y"; "18"; ""]))) []
         = encoder 18)
  /\ (In warning (trace (session ["movie.mp4"; ""; ""; "Y"; "99"; ""]))
      /\ last (spawns (trace (session ["movie.mp4"; ""; ""; "Y"; "99"; ""]))) []
         = encoder 28)
  /\ (In warning (trace (session ["movie.mp4"; ""; ""; "yes"; "high"; ""]))
      /\ last (spawns (trace (session ["movie.mp4"; ""; ""; "yes"; "high"; ""]))) []
         = encoder 28).
Proof.
  vm_compute. repeat split; tauto.
Qed.

End Interactive.

(** ** The pattern and the time parser *)

Section PatternParser.
Import PyStr PyNum.

Lemma span_digits_digits (s : string) :
  all_chars isdigit (fst (span_digits s)) = true.
Proof.
  induction s as [|c s IH]; cbn; [reflexivity|].
  destruct (isdigit c) eqn:E; cbn; [now rewrite E|reflexivity].
Qed.

Lemma digits1_numeral (s d r : string) :
  Pattern.digits1 s = Some (d, r) -> numeral d = true.
Proof.
  unfold Pattern.digits1. pose proof (span_digits_digits s) as H.
  destruct (span_digits s) as [ds rest]. cbn [fst] in H.
  destruct ds as [|c ds]; [discriminate|].
  intros [= <- <-]. unfold numeral. now rewrite H.
Qed.

(** What the pattern captures is a well-formed timestamp. *)
Lemma match_at_well_formed (line ts : string) :
  Pattern.match_at line = Some ts ->
  exists h m s f,
    numeral h = true /\ numeral m = true /\ numeral s = true
    /\ numeral f = true
    /\ ts = h ++ ":" ++ m ++ ":" ++ s ++ "." ++ f.
Proof.
  unfold Pattern.match_at.
  destruct (Pattern.lits "time=" line) as [s0|]; [|discriminate].
  destruct (Pattern.digits1 s0) as [[h s1]|] eqn:Eh; [|discriminate].
  destruct (Pattern.lit ":" s1) as [s2|]; [|discriminate].
  destruct (Pattern.digits1 s2) as [[m s3]|] eqn:Em; [|discriminate].
  destruct (Pattern.lit ":" s3) as [s4|]; [|discriminate].
  destruct (Pattern.digits1 s4) as [[s s5]|] eqn:Es; [|discriminate].
  destruct (Pattern.lit "." s5) as [s6|]; [|discriminate].
  destruct (Pattern.digits1 s6) as [[f s7]|] eqn:Ef; [|discriminate].
  intros [= <-]. exists h, m, s, f.
  repeat split; eauto using digits1_numeral.
Qed.

Lemma search_well_formed (line ts : string) :
  Pattern.search line = Some ts ->
  exists h m s f,
    numeral h = true /\ numeral m = true /\ numeral s = true
    /\ numeral f = true
    /\ ts = h ++ ":" ++ m ++ ":" ++ s ++ "." ++ f.
Proof.
  induction line as [|c line IH]; cbn [Pattern.search].
  - destruct (Pattern.match_at "") eqn:E; [|discriminate].
    intros [= <-]. now apply (match_at_well_formed "").
  - destruct (Pattern.match_at (String c line)) eqn:E.
    + intros [= <-]. now apply (match_at_well_formed (String c line)).
    + exact IH.
Qed.

(** The only exception a line of the stream can make the loop raise is
    the [OverflowError] of a timestamp beyond the range of the doubles. *)
Lemma scan_result_overflow (line : string) (e : exn) :
  scan_result line = Raise e -> e = OverflowError.
Proof.
  unfold scan_result.
  destruct (Pattern.search line) as [ts|] eqn:Es; [|discriminate].
  destruct (search_well_formed _ _ Es) as (h & m & s & f & Hh & Hm & Hs & Hf & ->).
  rewrite (time_str_to_seconds_numerals h m s f Hh Hm Hs Hf).
  unfold add_int_float, int_to_float.
  destruct (_ <=? _); [|discriminate]. now intros [= <-].
Qed.

End PatternParser.

(** ** Paths *)

Section Paths.
Import PyStr PyPath.

Lemma substring_split (n : nat) (s : string) :
  (n <= String.length s)%nat ->
  String.substring 0 n s ++ String.substring n (String.length s - n) s = s.
Proof.
  revert s. induction n as [|n IH]; intros s Hn.
  - cbn. rewrite Nat.sub_0_r.
    clear Hn. induction s as [|c s IHs]; cbn; [reflexivity|].
    destruct s; cbn in *; [reflexivity|]. now f_equal.
  - destruct s as [|c s]; cbn in *; [lia|].
    f_equal. apply IH. lia.
Qed.

Lemma rfind_from_bound (c : ascii) (s : string) (i acc : Z) :
  acc < i -> -1 <= acc ->
  -1 <= rfind_from c s i acc < i + Z.of_nat (String.length s).
Proof.
  revert i acc. induction s as [|d s IH]; intros i acc H1 H2; cbn [rfind_from String.length].
  - lia.
  - destruct (Ascii.eqb d c).
    + specialize (IH (i + 1) i). lia.
    + specialize (IH (i + 1) acc). lia.
Qed.

Lemma splitext_app (p : string) :
  fst (splitext p) ++ snd (splitext p) = p.
Proof.
  unfold splitext.
  assert (E : p ++ "" = p).
  { induction p as [|c p IH]; cbn; [easy|now rewrite IH]. }
  destruct (rfind "/" p <? rfind "." p) eqn:Hlt; [|exact E].
  destruct (skip_dots _ _ _ _); [|exact E].
  cbn [fst snd]. unfold take, drop.
  apply Z.ltb_lt in Hlt.
  pose proof (rfind_from_bound "." p 0 (-1) ltac:(lia) ltac:(lia)) as Hb.
  pose proof (rfind_from_bound "/" p 0 (-1) ltac:(lia) ltac:(lia)) as Hb'.
  fold (rfind "." p) in Hb. fold (rfind "/" p) in Hb'.
  apply substring_split. lia.
Qed.

(** The default output path puts [-cmp] between the two parts of the input
    path. *)
Lemma default_output_parts (input_file : string) :
  exists base_name ext,
    input_file = base_name ++ ext
    /\ default_output input_file = base_name ++ "-cmp" ++ ext.
Proof.
  exists (fst (splitext input_file)), (snd (splitext input_file)).
  split; [symmetry; apply splitext_app|].
  unfold default_output. now destruct (splitext input_file).
Qed.

End Paths.

(** ** Rounding *)

Section Rounding.
Import PyNum.

(** [round_ratio] agrees with the division of the processor, which rounds
    to nearest, and with hexadecimal literals of the nearest doubles. *)
Lemma round_ratio_examples :
  round_ratio 1 3 = PrimFloat.div 1%float 3%float
  /\ round_ratio 2 3 = PrimFloat.div 2%float 3%float
  /\ round_ratio 1 10 = 0x1.999999999999ap-4%float
  /\ round_ratio 350 100 = 3.5%float
  /\ round_ratio 9007199254740993 1 = 9007199254740992%float
  /\ round_ratio 9007199254740995 1 = 9007199254740996%float
  /\ round_ratio 1 (10 ^ 400) = 0%float
  /\ round_ratio (10 ^ 400) 1 = PrimFloat.infinity.
Proof. repeat split. Qed.

Lemma float_examples :
  float ("120.000000" ++ newline) = Ok 120%float
  /\ float "3.50" = Ok 3.5%float
  /\ float " 1_0.5e1 " = Ok 105%float
  /\ float "-inf" = Ok PrimFloat.neg_infinity
  /\ float "N/A" = Raise (ValueError_float "N/A")
  /\ float "" = Raise (ValueError_float "").
Proof. repeat split. Qed.

Lemma int_examples :
  int " 28 " = Ok 28
  /\ int "-1" = Ok (-1)
  /\ int "1_000" = Ok 1000
  /\ int "" = Raise (ValueError_int "")
  /\ int "2.5" = Raise (ValueError_int "2.5")
  /\ int "high" = Raise (ValueError_int "high").
Proof. repeat split. Qed.

(** An integer beyond the doubles cannot be added to a float. *)
Lemma time_str_to_seconds_overflow :
  time_str_to_seconds (PyStr.of_int (10 ^ 310) ++ ":00:00.00")
  = Raise OverflowError.
Proof. vm_compute. reflexivity. Qed.

End Rounding.

(** ** A request for a missing file *)

Section MissingFile.

(** In non-interactive mode a missing input file ends [main] with status 1
    after the preflight check alone: neither the prober nor the encoder is
    spawned. *)
Lemma main_missing_input (w : world) (input_file : string) (st : state) :
  fst (check_ffmpeg w st) = Done (Ok true) ->
  nonempty input_file = true ->
  isfile w input_file = false ->
  main w (default_args (Some input_file)) st
  = (Done (Raise (SystemExit 1)),
     mkState
       (trace st
          ++ [Spawn ffmpeg_check_command;
              Printed "error"
                (ErrorOccurred
                   (FileNotFoundError
                      ("Input file '" ++ input_file ++ "' does not exist.")))])
       (sched st) (stdin st) (proc st)).
Proof.
  intros Hc Hne Hf.
  rewrite (main_noninteractive w (default_args (Some input_file)) input_file st
             Hc eq_refl eq_refl Hne).
  unfold try_except, compress_video. cbn [trace sched stdin proc].
  rewrite Hf. cbn [negb raise is_Exception].
  unfold print_message, sys_exit, bind, emit, raise.
  cbn [trace sched stdin proc]. now rewrite <- app_assoc.
Qed.

End MissingFile.

(** ** An encoder that exits early *)

Section EarlyExit.

(** When the encoder has run to its end before the first read, the loop
    reads one line and stops, however many lines are pending. *)
Lemma monitor_stops_after_one_line (d : option float) (st : state)
  (l : string) (rest : list string) :
  child_wf (proc st) ->
  sched st = [] ->
  pending (proc st) = l :: rest ->
  scan_result l = Ok tt ->
  exists st' evs,
    monitor_loop d st = (Done (Ok tt), st')
    /\ trace st' = (trace st ++ evs)%list
    /\ lines_read evs = [l]
    /\ pending (proc st') = rest
    /\ stage (proc st') = Exited.
Proof.
  intros [_ Hpipe] Hs Hp Hscan.
  destruct st as [tr sc si pr]. cbn [sched proc trace] in *. subst sc.
  assert (Hl : nonempty l = true).
  { assert (H : forallb nonempty (pending pr) = true)
      by (unfold pending; now rewrite forallb_app, Hpipe, filter_nonempty_all).
    rewrite Hp in H. cbn in H. now apply andb_true_iff in H. }
  destruct pr as [ws pp sg rc]. unfold pending in Hp. cbn [pipe to_write] in *.
  unfold monitor_loop. cbn [sched List.length monitor].
  assert (Hread : readline (mkState tr [] si (mkChild ws pp sg rc))
                  = (Done (Ok l),
                     mkState (tr ++ [ReadLine l]) [] si
                             (mkChild [] rest Exited rc))).
  { unfold readline, take_line, tick, get_proc, set_proc, emit, ret, bind,
      child_finish.
    cbn [sched trace stdin proc pipe to_write stage returncode].
    rewrite Hp. reflexivity. }
  rewrite (bind_ok _ _ _ _ _ Hread). rewrite Hl. cbn [negb].
  unfold bind at 1. rewrite scan_line_run, Hscan.
  unfold poll, tick, get_proc, emit, ret, bind, child_finish.
  cbn [trace sched stdin proc stage returncode pipe to_write filter].
  eexists _, _. split; [reflexivity|]. cbn [trace proc stage].
  split; [rewrite <- !app_assoc; reflexivity|].
  split; [|split; [|reflexivity]].
  - rewrite !lines_read_app, lines_read_progress. cbn. now rewrite Hl.
  - unfold pending. cbn. now rewrite !app_nil_r.
Qed.

(** A run without the encoder on the search path. *)
Lemma main_no_ffmpeg_example :
  main no_ffmpeg_world (default_args (Some "movie.mp4")) (initial [] [])
  = (Done (Raise (SystemExit 1)),
     mkState
       [Spawn ffmpeg_check_command;
        Printed "error" (Text "FFmpeg is not installed or not found in PATH.")]
       [] [] (mkChild [] [] Running 0)).
Proof. reflexivity. Qed.

End EarlyExit.

(** ** Runs that always end *)

Section Runs.

Context {A B : Type}.
Variable P : event -> Prop.

Lemma runs_ret (a : A) (Q : A -> Prop) : Q a -> runs (ret a) P Q.
Proof.
  intros Ha st. exists (Ok a), st, []. split; [reflexivity|].
  split; [now rewrite app_nil_r|]. split; [constructor|].
  now intros a' [= <-].
Qed.

Lemma runs_raise (e : exn) (Q : A -> Prop) : runs (raise e) P Q.
Proof.
  intros st. exists (Raise e), st, []. split; [reflexivity|].
  split; [now rewrite app_nil_r|]. split; [constructor|discriminate].
Qed.

Lemma runs_lift (r : result A) (Q : A -> Prop) :
  (forall a, r = Ok a -> Q a) -> runs (lift r) P Q.
Proof.
  intros Hr st. exists r, st, []. split; [reflexivity|].
  split; [now rewrite app_nil_r|]. split; [constructor|exact Hr].
Qed.

Lemma runs_bind (c : M A) (k : A -> M B) (Q : A -> Prop) (R : B -> Prop) :
  runs c P Q -> (forall a, Q a -> runs (k a) P R) -> runs (bind c k) P R.
Proof.
  intros Hc Hk st. destruct (Hc st) as (r & st1 & evs1 & Hrun & Ht & Hp & Hq).
  unfold bind. rewrite Hrun. destruct r as [a|e].
  - destruct (Hk a (Hq a eq_refl) st1) as (r2 & st2 & evs2 & Hrun2 & Ht2 & Hp2 & Hq2).
    exists r2, st2, (evs1 ++ evs2)%list. split; [exact Hrun2|].
    split; [now rewrite Ht2, Ht, app_assoc|].
    split; [now apply Forall_app|exact Hq2].
  - exists (Raise e), st1, evs1. repeat split; trivial; discriminate.
Qed.

Lemma runs_weaken (c : M A) (Q Q' : A -> Prop) :
  runs c P Q -> (forall a, Q a -> Q' a) -> runs c P Q'.
Proof.
  intros Hc Hq st. destruct (Hc st) as (r & st1 & evs1 & Hrun & Ht & Hp & Hq1).
  exists r, st1, evs1. repeat split; trivial. intros a Ha. now apply Hq, Hq1.
Qed.

Lemma runs_try_except (c : M A) (catches : exn -> bool) (h : exn -> M A)
  (Q : A -> Prop) :
  runs c P Q -> (forall e, runs (h e) P Q) -> runs (try_except c catches h) P Q.
Proof.
  intros Hc Hh st. destruct (Hc st) as (r & st1 & evs1 & Hrun & Ht & Hp & Hq).
  unfold try_except. rewrite Hrun. destruct r as [a|e].
  - exists (Ok a), st1, evs1. repeat split; trivial.
  - destruct (catches e).
    + destruct (Hh e st1) as (r2 & st2 & evs2 & Hrun2 & Ht2 & Hp2 & Hq2).
      exists r2, st2, (evs1 ++ evs2)%list. split; [exact Hrun2|].
      split; [now rewrite Ht2, Ht, app_assoc|].
      split; [now apply Forall_app|exact Hq2].
    + exists (Raise e), st1, evs1. repeat split; trivial; discriminate.
Qed.

End Runs.

Section RunsSteps.

Variable P : event -> Prop.

Lemma runs_quiet {A} (c : M A) (Q : A -> Prop) :
  (forall st, exists a st',
      c st = (Done (Ok a), st') /\ trace st' = trace st /\ Q a) ->
  runs c P Q.
Proof.
  intros H st. destruct (H st) as (a & st' & Hrun & Ht & Hq).
  exists (Ok a), st', []. split; [exact Hrun|].
  split; [now rewrite app_nil_r|]. split; [constructor|].
  now intros a' [= <-].
Qed.

Lemma runs_emit (e : event) : P e -> runs (emit e) P (fun _ => True).
Proof.
  intros He st. eexists (Ok tt), _, [e]. split; [reflexivity|].
  split; [reflexivity|]. split; [now constructor|trivial].
Qed.

Lemma runs_print_message (m : message) (status : string) :
  P (Printed status m) -> runs (print_message m status) P (fun _ => True).
Proof. apply runs_emit. Qed.

Lemma runs_input (prompt : string) :
  P (Prompted prompt) -> runs (input prompt) P (fun _ => True).
Proof.
  intros Hp st. unfold input, bind, emit. cbn [trace sched stdin proc].
  destruct (stdin st) as [|l r].
  - eexists (Raise EOFError), _, [Prompted prompt]. split; [reflexivity|].
    split; [reflexivity|]. split; [now constructor|discriminate].
  - eexists (Ok l), _, [Prompted prompt]. split; [reflexivity|].
    split; [reflexivity|]. split; [now constructor|trivial].
Qed.

End RunsSteps.

(** ** The events of the loop *)

Section LoopEvents.

Variable P : event -> Prop.
Hypothesis P_read : forall l, P (ReadLine l).
Hypothesis P_poll : forall r, P (Polled r).
Hypothesis P_progress : forall p, P (progress_event p).

Lemma readline_total (st : state) :
  exists l c',
    readline st
    = (Done (Ok l),
       mkState (trace st ++ [ReadLine l]) (tl (sched st)) (stdin st) c').
Proof.
  unfold readline.
  destruct (tick_run st) as (c0 & Ht & _).
  rewrite (bind_ok _ _ _ _ _ Ht).
  unfold take_line, bind, get_proc, set_proc, emit, ret.
  cbn [trace sched stdin proc].
  destruct (pipe c0) as [|l r].
  - destruct (stage c0); eexists _, _; reflexivity.
  - eexists _, _; reflexivity.
Qed.

Lemma monitor_events (fuel : nat) (d : option float) (st : state) :
  (List.length (sched st) < fuel)%nat ->
  exists r st' evs,
    monitor fuel d st = (Done r, st')
    /\ trace st' = (trace st ++ evs)%list
    /\ Forall P evs.
Proof.
  revert st. induction fuel as [|fuel IH]; intros st Hlt; [lia|].
  cbn [monitor].
  destruct (readline_total st) as (l & c1 & Hr).
  rewrite (bind_ok _ _ _ _ _ Hr).
  assert (Hend : forall evs2,
             Forall P evs2 ->
             exists r st' evs,
               (status <- poll ;;
                match status with
                | Some _ => ret tt
                | None => monitor fuel d
                end) (mkState (trace st ++ evs2) (tl (sched st)) (stdin st) c1)
               = (Done r, st')
               /\ trace st' = (trace st ++ evs)%list
               /\ Forall P evs).
  { intros evs2 He2.
    set (st2 := mkState (trace st ++ evs2) (tl (sched st)) (stdin st) c1).
    destruct (poll_stream st2) as (r & c2 & Hp & _ & _ & _ & Hnil & _).
    rewrite (bind_ok _ _ _ _ _ Hp). cbn [proc sched trace stdin st2] in *.
    destruct r as [x|].
    - eexists (Ok tt), _, (evs2 ++ [Polled (Some x)])%list.
      split; [reflexivity|]. cbn [trace].
      split; [now rewrite app_assoc|].
      apply Forall_app. split; [exact He2|]. constructor; [apply P_poll|constructor].
    - assert (Hne : tl (sched st) <> [])
        by (intros E; specialize (Hnil E); discriminate).
      set (st3 := mkState ((trace st ++ evs2) ++ [Polled None])
                          (tl (tl (sched st))) (stdin st) c2).
      destruct (IH st3) as (r & st' & evs & Hm & Ht & He).
      { cbn. destruct (sched st) as [|a [|b l']]; cbn in *; try congruence. lia. }
      exists r, st', (evs2 ++ [Polled None] ++ evs)%list.
      split; [exact Hm|]. cbn [trace st3] in Ht.
      split; [rewrite Ht; now rewrite <- !app_assoc|].
      apply Forall_app. split; [exact He2|].
      constructor; [apply P_poll|exact He]. }
  destruct (nonempty l) eqn:El; cbn [negb].
  - set (st1 := mkState _ _ _ _).
    pose proof (scan_line_run d l st1) as Hs.
    assert (Hprog : Forall P (map progress_event (progress_of_line d l))).
    { apply Forall_forall. intros e He. apply in_map_iff in He.
      destruct He as (p & <- & _). apply P_progress. }
    destruct (scan_result l) as [[]|e] eqn:Esr.
    + rewrite (bind_ok _ _ _ _ _ Hs).
      cbn [trace sched stdin proc st1]. rewrite <- app_assoc.
      apply Hend. constructor; [apply P_read|exact Hprog].
    + rewrite (bind_raise _ _ _ _ _ Hs).
      eexists _, _, ([ReadLine l] ++ map progress_event (progress_of_line d l))%list.
      split; [reflexivity|]. cbn [trace st1].
      split; [now rewrite <- app_assoc|].
      constructor; [apply P_read|exact Hprog].
  - apply Hend. constructor; [apply P_read|constructor].
Qed.

Lemma runs_monitor_loop (d : option float) :
  runs (monitor_loop d) P (fun _ => True).
Proof.
  intros st. unfold monitor_loop.
  destruct (monitor_events (S (List.length (sched st))) d st) as (r & st' & evs & H & Ht & He);
    [lia|].
  exists r, st', evs. repeat split; trivial.
Qed.

End LoopEvents.

(** ** What a run may do *)

Section Allowed.

Variable w : world.
Variable ok : Z -> string -> Prop.

Let P := event_ok w ok.

Lemma event_ok_printed (status : string) (m : message) :
  In status STATUSES -> P (Printed status m).
Proof. intros H. exact H. Qed.

Lemma runs_get_video_duration (input_file : string) :
  isfile w input_file = true ->
  runs (get_video_duration w input_file) P (fun _ => True).
Proof.
  intros Hf st. rewrite get_video_duration_run.
  eexists _, _, _. split; [reflexivity|]. cbn [trace].
  split; [reflexivity|]. split; [|trivial].
  constructor.
  - exists input_file. split; [exact Hf|now left].
  - destruct (probe_outcome_events w input_file) as [->|[e ->]];
      constructor; [|constructor].
    cbn. tauto.
Qed.

Lemma runs_run_encoder (input_file output_file : string) (crf : Z)
  (preset : string) (d : option float) :
  isfile w input_file = true -> ok crf preset ->
  runs (run_encoder w (ffmpeg_command input_file output_file crf preset) d)
       P (fun _ => True).
Proof.
  intros Hf Hok. unfold run_encoder.
  eapply runs_bind with (Q := fun _ => True).
  - unfold Popen. eapply runs_bind with (Q := fun _ => True).
    + apply runs_emit. exists input_file. split; [exact Hf|]. right.
      now exists output_file, crf, preset.
    + intros _ _. destruct (popen w _) as [lines rc|e]; [|apply runs_raise].
      apply runs_quiet. intros st. now eexists tt, _.
  - intros _ _. eapply runs_bind with (Q := fun _ => True).
    + apply runs_monitor_loop; intros; exact I || (cbn; tauto).
    + intros _ _. eapply runs_bind with (Q := fun _ => True).
      * unfold wait. eapply runs_bind with (Q := fun _ => True).
        -- apply runs_quiet with (Q := fun _ => True). intros st.
           now exists (proc st), st.
        -- intros c _. eapply runs_bind with (Q := fun _ => True).
           ++ apply runs_quiet with (Q := fun _ => True). intros st.
              now eexists tt, _.
           ++ intros _ _. eapply runs_bind with (Q := fun _ => True); [apply runs_emit; exact I|].
              intros _ _. apply runs_ret. exact I.
      * intros rc _. destruct (negb (rc =? 0)); [apply runs_raise|now apply runs_ret].
Qed.

Lemma runs_compress_video (input_file output_file : string) (crf : Z)
  (preset : string) :
  ok crf preset ->
  runs (compress_video w input_file output_file crf preset) P (fun _ => True).
Proof.
  intros Hok. unfold compress_video.
  destruct (isfile w input_file) eqn:Hf; cbn [negb]; [|apply runs_raise].
  eapply runs_bind with (Q := fun _ => True); [now apply runs_get_video_duration|].
  intros d _. eapply runs_bind with (Q := fun _ => True); [apply runs_print_message; cbn; tauto|].
  intros _ _. eapply runs_bind with (Q := fun _ => True).
  - apply runs_try_except; [now apply runs_run_encoder|].
    intros e. apply runs_raise.
  - intros _ _. apply runs_print_message. cbn. tauto.
Qed.

End Allowed.

(** ** What interactive mode and [main] may do *)

Section AllowedSessions.

Variable w : world.

Lemma mem_In (x : string) (xs : list string) :
  PyStr.mem x xs = true -> In x xs.
Proof.
  unfold PyStr.mem. intros H. apply existsb_exists in H.
  destruct H as (y & Hin & Heq). apply String.eqb_eq in Heq. now subst.
Qed.

Lemma event_ok_weaken (ok ok' : Z -> string -> Prop) (e : event) :
  (forall crf preset, ok crf preset -> ok' crf preset) ->
  event_ok w ok e -> event_ok w ok' e.
Proof.
  intros Himp. destruct e; cbn; trivial.
  intros (input_file & Hf & [->|(o & c & p & Hok & ->)]);
    exists input_file; (split; [exact Hf|]); [now left|right].
  exists o, c, p. split; [now apply Himp|reflexivity].
Qed.

Lemma runs_events {A} (c : M A) (P P' : event -> Prop) (Q : A -> Prop) :
  (forall e, P e -> P' e) -> runs c P Q -> runs c P' Q.
Proof.
  intros Himp Hc st. destruct (Hc st) as (r & st' & evs & Hrun & Ht & Hp & Hq).
  exists r, st', evs. repeat split; trivial.
  eapply Forall_impl; [exact Himp|exact Hp].
Qed.

(** The loop that asks for the input file ends when the answers are used
    up at the latest, and what it returns is an existing file. *)
Lemma ask_input_file_ends (P : event -> Prop) (fuel : nat)
  (input_file : string) (st : state) :
  (forall p, P (Prompted p)) ->
  (forall m, P (Printed "error" m)) ->
  (List.length (stdin st) < fuel)%nat ->
  exists r st' evs,
    ask_input_file w fuel input_file st = (Done r, st')
    /\ trace st' = (trace st ++ evs)%list
    /\ Forall P evs
    /\ (forall f, r = Ok f -> isfile w f = true)
    /\ (forall e, r = Raise e -> e = EOFError /\ stdin st' = []).
Proof.
  intros Hprompt Herror. revert input_file st.
  induction fuel as [|fuel IH]; intros input_file st Hlt; [lia|].
  cbn [ask_input_file]. destruct (isfile w input_file) eqn:Hf.
  - exists (Ok input_file), st, []. split; [reflexivity|].
    split; [now rewrite app_nil_r|]. split; [constructor|].
    split; [now intros f [= <-]|discriminate].
  - unfold print_message, input, bind, emit.
    cbn [trace sched stdin proc].
    destruct (stdin st) as [|l r] eqn:Hin.
    + eexists (Raise EOFError), _, _. split; [reflexivity|]. cbn [trace stdin].
      split; [rewrite <- app_assoc; reflexivity|].
      split; [repeat constructor; [apply Herror|apply Hprompt]|].
      split; [discriminate|]. intros e [= <-]. now split.
    + set (st1 := mkState _ _ r _).
      destruct (IH (PyStr.strip l) st1) as (r' & st' & evs & Hrun & Ht & Hp & Hq & He).
      { cbn in *. lia. }
      exists r', st', ([Printed "error"
                          (Text "File not found. Please enter a valid file path.");
                        Prompted "Please enter the path to your input video file: "]
                         ++ evs)%list.
      split; [exact Hrun|]. cbn [trace st1] in Ht.
      split; [rewrite Ht; now rewrite <- !app_assoc|].
      split; [|split; assumption].
      constructor; [apply Herror|]. constructor; [apply Hprompt|exact Hp].
Qed.

Lemma runs_read_crf (P : event -> Prop) (crf_input : string) :
  (forall m, P (Printed "warning" m)) ->
  runs (read_crf crf_input) P (fun crf => 0 <= crf <= 51).
Proof.
  intros Hwarn. unfold read_crf. apply runs_try_except.
  - eapply runs_bind with (Q := fun _ => True).
    + apply runs_lift. trivial.
    + intros crf _.
      destruct ((0 <=? crf) && (crf <=? 51)) eqn:E; cbn [negb];
        [|apply runs_raise].
      apply runs_ret. apply andb_true_iff in E. destruct E as [E1 E2].
      apply Z.leb_le in E1. apply Z.leb_le in E2. lia.
  - intros e. eapply runs_bind with (Q := fun _ => True).
    + apply runs_print_message, Hwarn.
    + intros _ _. apply runs_ret. lia.
Qed.

Let P := event_ok w interactive_settings.

Lemma P_printed (status : string) (m : message) :
  In status STATUSES -> P (Printed status m).
Proof. intros H. exact H. Qed.

Lemma runs_interactive_mode :
  runs (interactive_mode w) P (fun _ => True).
Proof.
  unfold interactive_mode.
  eapply runs_bind with (Q := fun _ => True);
    [apply runs_print_message; cbn; tauto|].
  intros _ _. eapply runs_bind with (Q := fun _ => True);
    [apply runs_input; exact I|].
  intros l _. eapply runs_bind with (Q := fun f => isfile w f = true).
  { intros st.
    destruct (ask_input_file_ends P (S (List.length (stdin st))) (PyStr.strip l) st)
      as (r & st' & evs & Hrun & Ht & Hp & Hq & _);
      [intros; exact I|intros; cbn; tauto|lia|].
    now exists r, st', evs. }
  intros input_file Hf.
  eapply runs_bind with (Q := fun _ => True); [apply runs_input; exact I|].
  intros a1 _. eapply runs_bind with (Q := fun _ => True).
  { destruct (PyStr.mem _ _); [now apply runs_ret|].
    eapply runs_bind with (Q := fun _ => True); [apply runs_input; exact I|].
    intros o _. now apply runs_ret. }
  intros output_file _.
  eapply runs_bind with (Q := fun _ => True); [apply runs_input; exact I|].
  intros a2 _. eapply runs_bind with (Q := fun _ => True).
  { destruct (PyStr.mem _ _); [|now apply runs_ret].
    eapply runs_bind with (Q := fun _ => True); [apply runs_input; exact I|].
    intros e _. now apply runs_ret. }
  intros output_file' _.
  eapply runs_bind with (Q := fun _ => True); [apply runs_input; exact I|].
  intros a3 _. eapply runs_bind with (Q := fun crf => 0 <= crf <= 51).
  { destruct (PyStr.mem _ _); [|apply runs_ret; lia].
    eapply runs_bind with (Q := fun _ => True); [apply runs_input; exact I|].
    intros c _. apply runs_read_crf. intros m. cbn. tauto. }
  intros crf Hcrf.
  eapply runs_bind with (Q := fun _ => True); [apply runs_input; exact I|].
  intros a4 _. eapply runs_bind with (Q := fun preset => In preset PRESETS).
  { destruct (PyStr.mem _ _); [|apply runs_ret; cbn; tauto].
    eapply runs_bind with (Q := fun _ => True); [apply runs_emit; exact I|].
    intros _ _.
    eapply runs_bind with (Q := fun _ => True); [apply runs_input; exact I|].
    intros p _. destruct (PyStr.mem (PyStr.strip p) PRESETS) eqn:Hm.
    - apply runs_ret. now apply mem_In.
    - eapply runs_bind with (Q := fun _ => True);
        [apply runs_print_message; cbn; tauto|].
      intros _ _. apply runs_ret. cbn. tauto. }
  intros preset Hpreset.
  eapply runs_bind with (Q := fun _ => True);
    [apply runs_print_message; cbn; tauto|].
  intros _ _. apply runs_try_except.
  - apply runs_compress_video. now split.
  - intros e. eapply runs_bind with (Q := fun _ => True);
      [apply runs_print_message; cbn; tauto|].
    intros _ _. apply runs_raise.
Qed.

Lemma runs_main (args : Namespace) :
  runs (main w args) (main_event_ok w) (fun _ => True).
Proof.
  unfold main.
  eapply runs_bind with (Q := fun _ => True).
  { intros st. rewrite check_ffmpeg_run.
    eexists _, _, [Spawn ffmpeg_check_command]. split; [reflexivity|].
    split; [reflexivity|]. split; [|trivial].
    constructor; [now left|constructor]. }
  intros available _. destruct (negb available).
  { eapply runs_bind with (Q := fun _ => True).
    - apply runs_print_message. right. cbn. tauto.
    - intros _ _. apply runs_raise. }
  destruct (_ || _)%bool.
  { apply runs_events with (P := P); [|apply runs_interactive_mode].
    intros e He. right. eapply event_ok_weaken; [|exact He]. trivial. }
  apply runs_events with (P := event_ok w (fun _ _ => True));
    [intros e He; now right|].
  apply runs_try_except.
  - now apply runs_compress_video.
  - intros e. eapply runs_bind with (Q := fun _ => True);
      [apply runs_print_message; cbn; tauto|].
    intros _ _. apply runs_raise.
Qed.

End AllowedSessions.

(** ** More on the loop, the pattern and the time parser *)

Section MoreOnTheLoop.
Import PyStr.

(** X1: the reading loop ends for every encoder and every interleaving.
    The lines it has read are, in order, the first lines the encoder
    writes, the others are still pending; the percentages it has printed
    are those of the lines it has read, in order; it spawns nothing and
    waits for nothing; and when it ends without an exception the encoder
    has been seen to exit. *)
Theorem monitor_loop_reads_in_order (d : option float) (tr : list event)
  (schedule : list nat) (typed lines : list string) (rc : Z) :
  exists r st' evs,
    monitor_loop d (mkState tr schedule typed (mkChild lines [] Running rc))
    = (Done r, st')
    /\ trace st' = (tr ++ evs)%list
    /\ filter nonempty lines = (lines_read evs ++ pending (proc st'))%list
    /\ percentages evs = flat_map (progress_of_line d) (lines_read evs)
    /\ spawns evs = [] /\ waits evs = []
    /\ (r = Ok tt -> stage (proc st') = Exited).
Proof.
  destruct (monitor_loop_run d
              (mkState tr schedule typed (mkChild lines [] Running rc)))
    as (r & st' & evs & Hm & Ht & _ & _ & _ & Hl & Hq & He & Hx & _).
  { split; [now left|reflexivity]. }
  destruct (monitor_events_quiet d evs He) as (Hs & Hw & _).
  exists r, st', evs. repeat split; trivial. now rewrite Hl.
Qed.



Lemma split_length (sep : ascii) (s : string) :
  List.length (split sep s) = S (count_char sep s).
Proof.
  induction s as [|c s IH]; cbn [split count_char]; [reflexivity|].
  destruct (Ascii.eqb c sep); cbn [List.length].
  - now rewrite IH.
  - destruct (split sep s) as [|h t]; cbn in *; lia.
Qed.

(** X3: [time_str_to_seconds] raises the [ValueError] of the unpacking
    exactly when its argument has not two colons, whatever else it holds;
    with two colons its exceptions are those of [int], [float] and of the
    sum. *)
Theorem time_str_to_seconds_fields (time_str : string) :
  (time_str_to_seconds time_str = Raise ValueError_unpack
   <-> count_char ":" time_str <> 2%nat)
  /\ (count_char ":" time_str = 2%nat ->
      exists h m s,
        split ":" time_str = [h; m; s]
        /\ time_str = h ++ ":" ++ m ++ ":" ++ s).
Proof.
  pose proof (split_length ":" time_str) as Hlen.
  assert (Hjoin : forall s l,
             split ":" s = l ->
             match l with
             | [h; m; x] => s = h ++ ":" ++ m ++ ":" ++ x
             | _ => True
             end).
  { assert (Hcat : forall s, String.concat ":" (split ":" s) = s).
    { induction s as [|c s IH]; [reflexivity|]. cbn [split].
      pose proof (split_length ":" s) as H.
      destruct (split ":" s) as [|h t] eqn:E; [discriminate|].
      destruct (Ascii.eqb_spec c ":") as [->|Hn].
      - change (String.concat ":" (EmptyString :: h :: t))
          with (String ":" (String.concat ":" (h :: t))).
        now rewrite IH.
      - destruct t; cbn in *; now rewrite <- IH. }
    intros s l <-. specialize (Hcat s).
    destruct (split ":" s) as [|h [|m [|x [|y l]]]]; trivial.
    cbn in Hcat. now rewrite <- Hcat. }
  split; [split|].
  - intros Hr Hc. rewrite Hc in Hlen. unfold time_str_to_seconds in Hr.
    destruct (split ":" time_str) as [|h [|m [|x [|y l]]]]; try discriminate.
    unfold PyNum.int in Hr.
    destruct (PyNum.digits_us _ _ _); [|discriminate].
    destruct (PyNum.digits_us _ _ _); [|discriminate].
    destruct (PyNum.float x) as [v|e] eqn:Ef.
    + unfold PyNum.add_int_float, PyNum.int_to_float in Hr.
      destruct (_ <=? _); discriminate.
    + unfold PyNum.float in Ef.
      destruct (PyNum.remove_underscores _ _); [|congruence].
      destruct (_ || _)%bool; [discriminate|].
      destruct (String.eqb _ _); [discriminate|].
      destruct (PyNum.parse_decimal _) as [[a b]|]; congruence.
  - intros Hc. unfold time_str_to_seconds.
    destruct (split ":" time_str) as [|h [|m [|x [|y l]]]]; try reflexivity.
    cbn in Hlen. congruence.
  - intros Hc. rewrite Hc in Hlen.
    specialize (Hjoin time_str _ eq_refl).
    destruct (split ":" time_str) as [|h [|m [|x [|y l]]]]; try discriminate.
    now exists h, m, x.
Qed.

End MoreOnTheLoop.

(** ** More on the output path, the probe and the exit status *)

Section MoreOnMain.
Import PyStr.

(** X4: the default output path is never the input path: it is the input
    path with [-cmp] put in before its extension, four characters longer.
    The encoder, which overwrites its output, is not pointed at its own
    input by default. *)
Theorem default_output_new_path (input_file : string) :
  default_output input_file <> input_file
  /\ String.length (default_output input_file)
     = (String.length input_file + 4)%nat
  /\ exists base_name ext,
       input_file = base_name ++ ext
       /\ default_output input_file = base_name ++ "-cmp" ++ ext.
Proof.
  destruct (default_output_parts input_file) as (b & e & Hin & Hout).
  assert (Hlen : String.length (default_output input_file)
                 = (String.length input_file + 4)%nat).
  { rewrite Hout. rewrite Hin at 1. rewrite !length_app. cbn. lia. }
  split; [|split; [exact Hlen|now exists b, e]].
  intros E. rewrite E in Hlen. lia.
Qed.

Lemma app_string_assoc (a b c : string) : (a ++ b) ++ c = a ++ b ++ c.
Proof. induction a as [|x a IH]; cbn [append]; [reflexivity|now rewrite IH]. Qed.

Lemma rstrip_newline (s : string) : rstrip (s ++ newline) = rstrip s.
Proof.
  induction s as [|c s IH]; [reflexivity|].
  cbn [append rstrip]. now rewrite IH.
Qed.

Lemma strip_newline (s : string) : strip (s ++ newline) = strip s.
Proof.
  unfold strip. induction s as [|c s IH]; [reflexivity|].
  cbn [append lstrip]. destruct (isspace c); [exact IH|].
  apply (rstrip_newline (String c s)).
Qed.

Lemma float_same_strip (a b : string) (v : float) :
  strip a = strip b -> PyNum.float a = Ok v -> PyNum.float b = Ok v.
Proof.
  unfold PyNum.float. intros ->.
  destruct (PyNum.remove_underscores _ _); [|discriminate].
  destruct (_ || _)%bool; [trivial|].
  destruct (String.eqb _ _); [trivial|].
  destruct (PyNum.parse_decimal _) as [[m e]|]; [trivial|discriminate].
Qed.

(** X5: the duration probe is never fatal.  Unless the spawn itself raises
    something that is no [Exception], [get_video_duration] spawns the
    prober once and returns: the float its output parses to, whatever the
    return code of the prober, or [None] after one warning.  An output
    [digits.digits] followed by a newline gives the double nearest to that
    decimal number. *)
Theorem get_video_duration_result (w : world) (input_file : string)
  (st : state) :
  (forall e, run w (ffprobe_command input_file) = RunRaised e ->
             is_Exception e = true) ->
  exists d st',
    get_video_duration w input_file st = (Done (Ok d), st')
    /\ sched st' = sched st /\ stdin st' = stdin st /\ proc st' = proc st
    /\ match d with
       | Some v =>
           trace st' = (trace st ++ [Spawn (ffprobe_command input_file)])%list
           /\ exists rc out,
                run w (ffprobe_command input_file) = RunCompleted rc out
                /\ PyNum.float out = Ok v
       | None =>
           exists e,
             trace st'
             = (trace st ++ [Spawn (ffprobe_command input_file);
                             Printed "warning" (DurationWarning e)])%list
       end
    /\ (forall rc s f,
          numeral s = true -> numeral f = true ->
          run w (ffprobe_command input_file)
          = RunCompleted rc (s ++ "." ++ f ++ newline) ->
          d = Some (PyNum.round_ratio (denote (s ++ f))
                      (10 ^ Z.of_nat (String.length f)))).
Proof.
  intros Hexc. rewrite get_video_duration_run. unfold probe_outcome.
  destruct (run w (ffprobe_command input_file)) as [rc out|e] eqn:Hrun.
  - destruct (PyNum.float out) as [v|e] eqn:Hfl; cbn [fst snd].
    + eexists _, _. split; [reflexivity|]. cbn [trace sched stdin proc].
      repeat split; trivial.
      * now exists rc, out.
      * intros rc' s f Hs Hf Heq. injection Heq as _ Hout. subst out. f_equal.
        assert (E : PyNum.float ((s ++ "." ++ f) ++ newline)
                    = Ok (PyNum.round_ratio (denote (s ++ f))
                            (10 ^ Z.of_nat (String.length f)))).
        { apply (float_same_strip (s ++ "." ++ f)).
          - symmetry. apply strip_newline.
          - now apply float_decimal. }
        rewrite !app_string_assoc in E.
        pose proof (eq_trans (eq_sym Hfl) E) as H3. now injection H3.
    + eexists _, _. split; [reflexivity|]. cbn [trace sched stdin proc].
      repeat split; trivial.
      * now exists e.
      * intros rc' s f Hs Hf Heq. injection Heq as _ Hout. subst out. exfalso.
        assert (E : PyNum.float ((s ++ "." ++ f) ++ newline)
                    = Ok (PyNum.round_ratio (denote (s ++ f))
                            (10 ^ Z.of_nat (String.length f)))).
        { apply (float_same_strip (s ++ "." ++ f)).
          - symmetry. apply strip_newline.
          - now apply float_decimal. }
        rewrite !app_string_assoc in E.
        pose proof (eq_trans (eq_sym Hfl) E) as H3. discriminate H3.
  - rewrite (Hexc e eq_refl). cbn [fst snd].
    eexists _, _. split; [reflexivity|]. cbn [trace sched stdin proc].
    repeat split; trivial.
    + now exists e.
    + discriminate.
Qed.

Lemma get_video_duration_result_example :
  (forall e, run movie_world (ffprobe_command "movie.mp4") = RunRaised e ->
             is_Exception e = true)
  /\ fst (get_video_duration movie_world "movie.mp4" (initial [] []))
     = Done (Ok (Some 120%float)).
Proof.
  assert (H : forall e,
             run movie_world (ffprobe_command "movie.mp4") = RunRaised e ->
             is_Exception e = true) by discriminate.
  split; [exact H|].
  destruct (get_video_duration_result movie_world "movie.mp4" (initial [] []) H)
    as (d & st' & Hrun & _ & _ & _ & _ & Hdec).
  rewrite Hrun. cbn [fst]. do 2 f_equal.
  exact (Hdec 0 "120" "000000" eq_refl eq_refl eq_refl).
Defined.

End MoreOnMain.

(** ** The exit status and the prompts *)

Section ExitAndPrompts.

(** X6: in non-interactive mode, once the preflight check has passed,
    [main] returns normally, and the interpreter exits with status 0,
    exactly when the exit code 0 of the encoder has been observed.  Every
    [Exception] of the encode (missing input, encoder that cannot be
    started, out-of-range timestamp, exit code other than 0) is caught: the
    error message for that exception is the last thing printed and [main]
    exits with status 1.  Only what is no [Exception] passes through. *)
Theorem main_exit_status (w : world) (args : Namespace)
  (input_file : string) (st : state) :
  fst (check_ffmpeg w st) = Done (Ok true) ->
  args_interactive args = false ->
  args_input_file args = Some input_file ->
  nonempty input_file = true ->
  exists r st' evs,
    main w args st = (Done r, st')
    /\ trace st' = (trace st ++ evs)%list
    /\ (r = Ok tt <-> In 0 (waits evs))
    /\ ((r = Ok tt /\ exit_status (Done r) = Some 0)
        \/ (r = Raise (SystemExit 1)
            /\ exit_status (Done r) = Some 1
            /\ exists e0 evs0,
                 is_Exception e0 = true
                 /\ evs = (evs0 ++ [Printed "error" (ErrorOccurred e0)])%list)
        \/ (exists e, r = Raise e /\ is_Exception e = false
                       /\ waits evs = []))
    /\ (forall c, In c (waits evs) -> c <> 0 ->
          r = Raise (SystemExit 1)
          /\ exists evs0,
               evs = (evs0 ++ [Printed "error" (ErrorOccurred encode_failure)])%list).
Proof.
  intros Hc Hi Hin Hne.
  rewrite (main_noninteractive w args input_file st Hc Hi Hin Hne).
  set (output_file := if negb (str_truthy (args_output args)) then _ else _).
  set (st1 := mkState _ _ _ _).
  destruct (compress_video_cases w input_file output_file (args_crf args)
              (args_preset args) st1)
    as (r & st2 & evs & Hcv & Ht & _ & Hcases).
  destruct (prelude_quiet w input_file output_file (args_crf args) (args_preset args))
    as (Hpw & _ & _).
  destruct (probe_events_quiet w input_file) as (Hqw & _ & _).
  (* the exit codes waited for *)
  assert (Hw : (r = Ok tt /\ waits evs = [0])
               \/ (r = Raise encode_failure
                   /\ exists c, c <> 0 /\ waits evs = [c])
               \/ ((exists e, r = Raise e) /\ waits evs = [])).
  { destruct Hcases as [(_ & -> & _ & ->)
                       |[(_ & e & _ & -> & ->)
                        |[(_ & d & e & _ & _ & -> & ->)
                         |(_ & d & lines & rc & mevs & _ & _ & He & _ & _
                           & Hout)]]].
    - right; right. split; [eauto|reflexivity].
    - right; right. split; [eauto|]. cbn. exact Hqw.
    - right; right. split; [eauto|exact Hpw].
    - destruct (monitor_events_quiet d mevs He) as (_ & Hmw & _).
      destruct Hout as [(e & l & -> & _ & _ & _ & ->)
                       |[(-> & -> & _ & ->)|(Hrc & -> & _ & ->)]];
        rewrite ?waits_app, Hpw, Hmw; cbn [waits app].
      + right; right. split; [eauto|reflexivity].
      + left. now split.
      + right; left. split; [reflexivity|]. now exists rc. }
  unfold try_except. rewrite Hcv.
  assert (Ht1 : forall l : list event,
             (trace st2 ++ l)%list
             = (trace st ++ Spawn ffmpeg_check_command :: evs ++ l)%list).
  { intros l. rewrite Ht. unfold st1. cbn [trace].
    now rewrite <- !app_assoc. }
  assert (Ht0 : trace st2
                = (trace st ++ Spawn ffmpeg_check_command :: evs)%list).
  { rewrite <- (app_nil_r (trace st2)), Ht1. now rewrite app_nil_r. }
  destruct r as [[]|e].
  - (* the encode returns *)
    exists (Ok tt), st2, (Spawn ffmpeg_check_command :: evs).
    split; [reflexivity|]. split; [exact Ht0|]. cbn [waits].
    assert (Hz : waits evs = [0]).
    { destruct Hw as [[_ H]|[[H _]|[[e H] _]]]; [exact H| |]; discriminate. }
    rewrite Hz. split; [split; [intros _; now left|reflexivity]|].
    split; [left; now split|].
    intros c [<-|[]] Hc0. now elim Hc0.
  - assert (Hno : ~ In 0 (waits evs)).
    { destruct Hw as [[H _]|[[_ (c & Hc0 & Hwc)]|[_ Hnil]]];
        [discriminate| |rewrite Hnil; tauto].
      rewrite Hwc. intros [E|[]]. now elim Hc0. }
    destruct (is_Exception e) eqn:Hexc.
    + (* an exception that is caught *)
      unfold print_message, sys_exit, bind, emit, raise.
      cbn [trace sched stdin proc].
      eexists (Raise (SystemExit 1)), _,
        (Spawn ffmpeg_check_command
           :: evs ++ [Printed "error" (ErrorOccurred e)])%list.
      split; [reflexivity|]. cbn [trace].
      split; [apply Ht1|].
      cbn [waits]. rewrite waits_app. cbn [waits]. rewrite app_nil_r.
      split; [split; [discriminate|tauto]|].
      split.
      * right; left. split; [reflexivity|]. split; [reflexivity|].
        now exists e, (Spawn ffmpeg_check_command :: evs).
      * intros c Hin' Hc0. split; [reflexivity|].
        destruct Hw as [[H _]|[[H _]|[_ Hnil]]];
          [discriminate| |rewrite Hnil in Hin'; now elim Hin'].
        injection H as ->.
        now exists (Spawn ffmpeg_check_command :: evs).
    + (* what is no [Exception] passes through *)
      exists (Raise e), st2, (Spawn ffmpeg_check_command :: evs).
      split; [reflexivity|]. split; [exact Ht0|]. cbn [waits].
      assert (Hnil : waits evs = []).
      { destruct Hw as [[H _]|[[H _]|[_ Hnil]]];
          [discriminate| |exact Hnil].
        injection H as ->. discriminate. }
      rewrite Hnil. cbn [In].
      split; [split; [discriminate|tauto]|].
      split; [right; right; now exists e|].
      intros c [].
Qed.

Lemma main_exit_status_example :
  (fst (check_ffmpeg movie_world (initial [] [])) = Done (Ok true)
   /\ nonempty "movie.mp4" = true)
  /\ exists r st' evs,
       main movie_world (default_args (Some "movie.mp4")) (initial [] [])
       = (Done r, st')
       /\ trace st' = (trace (initial [] []) ++ evs)%list
       /\ (r = Ok tt <-> In 0 (waits evs))
       /\ ((r = Ok tt /\ exit_status (Done r) = Some 0)
           \/ (r = Raise (SystemExit 1)
               /\ exit_status (Done r) = Some 1
               /\ exists e0 evs0,
                    is_Exception e0 = true
                    /\ evs = (evs0 ++ [Printed "error" (ErrorOccurred e0)])%list)
           \/ (exists e, r = Raise e /\ is_Exception e = false
                          /\ waits evs = []))
       /\ (forall c, In c (waits evs) -> c <> 0 ->
             r = Raise (SystemExit 1)
             /\ exists evs0,
                  evs = (evs0 ++ [Printed "error" (ErrorOccurred encode_failure)])%list).
Proof.
  split; [split; reflexivity|].
  exact (main_exit_status movie_world (default_args (Some "movie.mp4"))
           "movie.mp4" (initial [] []) eq_refl eq_refl eq_refl eq_refl).
Defined.

End ExitAndPrompts.

(** ** Interactive mode *)

Section MoreOnInteractive.

(** X7: the loop that asks for the input file returns the first path that
    names an existing file among the first answer and the following ones,
    each with its surrounding white space removed; when none does it ends
    with the [EOFError] of the exhausted input.  It prints an error and a
    prompt for every path it rejects and spawns nothing. *)
Theorem ask_input_file_first_existing (w : world) (first : string)
  (st : state) :
  exists st' evs,
    ask_input_file w (S (List.length (stdin st))) first st
    = (Done (match find (isfile w) (first :: map PyStr.strip (stdin st)) with
             | Some f => Ok f
             | None => Raise EOFError
             end),
       st')
    /\ trace st' = (trace st ++ evs)%list
    /\ spawns evs = []
    /\ Forall (fun e =>
                 e = Printed "error"
                       (Text "File not found. Please enter a valid file path.")
                 \/ e = Prompted "Please enter the path to your input video file: ")
              evs
    /\ (forall f, find (isfile w) (first :: map PyStr.strip (stdin st)) = Some f ->
          isfile w f = true).
Proof.
  assert (H : forall typed fuel first tr sc pr,
             (List.length typed < fuel)%nat ->
             exists st' evs,
               ask_input_file w fuel first (mkState tr sc typed pr)
               = (Done (match find (isfile w) (first :: map PyStr.strip typed) with
                        | Some f => Ok f
                        | None => Raise EOFError
                        end),
                  st')
               /\ trace st' = (tr ++ evs)%list
               /\ spawns evs = []
               /\ Forall (fun e =>
                            e = Printed "error"
                                  (Text "File not found. Please enter a valid file path.")
                            \/ e = Prompted "Please enter the path to your input video file: ")
                         evs).
  { induction typed as [|l typed IH]; intros fuel f0 tr sc pr Hlt;
      (destruct fuel as [|fuel]; [cbn in Hlt; lia|]);
      cbn [ask_input_file find map]; destruct (isfile w f0) eqn:Hf.
    - eexists _, []. split; [reflexivity|]. cbn [trace].
      split; [now rewrite app_nil_r|]. split; [reflexivity|constructor].
    - unfold print_message, input, bind, emit. cbn [trace sched stdin proc].
      eexists _, _. split; [reflexivity|]. cbn [trace].
      split; [rewrite <- app_assoc; reflexivity|]. split; [reflexivity|].
      repeat constructor; tauto.
    - eexists _, []. split; [reflexivity|]. cbn [trace].
      split; [now rewrite app_nil_r|]. split; [reflexivity|constructor].
    - unfold print_message, input, bind, emit. cbn [trace sched stdin proc].
      destruct (IH fuel (PyStr.strip l)
                   ((tr ++ [Printed "error"
                              (Text "File not found. Please enter a valid file path.")])
                      ++ [Prompted "Please enter the path to your input video file: "])%list
                   sc pr)
        as (st' & evs & Hrun & Ht & Hs & Hall).
      { cbn in Hlt. lia. }
      cbn [find map] in Hrun. rewrite Hrun.
      eexists st', (_ :: _ :: evs). split; [reflexivity|].
      split; [rewrite Ht, <- !app_assoc; reflexivity|].
      split; [exact Hs|]. constructor; [now left|]. constructor; [now right|].
      exact Hall. }
  destruct st as [tr sc typed pr]. cbn [stdin trace].
  destruct (H typed (S (List.length typed)) first tr sc pr)
    as (st' & evs & Hrun & Ht & Hs & Hall); [lia|].
  exists st', evs. repeat split; trivial.
  intros f Hfind. now apply find_some in Hfind.
Qed.

(** X8: the CRF that comes out of the interactive question is always
    between 0 and 51, and the question never raises: an answer that [int]
    reads as a number of that range is kept and nothing is printed; any
    other answer gives 28 after one warning. *)
Theorem read_crf_range (crf_input : string) (st : state) :
  exists crf evs,
    read_crf crf_input st
    = (Done (Ok crf),
       mkState (trace st ++ evs) (sched st) (stdin st) (proc st))
    /\ 0 <= crf <= 51
    /\ ((PyNum.int crf_input = Ok crf /\ evs = [])
        \/ (crf = 28
            /\ evs = [Printed "warning"
                        (Text "Invalid CRF value. Using default (28).")]
            /\ forall n, PyNum.int crf_input = Ok n -> n < 0 \/ 51 < n)).
Proof.
  destruct (PyNum.int crf_input) as [n|e] eqn:E.
  - destruct (Z_le_dec 0 n) as [H0|H0]; [destruct (Z_le_dec n 51) as [H1|H1]|].
    + exists n, []. rewrite (read_crf_valid crf_input n st E (conj H0 H1)).
      rewrite app_nil_r. split; [now destruct st|]. split; [lia|now left].
    + exists 28, [Printed "warning"
                    (Text "Invalid CRF value. Using default (28).")].
      assert (Hout : forall m, PyNum.int crf_input = Ok m -> m < 0 \/ 51 < m)
        by (intros m Hm; rewrite E in Hm; injection Hm as <-; lia).
      rewrite (read_crf_fallback crf_input st Hout).
      split; [reflexivity|]. split; [lia|right; split; [reflexivity|split; [reflexivity|intros m Hm; apply Hout; congruence]]].
    + exists 28, [Printed "warning"
                    (Text "Invalid CRF value. Using default (28).")].
      assert (Hout : forall m, PyNum.int crf_input = Ok m -> m < 0 \/ 51 < m)
        by (intros m Hm; rewrite E in Hm; injection Hm as <-; lia).
      rewrite (read_crf_fallback crf_input st Hout).
      split; [reflexivity|]. split; [lia|right; split; [reflexivity|split; [reflexivity|intros m Hm; apply Hout; congruence]]].
  - exists 28, [Printed "warning"
                  (Text "Invalid CRF value. Using default (28).")].
    assert (Hout : forall m, PyNum.int crf_input = Ok m -> m < 0 \/ 51 < m)
      by (intros m Hm; rewrite E in Hm; discriminate).
    rewrite (read_crf_fallback crf_input st Hout).
    split; [reflexivity|]. split; [lia|right; split; [reflexivity|split; [reflexivity|intros m Hm; apply Hout; congruence]]].
Qed.

Lemma spawns_In (argv : list string) (evs : list event) :
  In argv (spawns evs) <-> In (Spawn argv) evs.
Proof.
  induction evs as [|e evs IH]; cbn; [tauto|].
  destruct e; cbn; rewrite IH; try (split; [tauto|intros [H|H]; [discriminate|tauto]]).
  split; [intros [->|H]; tauto|intros [[= ->]|H]; tauto].
Qed.

(** X9: interactive mode ends for every sequence of answers, and whatever
    is answered it spawns nothing but the prober and the encoder for an
    input path that names an existing file, the encoder with a CRF between
    0 and 51 and one of the nine presets. *)
Theorem interactive_mode_validated (w : world) (st : state) :
  exists r st' evs,
    interactive_mode w st = (Done r, st')
    /\ trace st' = (trace st ++ evs)%list
    /\ forall argv,
         In argv (spawns evs) ->
         exists input_file,
           isfile w input_file = true
           /\ (argv = ffprobe_command input_file
               \/ exists output_file crf preset,
                    0 <= crf <= 51 /\ In preset PRESETS
                    /\ argv = ffmpeg_command input_file output_file crf preset).
Proof.
  destruct (runs_interactive_mode w st) as (r & st' & evs & Hrun & Ht & Hall & _).
  exists r, st', evs. split; [exact Hrun|]. split; [exact Ht|].
  intros argv Hin. apply spawns_In in Hin.
  rewrite Forall_forall in Hall. specialize (Hall _ Hin). cbn in Hall.
  destruct Hall as (input_file & Hf & [->|(o & c & p & [Hc Hp] & ->)]);
    exists input_file; (split; [exact Hf|]); [now left|right].
  now exists o, c, p.
Qed.

(** X10: [main] ends for every command line, world, interleaving and
    sequence of answers.  It never prints with a status that is no key of
    the tables of [print_message], and it spawns nothing but the preflight
    check and, for an input path that names an existing file, the prober
    and the encoder. *)
Theorem main_allowed_events (w : world) (args : Namespace) (st : state) :
  exists r st' evs,
    main w args st = (Done r, st')
    /\ trace st' = (trace st ++ evs)%list
    /\ (forall status m, In (Printed status m) evs -> In status STATUSES)
    /\ (forall argv,
          In argv (spawns evs) ->
          argv = ffmpeg_check_command
          \/ exists input_file,
               isfile w input_file = true
               /\ (argv = ffprobe_command input_file
                   \/ exists output_file crf preset,
                        argv = ffmpeg_command input_file output_file crf preset)).
Proof.
  destruct (runs_main w args st) as (r & st' & evs & Hrun & Ht & Hall & _).
  exists r, st', evs. split; [exact Hrun|]. split; [exact Ht|].
  rewrite Forall_forall in Hall. split.
  - intros status m Hin. destruct (Hall _ Hin) as [H|H]; [discriminate|exact H].
  - intros argv Hin. apply spawns_In in Hin.
    destruct (Hall _ Hin) as [[= ->]|H]; [now left|right].
    cbn in H. destruct H as (input_file & Hf & [->|(o & c & p & _ & ->)]);
      exists input_file; (split; [exact Hf|]); [now left|right].
    now exists o, c, p.
Qed.

End MoreOnInteractive.

(** ** A session that declines every adjustment *)

Section DeclinedSession.

(** X11: when the first path typed names an existing file and the
    questions about the format, the quality and the speed are each answered
    with something other than y or yes (in any case, with any surrounding
    white space), the session asks exactly those questions, skips the three
    follow-up prompts, prints the equivalent command with CRF 28 and preset
    fast, and goes on to the encode with these settings.  The output is the
    default path when the answer to the first question is empty, y or yes,
    and the path typed next otherwise. *)
Theorem interactive_mode_declined (w : world)
  (path keep out fmt quality speed : string)
  (tr : list event) (sc : list nat) (pr : child) :
  let input_file := PyStr.strip path in
  let default :=
    PyStr.mem (PyStr.lower (PyStr.strip keep)) [EmptyString; "y"; "yes"] in
  let output_file :=
    if default then default_output input_file else PyStr.strip out in
  isfile w input_file = true ->
  PyStr.mem (PyStr.lower (PyStr.strip fmt)) ["y"; "yes"] = false ->
  PyStr.mem (PyStr.lower (PyStr.strip quality)) ["y"; "yes"] = false ->
  PyStr.mem (PyStr.lower (PyStr.strip speed)) ["y"; "yes"] = false ->
  interactive_mode w
    (mkState tr sc
       (path :: keep
          :: (if default then [fmt; quality; speed]
              else [out; fmt; quality; speed]))
       pr)
  = try_except
      (compress_video w input_file output_file 28 "fast")
      is_Exception
      (fun e => print_message (ErrorOccurred e) "error" ;;; sys_exit 1)
      (mkState
         (tr ++ [Printed "info" (Text "Running in interactive mode.");
                 Prompted "Please enter the path to your input video file: ";
                 Prompted "Do you want to use the default output location? (Y/n): "]
             ++ (if default then []
                 else [Prompted "Please enter the desired output file path: "])
             ++ [Prompted "Do you want to change the output format? (Y/n): ";
                 Prompted "Do you want to adjust the compression quality? (Y/n): ";
                 Prompted "Do you want to adjust the compression speed? (Y/n): ";
                 Printed "info"
                   (Text ("Equivalent console command: python3 "
                            ++ PyPath.basename (argv0 w) ++ " " ++ dquote
                            ++ input_file ++ dquote ++ " -o " ++ dquote
                            ++ output_file ++ dquote
                            ++ " --crf 28 --preset fast"))])%list
         sc [] pr).
Proof.
  intros input_file default output_file Hfile Hfmt Hq Hs.
  subst output_file. unfold interactive_mode.
  unfold print_message at 1. unfold input, bind, emit, ret.
  cbn [trace sched stdin proc List.length ask_input_file].
  fold input_file. rewrite Hfile. unfold ret.
  cbn [trace sched stdin proc].
  fold default. destruct default.
  - cbn [trace sched stdin proc]. rewrite Hfmt.
    cbn [trace sched stdin proc]. rewrite Hq.
    cbn [trace sched stdin proc]. rewrite Hs.
    unfold print_message at 1. unfold emit.
    cbn [trace sched stdin proc].
    rewrite <- !app_assoc. reflexivity.
  - cbn [trace sched stdin proc]. rewrite Hfmt.
    cbn [trace sched stdin proc]. rewrite Hq.
    cbn [trace sched stdin proc]. rewrite Hs.
    unfold print_message at 1. unfold emit.
    cbn [trace sched stdin proc].
    rewrite <- !app_assoc. reflexivity.
Qed.

(** The session of a user who presses Enter at every question after the
    path. *)
Lemma interactive_mode_declined_example :
  isfile movie_world (PyStr.strip "movie.mp4") = true
  /\ interactive_mode movie_world
       (mkState [] [] ["movie.mp4"; ""; ""; ""; ""] (mkChild [] [] Running 0))
     = try_except
         (compress_video movie_world "movie.mp4" "movie-cmp.mp4" 28 "fast")
         is_Exception
         (fun e => print_message (ErrorOccurred e) "error" ;;; sys_exit 1)
         (mkState
            [Printed "info" (Text "Running in interactive mode.");
             Prompted "Please enter the path to your input video file: ";
             Prompted "Do you want to use the default output location? (Y/n): ";
             Prompted "Do you want to change the output format? (Y/n): ";
             Prompted "Do you want to adjust the compression quality? (Y/n): ";
             Prompted "Do you want to adjust the compression speed? (Y/n): ";
             Printed "info"
               (Text ("Equivalent console command: python3 "
                        ++ PyPath.basename (argv0 movie_world) ++ " " ++ dquote
                        ++ "movie.mp4" ++ dquote ++ " -o " ++ dquote
                        ++ "movie-cmp.mp4" ++ dquote
                        ++ " --crf 28 --preset fast"))]
            [] [] (mkChild [] [] Running 0)).
Proof.
  split; [reflexivity|].
  exact (interactive_mode_declined movie_world "movie.mp4" "" "" "" "" ""
           [] [] (mkChild [] [] Running 0)
           eq_refl eq_refl eq_refl eq_refl).
Defined.

End DeclinedSession.

(** ** An encoder that never runs ahead of its reader *)

Section PatientEncoder.

Lemma monitor_patient (d : option float) (typed : list string) (rc : Z)
  (ws : list string) :
  forall (n fuel : nat) (tr : list event),
    (2 * List.length (filter nonempty ws) <= n)%nat ->
    (n < fuel)%nat ->
    Forall (fun l => scan_result l = Ok tt) ws ->
    exists st' evs,
      monitor fuel d
        (mkState tr (repeat 0%nat n) typed (mkChild ws [] Running rc))
      = (Done (Ok tt), st')
      /\ trace st' = (tr ++ evs)%list
      /\ lines_read evs = filter nonempty ws
      /\ pending (proc st') = [].
Proof.
  induction ws as [|l ws IH]; intros n fuel tr Hn Hfuel Hscan.
  - destruct (monitor_run fuel d
                (mkState tr (repeat 0%nat n) typed (mkChild [] [] Running rc)))
      as (r & st' & evs & Hm & Ht & _ & _ & _ & Hl & _ & _ & _ & Hr).
    { split; [now left|reflexivity]. }
    { cbn [sched]. now rewrite repeat_length. }
    cbn [trace proc] in *. unfold pending at 2 in Hl. cbn in Hl.
    apply app_eq_nil in Hl. destruct Hl as [Hl Hp].
    exists st', evs. rewrite Hm. split.
    + destruct r as [[]|e]; [reflexivity|].
      destruct (Hr e eq_refl) as (_ & l & Hin & _). rewrite Hl in Hin.
      destruct Hin.
    + repeat split; trivial.
  - destruct fuel as [|fuel]; [lia|].
    inversion Hscan as [|? ? Hl Hrest]; subst.
    destruct (nonempty l) eqn:El.
    + cbn [filter List.length] in Hn. rewrite El in Hn. cbn [List.length] in Hn.
      destruct n as [|[|n]]; [lia|lia|].
      cbn [repeat monitor].
      assert (Hread : readline
                        (mkState tr (0%nat :: 0%nat :: repeat 0%nat n) typed
                                 (mkChild (l :: ws) [] Running rc))
                      = (Done (Ok l),
                         mkState (tr ++ [ReadLine l]) (0%nat :: repeat 0%nat n)
                                 typed (mkChild ws [] Running rc))).
      { unfold readline, take_line, tick, get_proc, set_proc, emit, ret, bind.
        cbn [sched trace stdin proc pipe to_write stage returncode
             child_steps child_await fst snd].
        rewrite El. reflexivity. }
      rewrite (bind_ok _ _ _ _ _ Hread). rewrite El. cbn [negb].
      unfold bind at 1. rewrite scan_line_run, Hl.
      unfold poll, tick, get_proc, emit, ret, bind.
      cbn [trace sched stdin proc stage returncode pipe to_write child_steps].
      destruct (IH n fuel
                  ((tr ++ [ReadLine l])
                     ++ map progress_event (progress_of_line d l)
                     ++ [Polled None])%list)
        as (st' & evs & Hm & Ht & Hlr & Hp); [lia|lia|exact Hrest|].
      rewrite <- !app_assoc in Hm. rewrite <- !app_assoc. rewrite Hm.
      exists st', (ReadLine l
                     :: map progress_event (progress_of_line d l)
                     ++ Polled None :: evs)%list.
      split; [reflexivity|]. split.
      { rewrite Ht, <- !app_assoc. reflexivity. }
      split; [|exact Hp].
      cbn [lines_read filter]. rewrite El.
      rewrite lines_read_app, lines_read_progress. cbn [app lines_read].
      now rewrite Hlr.
    + assert (Hsame : readline
                        (mkState tr (repeat 0%nat n) typed
                                 (mkChild (l :: ws) [] Running rc))
                      = readline
                          (mkState tr (repeat 0%nat n) typed
                                   (mkChild ws [] Running rc))).
      { unfold readline, take_line, tick, get_proc, set_proc, emit, ret, bind,
          child_finish.
        destruct n as [|n]; cbn [repeat];
          cbn [sched trace stdin proc pipe to_write stage returncode
               child_steps child_await filter app];
          rewrite El; reflexivity. }
      cbn [filter] in Hn. rewrite El in Hn.
      destruct (IH n (S fuel) tr Hn Hfuel Hrest) as (st' & evs & Hm & Hrest').
      exists st', evs. split.
      * cbn [monitor] in *. unfold bind at 1. rewrite Hsame. exact Hm.
      * cbn [filter]. rewrite El. exact Hrest'.
Qed.

(** X12: an encoder that writes its lines only as its reader asks for them,
    and that is seen to exit only after the last of them, loses none: when
    every line scans without an exception the loop returns after it has
    read every line that is not empty, in order, it has printed the
    percentage of each line that has one, and nothing is left pending. *)
Theorem monitor_loop_patient_encoder (d : option float) (tr : list event)
  (n : nat) (typed lines : list string) (rc : Z) :
  (2 * List.length (filter nonempty lines) <= n)%nat ->
  Forall (fun l => scan_result l = Ok tt) lines ->
  exists st' evs,
    monitor_loop d
      (mkState tr (repeat 0%nat n) typed (mkChild lines [] Running rc))
    = (Done (Ok tt), st')
    /\ trace st' = (tr ++ evs)%list
    /\ lines_read evs = filter nonempty lines
    /\ percentages evs
       = flat_map (progress_of_line d) (filter nonempty lines)
    /\ pending (proc st') = []
    /\ stage (proc st') = Exited.
Proof.
  intros Hn Hscan.
  destruct (monitor_loop_run d
              (mkState tr (repeat 0%nat n) typed (mkChild lines [] Running rc)))
    as (r & st1 & evs1 & Hm1 & Ht1 & _ & _ & _ & _ & Hq & _ & Hx & _).
  { split; [now left|reflexivity]. }
  unfold monitor_loop in *. cbn [sched] in *.
  destruct (monitor_patient d typed rc lines n
              (S (List.length (repeat 0%nat n))) tr Hn)
    as (st' & evs & Hm & Ht & Hl & Hp); [rewrite repeat_length; lia|exact Hscan|].
  rewrite Hm in Hm1. injection Hm1 as <- <-.
  cbn [trace] in Ht1. rewrite Ht in Ht1. apply app_inv_head in Ht1. subst evs1.
  exists st', evs. rewrite Hm. rewrite Hl in Hq.
  repeat split; trivial. now apply Hx.
Qed.

Lemma monitor_loop_patient_encoder_example :
  exists st' evs,
    monitor_loop (Some 120%float)
      (mkState [] (repeat 0%nat 6) [] (mkChild progress_lines [] Running 0))
    = (Done (Ok tt), st')
    /\ trace st' = ([] ++ evs)%list
    /\ lines_read evs = filter nonempty progress_lines
    /\ percentages evs
       = flat_map (progress_of_line (Some 120%float))
                  (filter nonempty progress_lines)
    /\ pending (proc st') = []
    /\ stage (proc st') = Exited.
Proof.
  apply (monitor_loop_patient_encoder (Some 120%float) [] 6 [] progress_lines 0).
  - vm_compute. lia.
  - repeat constructor.
Defined.

End PatientEncoder.

(** ** The extension of the default output *)

Section DefaultExtension.
Import PyStr PyPath.

Lemma rfind_from_app (c : ascii) (a b : string) (i acc : Z) :
  rfind_from c (a ++ b) i acc
  = rfind_from c b (i + Z.of_nat (String.length a)) (rfind_from c a i acc).
Proof.
  revert i acc. induction a as [|d a IH]; intros i acc.
  - cbn. now rewrite Z.add_0_r.
  - cbn [append rfind_from String.length]. rewrite IH. f_equal. lia.
Qed.

Lemma rfind_from_absent (c : ascii) (s : string) (i acc : Z) :
  count_char c s = 0%nat -> rfind_from c s i acc = acc.
Proof.
  revert i acc. induction s as [|d s IH]; intros i acc H; [reflexivity|].
  cbn [count_char rfind_from] in *. destruct (Ascii.eqb d c); [discriminate|].
  now apply IH.
Qed.

Lemma rfind_from_spec (c : ascii) (s : string) (i acc : Z) :
  acc < i ->
  (rfind_from c s i acc = acc /\ count_char c s = 0%nat)
  \/ exists a e,
       s = a ++ String c e
       /\ rfind_from c s i acc = i + Z.of_nat (String.length a)
       /\ count_char c e = 0%nat.
Proof.
  revert i acc. induction s as [|d s IH]; intros i acc Hlt.
  - now left.
  - cbn [rfind_from count_char]. destruct (Ascii.eqb d c) eqn:Ed.
    + apply Ascii.eqb_eq in Ed. subst d. right.
      destruct (IH (i + 1) i ltac:(lia)) as [[Hr Hc]|(a & e & -> & Hr & Hc)].
      * exists EmptyString, s. cbn. rewrite Hr. repeat split; [lia|exact Hc].
      * exists (String c a), e. cbn [append String.length]. rewrite Hr.
        repeat split; [lia|exact Hc].
    + destruct (IH (i + 1) acc ltac:(lia)) as [[Hr Hc]|(a & e & -> & Hr & Hc)].
      * left. now split.
      * right. exists (String d a), e. cbn [append String.length]. rewrite Hr.
        repeat split; [lia|exact Hc].
Qed.

Lemma skip_dots_app (fuel : nat) (a b : string) (i dot : Z) :
  0 <= i -> dot <= Z.of_nat (String.length a) ->
  skip_dots fuel (a ++ b) i dot = skip_dots fuel a i dot.
Proof.
  revert i. induction fuel as [|fuel IH]; intros i Hi Hdot; [reflexivity|].
  cbn [skip_dots]. destruct (i <? dot) eqn:Hlt; [|reflexivity].
  apply Z.ltb_lt in Hlt.
  rewrite <- (append_correct1 a b (Z.to_nat i)) by lia.
  destruct (String.get (Z.to_nat i) a) as [x|]; [|reflexivity].
  rewrite IH by lia. reflexivity.
Qed.

Lemma skip_dots_mono (fuel fuel' : nat) (a b : string) (i dot dot' : Z) :
  skip_dots fuel a i dot = true ->
  0 <= i -> dot <= Z.of_nat (String.length a) ->
  (fuel <= fuel')%nat -> dot <= dot' ->
  skip_dots fuel' (a ++ b) i dot' = true.
Proof.
  revert fuel' i. induction fuel as [|fuel IH]; intros fuel' i H Hi Ha Hf Hd;
    [discriminate|].
  destruct fuel' as [|fuel']; [lia|]. cbn [skip_dots] in *.
  destruct (i <? dot) eqn:Hlt; [|discriminate].
  apply Z.ltb_lt in Hlt.
  assert (Hlt' : (i <? dot') = true) by (apply Z.ltb_lt; lia).
  rewrite Hlt'.
  rewrite <- (append_correct1 a b (Z.to_nat i)) by lia.
  destruct (String.get (Z.to_nat i) a) as [x|]; [|reflexivity].
  destruct (Ascii.eqb x ".") eqn:Ex.
  - apply Ascii.eqb_eq in Ex. subst x. apply IH; [exact H|lia|lia|lia|lia].
  - destruct x as [[] [] [] [] [] [] [] []]; try reflexivity; discriminate.
Qed.

Lemma substring_all (s : string) :
  String.substring 0 (String.length s) s = s.
Proof.
  induction s as [|c s IH]; cbn; [reflexivity|now rewrite IH].
Qed.

Lemma take_app (a b : string) : take (Z.of_nat (String.length a)) (a ++ b) = a.
Proof.
  unfold take. rewrite Nat2Z.id.
  induction a as [|c a IH]; cbn.
  - now destruct b.
  - now rewrite IH.
Qed.

Lemma drop_app (a b : string) : drop (Z.of_nat (String.length a)) (a ++ b) = b.
Proof.
  unfold drop. rewrite Nat2Z.id.
  induction a as [|c a IH]; cbn [append String.length].
  - cbn. rewrite Nat.sub_0_r. apply substring_all.
  - cbn. exact IH.
Qed.

Lemma app_empty_r (s : string) : s ++ "" = s.
Proof. induction s as [|c s IH]; cbn; [reflexivity|now rewrite IH]. Qed.

(** X13: the default output path has the extension of the input path:
    [os.path.splitext] splits it into the base name of the input followed
    by [-cmp], and the extension of the input, also when that extension is
    empty or the name starts with dots. *)
Theorem default_output_keeps_extension (input_file : string) :
  splitext (default_output input_file)
  = (fst (splitext input_file) ++ "-cmp", snd (splitext input_file)).
Proof.
  pose proof (rfind_from_bound "/" input_file 0 (-1) ltac:(lia) ltac:(lia))
    as Hsep.
  pose proof (rfind_from_bound "." input_file 0 (-1) ltac:(lia) ltac:(lia))
    as Hdot.
  fold (rfind "/" input_file) in Hsep. fold (rfind "." input_file) in Hdot.
  assert (Hplain :
            (rfind "/" input_file <? rfind "." input_file) = false
            \/ skip_dots (Z.to_nat (rfind "." input_file - rfind "/" input_file))
                 input_file (rfind "/" input_file + 1) (rfind "." input_file)
               = false ->
            splitext (input_file ++ "-cmp") = (input_file ++ "-cmp", EmptyString)).
  { intros Hcase. unfold splitext.
    assert (Es : rfind "/" (input_file ++ "-cmp") = rfind "/" input_file)
      by (unfold rfind; rewrite rfind_from_app; reflexivity).
    assert (Ed : rfind "." (input_file ++ "-cmp") = rfind "." input_file)
      by (unfold rfind; rewrite rfind_from_app; reflexivity).
    rewrite Es, Ed.
    destruct (rfind "/" input_file <? rfind "." input_file) eqn:Hlt;
      [|reflexivity].
    destruct Hcase as [Hcase|Hcase]; [discriminate|].
    rewrite skip_dots_app by lia. rewrite Hcase. reflexivity. }
  unfold default_output.
  destruct (splitext input_file) as [base_name ext] eqn:E. cbn [fst snd].
  unfold splitext in E.
  destruct (rfind "/" input_file <? rfind "." input_file) eqn:Hlt.
  - destruct (skip_dots _ _ _ _) eqn:Hskip.
    + apply Z.ltb_lt in Hlt.
      destruct (rfind_from_spec "." input_file 0 (-1) ltac:(lia))
        as [[Hr _]|(a & e & Hin & Hr & He)];
        fold (rfind "." input_file) in Hr; [lia|].
      rewrite Z.add_0_l in Hr. rewrite Hr in *.
      injection E as <- <-. rewrite Hin in *.
      rewrite take_app, drop_app.
      assert (Hsa : rfind "/" (a ++ String "." e)
                    = rfind_from "/" e (Z.of_nat (String.length a) + 1)
                        (rfind "/" a))
        by (unfold rfind; rewrite rfind_from_app; reflexivity).
      pose proof (rfind_from_bound "/" a 0 (-1) ltac:(lia) ltac:(lia)) as Hba.
      fold (rfind "/" a) in Hba.
      destruct (rfind_from_spec "/" e (Z.of_nat (String.length a) + 1)
                  (rfind "/" a) ltac:(lia))
        as [[Hre Hce]|(a' & e' & _ & Hre & _)]; [|lia].
      rewrite Hre in Hsa.
      replace (a ++ "-cmp" ++ String "." e)
        with ((a ++ "-cmp") ++ String "." e)
        by (rewrite app_string_assoc; reflexivity).
      assert (Hlen : Z.of_nat (String.length (a ++ "-cmp"))
                     = Z.of_nat (String.length a) + 4)
        by (rewrite length_app; cbn; lia).
      assert (Es' : rfind "/" ((a ++ "-cmp") ++ String "." e) = rfind "/" a).
      { unfold rfind. rewrite !rfind_from_app.
        cbn [rfind_from Ascii.eqb Bool.eqb]. cbn.
        now apply rfind_from_absent. }
      assert (Ed' : rfind "." ((a ++ "-cmp") ++ String "." e)
                    = Z.of_nat (String.length (a ++ "-cmp"))).
      { unfold rfind. rewrite (rfind_from_app "." (a ++ "-cmp")).
        cbn [rfind_from]. rewrite Ascii.eqb_refl.
        rewrite rfind_from_absent by exact He. lia. }
      unfold splitext. rewrite Es', Ed'.
      assert (Hlt' : (rfind "/" a <? Z.of_nat (String.length (a ++ "-cmp")))
                     = true) by (apply Z.ltb_lt; lia).
      rewrite Hlt'.
      rewrite Hsa in Hskip.
      rewrite skip_dots_app in Hskip by lia.
      rewrite (app_string_assoc a "-cmp" (String "." e)).
      rewrite (skip_dots_mono _ _ a _ _ _ _ Hskip) by lia.
      rewrite <- (app_string_assoc a "-cmp" (String "." e)).
      now rewrite take_app, drop_app.
    + injection E as <- <-.
      change ("-cmp" ++ "") with "-cmp". apply Hplain. now right.
  - injection E as <- <-.
    change ("-cmp" ++ "") with "-cmp". apply Hplain. now left.
Qed.

End DefaultExtension.

(** ** What the pattern finds *)

Section PatternFinds.
Import PyStr.

Lemma lits_spec (p s r : string) :
  Pattern.lits p s = Some r -> s = p ++ r.
Proof.
  revert s. induction p as [|c p IH]; intros s H; cbn in *.
  - now injection H as ->.
  - destruct s as [|d s]; cbn in H; [discriminate|].
    destruct (Ascii.eqb d c) eqn:E; [|discriminate].
    apply Ascii.eqb_eq in E. subst d. now rewrite (IH s H).
Qed.

Lemma digits1_numeral_app (d r : string) :
  numeral d = true ->
  match r with String c _ => isdigit c = false | EmptyString => True end ->
  Pattern.digits1 (d ++ r) = Some (d, r).
Proof.
  unfold numeral, Pattern.digits1. intros Hd Hr.
  apply andb_true_iff in Hd. destruct Hd as [Hn Hall].
  rewrite (span_digits_app d r Hall Hr).
  destruct d; [discriminate|reflexivity].
Qed.

Lemma match_at_timestamp (h m s f post : string) :
  numeral h = true -> numeral m = true ->
  numeral s = true -> numeral f = true ->
  match post with String c _ => isdigit c = false | EmptyString => True end ->
  Pattern.match_at ("time=" ++ h ++ ":" ++ m ++ ":" ++ s ++ "." ++ f ++ post)
  = Some (h ++ ":" ++ m ++ ":" ++ s ++ "." ++ f).
Proof.
  intros Hh Hm Hs Hf Hpost. unfold Pattern.match_at.
  change (Pattern.lits "time=" ("time=" ++ h ++ ":" ++ m ++ ":" ++ s ++ "." ++ f ++ post))
    with (Some (h ++ ":" ++ m ++ ":" ++ s ++ "." ++ f ++ post)).
  cbv beta iota.
  rewrite (digits1_numeral_app h _ Hh) by reflexivity.
  cbv beta iota.
  change (Pattern.lit ":" (":" ++ m ++ ":" ++ s ++ "." ++ f ++ post))
    with (Some (m ++ ":" ++ s ++ "." ++ f ++ post)).
  cbv beta iota.
  rewrite (digits1_numeral_app m _ Hm) by reflexivity.
  cbv beta iota.
  change (Pattern.lit ":" (":" ++ s ++ "." ++ f ++ post))
    with (Some (s ++ "." ++ f ++ post)).
  cbv beta iota.
  rewrite (digits1_numeral_app s _ Hs) by reflexivity.
  cbv beta iota.
  change (Pattern.lit "." ("." ++ f ++ post)) with (Some (f ++ post)).
  cbv beta iota.
  rewrite (digits1_numeral_app f _ Hf) by exact Hpost.
  cbv beta iota.
  reflexivity.
Qed.

Lemma match_at_before (c : ascii) (pre rest : string) :
  contains "time=" (String c pre) = false ->
  Pattern.match_at (String c pre ++ "time=" ++ rest) = None.
Proof.
  intros H. unfold Pattern.match_at.
  destruct (Pattern.lits "time=" (String c pre ++ "time=" ++ rest))
    as [r|] eqn:E; [|reflexivity].
  exfalso. apply lits_spec in E.
  cbn [contains] in H. apply orb_false_iff in H. destruct H as [H _].
  destruct pre as [|c2 [|c3 [|c4 [|c5 pre]]]]; cbn in E;
    try (injection E; intros; subst; discriminate).
  injection E as -> -> -> -> -> _.
  assert (Ht : String.prefix "time=" ("time=" ++ pre) = true)
    by (apply prefix_correct; cbn; now destruct pre).
  cbn [append] in Ht. rewrite Ht in H. discriminate.
Qed.

(** X14: the pattern finds the timestamp that follows the first [time=] of
    a line: when nothing before it contains [time=], its four fields are
    numerals and no digit follows the last one, [search] returns exactly
    that timestamp, whatever surrounds it. *)
Theorem search_finds_first_timestamp (pre h m s f post : string) :
  contains "time=" pre = false ->
  numeral h = true -> numeral m = true ->
  numeral s = true -> numeral f = true ->
  match post with String c _ => isdigit c = false | EmptyString => True end ->
  Pattern.search
    (pre ++ "time=" ++ h ++ ":" ++ m ++ ":" ++ s ++ "." ++ f ++ post)
  = Some (h ++ ":" ++ m ++ ":" ++ s ++ "." ++ f).
Proof.
  intros Hpre Hh Hm Hs Hf Hpost.
  pose proof (match_at_timestamp h m s f post Hh Hm Hs Hf Hpost) as Hat.
  induction pre as [|c pre IH].
  - cbn [append] in *. cbn [Pattern.search]. now rewrite Hat.
  - pose proof (match_at_before c pre
                  (h ++ ":" ++ m ++ ":" ++ s ++ "." ++ f ++ post) Hpre)
      as Hnone.
    cbn [append] in *. cbn [Pattern.search]. rewrite Hnone.
    apply IH. cbn [contains] in Hpre. apply orb_false_iff in Hpre.
    exact (proj2 Hpre).
Qed.

Lemma search_finds_first_timestamp_example :
  Pattern.search
    "frame= 1500 fps= 25 q=28.0 size= 256kB time=00:01:00.00 bitrate=34.9kbits/s"
  = Some "00:01:00.00".
Proof.
  exact (search_finds_first_timestamp
           "frame= 1500 fps= 25 q=28.0 size= 256kB " "00" "01" "00" "00"
           " bitrate=34.9kbits/s"
           eq_refl eq_refl eq_refl eq_refl eq_refl eq_refl).
Defined.

End PatternFinds.

(** ** The command line in interactive mode *)

Section InteractiveArguments.

(** X15: when interactive mode is requested, or no input file is given,
    nothing else of the command line is read: two command lines that both
    lead to interactive mode give the same run, whatever output, CRF and
    preset they name. *)
Theorem main_interactive_ignores_settings (w : world) (args args' : Namespace)
  (st : state) :
  args_interactive args || negb (str_truthy (args_input_file args)) = true ->
  args_interactive args' || negb (str_truthy (args_input_file args')) = true ->
  main w args st = main w args' st
  /\ (forall st1,
        check_ffmpeg w st = (Done (Ok true), st1) ->
        main w args st = interactive_mode w st1).
Proof.
  intros H H'. unfold main, bind. rewrite H, H'.
  split; [reflexivity|]. intros st1 ->. reflexivity.
Qed.

Lemma main_interactive_ignores_settings_example :
  main movie_world (mkNamespace (Some "movie.mp4") (Some "out.mkv") 18 "slow" true)
       (initial [] ["movie.mp4"])
  = main movie_world (mkNamespace None None 28 "medium" false)
         (initial [] ["movie.mp4"]).
Proof.
  exact (proj1 (main_interactive_ignores_settings movie_world
                  (mkNamespace (Some "movie.mp4") (Some "out.mkv") 18 "slow" true)
                  (mkNamespace None None 28 "medium" false)
                  (initial [] ["movie.mp4"]) eq_refl eq_refl)).
Defined.

End InteractiveArguments.
